(** * drizzle-mcp: a shallow embedding of the config loader, the database
      manager and the MCP tool dispatcher, with the properties of the
      specification stated and settled against it.

    Sources embedded:
    - [config.js]      (ConfigLoader, DrizzleConfigSchema),
    - [database.ts]    (DatabaseManager, the revision with
                        [importFromProject] and the postgres-js / pg
                        fallback),
    - [dist/server.js] (DrizzleMCPServer and its request handlers; the
                        older [server.ts] differs in the resource URIs,
                        [sqlite://...], and in the manager's constructor),
    - [cli.ts]         (the action of the command and its signal handlers).

    Conventions.  A JavaScript value is a [JsValue]; numbers are restricted
    to the integers JavaScript holds exactly and prints in decimal, those
    below 2^53 in magnitude (ports, ids).  An [async] method of a class
    whose fields are the record [O] is a computation [M O A]: it reads the
    history of external effects performed so far, and returns a completion
    (a value or a thrown error), the updated object and the effects it
    performed.
    Field updates made before a [throw] persist, as they do in JavaScript.
    Everything outside the repository (file system, module loader, database
    drivers, the drizzle-kit subprocess) is an oracle of the [World]. *)

From Stdlib Require Import String Ascii List ZArith Bool Lia DecimalString.
Import ListNotations.
Open Scope string_scope.
Set Warnings "-register-all".

(* ================================================================== *)
(** ** JavaScript values *)
(* ================================================================== *)

Inductive JsValue : Type :=
| JUndefined
| JNull
| JBool (b : bool)
| JNum (n : Z)
| JStr (s : string)
| JArr (items : list JsValue)
| JObj (props : list (string * JsValue)).

(** [!!v] *)
Definition truthy (v : JsValue) : bool :=
  match v with
  | JUndefined | JNull => false
  | JBool b => b
  | JNum n => negb (n =? 0)%Z
  | JStr s => negb (s =? "")
  | JArr _ | JObj _ => true
  end.

(** [typeof v] *)
Definition typeof (v : JsValue) : string :=
  match v with
  | JUndefined => "undefined"
  | JNull => "object"
  | JBool _ => "boolean"
  | JNum _ => "number"
  | JStr _ => "string"
  | JArr _ | JObj _ => "object"
  end.

Fixpoint assoc (k : string) (l : list (string * JsValue)) : option JsValue :=
  match l with
  | [] => None
  | (k', v) :: t => if k =? k' then Some v else assoc k t
  end.

(** [v.k] on a value that is neither [undefined] nor [null]. *)
Definition prop (k : string) (v : JsValue) : JsValue :=
  match v with
  | JObj ps => match assoc k ps with Some x => x | None => JUndefined end
  | _ => JUndefined
  end.

Definition nl : string := String "010"%char EmptyString.
Definition dquote : string := String "034"%char EmptyString.

Definition string_of_Z (n : Z) : string := NilZero.string_of_int (Z.to_int n).

(** [String(v)], as a template literal converts its holes. *)
Fixpoint String_of (v : JsValue) : string :=
  match v with
  | JUndefined => "undefined"
  | JNull => "null"
  | JBool true => "true"
  | JBool false => "false"
  | JNum n => string_of_Z n
  | JStr s => s
  | JArr items =>
      String.concat ","
        (map (fun x => match x with
                       | JUndefined | JNull => ""
                       | _ => String_of x
                       end) items)
  | JObj _ => "[object Object]"
  end.

(* ------------------------------------------------------------------ *)
(** *** [v > 0] *)

(** The white space and the line terminators [StringToNumber] strips, as
    UTF-8 byte sequences of one, two and three bytes. *)
Definition white_space_1 (a : ascii) : bool :=
  existsb (Nat.eqb (nat_of_ascii a)) [9; 10; 11; 12; 13; 32].

Definition white_space_2 (a b : ascii) : bool :=
  Nat.eqb (nat_of_ascii a) 194 && Nat.eqb (nat_of_ascii b) 160.

Definition white_space_3 (a b c : ascii) : bool :=
  let a := nat_of_ascii a in
  let b := nat_of_ascii b in
  let c := nat_of_ascii c in
  Nat.eqb a 225 && Nat.eqb b 154 && Nat.eqb c 128
  || Nat.eqb a 226 && Nat.eqb b 128
     && (Nat.leb 128 c && Nat.leb c 138 || existsb (Nat.eqb c) [168; 169; 175])
  || Nat.eqb a 226 && Nat.eqb b 129 && Nat.eqb c 159
  || Nat.eqb a 227 && Nat.eqb b 128 && Nat.eqb c 128
  || Nat.eqb a 239 && Nat.eqb b 187 && Nat.eqb c 191.

(** The bytes left after the leading white space; [backwards] reads the
    bytes of a reversed string. *)
Fixpoint strip (backwards : bool) (s : list ascii) : list ascii :=
  match s with
  | a :: t1 =>
      if white_space_1 a then strip backwards t1
      else
        match t1 with
        | b :: t2 =>
            if (if backwards then white_space_2 b a else white_space_2 a b)
            then strip backwards t2
            else
              match t2 with
              | c :: t3 =>
                  if (if backwards then white_space_3 c b a else white_space_3 a b c)
                  then strip backwards t3
                  else s
              | [] => s
              end
        | [] => s
        end
  | [] => s
  end.

Definition trim (s : string) : list ascii :=
  rev (strip true (rev (strip false (list_ascii_of_string s)))).

(** The value of a digit in a base up to sixteen. *)
Definition digit_value (base : nat) (c : ascii) : option nat :=
  let n := nat_of_ascii c in
  let v := if Nat.leb 48 n && Nat.leb n 57 then Some (n - 48)
           else if Nat.leb 97 n && Nat.leb n 102 then Some (n - 87)
           else if Nat.leb 65 n && Nat.leb n 70 then Some (n - 55)
           else None in
  match v with
  | Some d => if Nat.ltb d base then Some d else None
  | None => None
  end.

(** The longest prefix of digits: its value, its length, and the rest. *)
Fixpoint digits (base : nat) (s : list ascii) (value : Z) (count : nat)
  : Z * nat * list ascii :=
  match s with
  | c :: rest =>
      match digit_value base c with
      | Some d => digits base rest (value * Z.of_nat base + Z.of_nat d) (S count)
      | None => (value, count, s)
      end
  | [] => (value, count, s)
  end.

(** [ExponentPart] at the end of a literal: [Some 0] when there is none. *)
Definition exponent_part (s : list ascii) : option Z :=
  match s with
  | [] => Some 0%Z
  | e :: rest =>
      if existsb (Ascii.eqb e) ["e"%char; "E"%char] then
        let '(negative, rest) :=
          match rest with
          | "-"%char :: r => (true, r)
          | "+"%char :: r => (false, r)
          | _ => (false, rest)
          end in
        match digits 10 rest 0%Z 0 with
        | (_, O, _) => None
        | (v, _, []) => Some (if negative then (- v)%Z else v)
        | _ => None
        end
      else None
  end.

(** Whether the double nearest to [m * 10^k], for [m > 0], is above zero:
    it is not when the value is at most half the least denormal. *)
Definition above_zero (m k : Z) : bool :=
  if (0 <=? k)%Z then true
  else (10 ^ (- k) <? m * 2 ^ 1075)%Z.

(** [StringToNumber(s) > 0] *)
Definition string_positive (s : string) : bool :=
  match trim s with
  | "0"%char :: x :: rest =>
      let base :=
        if existsb (Ascii.eqb x) ["x"%char; "X"%char] then Some 16
        else if existsb (Ascii.eqb x) ["o"%char; "O"%char] then Some 8
        else if existsb (Ascii.eqb x) ["b"%char; "B"%char] then Some 2
        else None in
      match base with
      | Some b =>
          match digits b rest 0%Z 0 with
          | (_, O, _) => false
          | (v, _, []) => (0 <? v)%Z
          | _ => false
          end
      | None =>
          let '(m1, n1, r1) := digits 10 ("0"%char :: x :: rest) 0%Z 0 in
          let '(m, n2, r2) :=
            match r1 with
            | "."%char :: r => digits 10 r m1 0
            | _ => (m1, 0, r1)
            end in
          match exponent_part r2 with
          | Some e => (0 <? m)%Z && above_zero m (e - Z.of_nat n2)
          | None => false
          end
      end
  | "-"%char :: _ => false
  | t =>
      let unsigned := match t with "+"%char :: r => r | _ => t end in
      if String.eqb (string_of_list_ascii unsigned) "Infinity" then true
      else
        let '(m1, n1, r1) := digits 10 unsigned 0%Z 0 in
        let '(m, n2, r2) :=
          match r1 with
          | "."%char :: r => digits 10 r m1 0
          | _ => (m1, 0, r1)
          end in
        if Nat.eqb (n1 + n2) 0 then false
        else
          match exponent_part r2 with
          | Some e => (0 <? m)%Z && above_zero m (e - Z.of_nat n2)
          | None => false
          end
  end.

(** [v > 0], the comparison of a value with a number. *)
Definition greater_than_zero (v : JsValue) : bool :=
  match v with
  | JUndefined | JNull | JObj _ => false
  | JBool b => b
  | JNum n => (0 <? n)%Z
  | JStr s => string_positive s
  | JArr _ => string_positive (String_of v)
  end.

(** The code points of a string, each as a string: what iterating the
    string yields. *)
Definition continuation (c : ascii) : bool :=
  Nat.leb 128 (nat_of_ascii c) && Nat.ltb (nat_of_ascii c) 192.

Fixpoint code_points (s : string) : list string :=
  match s with
  | EmptyString => []
  | String c rest =>
      match code_points rest with
      | String d g :: gs =>
          if continuation d then String c (String d g) :: gs
          else String c EmptyString :: String d g :: gs
      | gs => String c EmptyString :: gs
      end
  end.

(* ------------------------------------------------------------------ *)
(** *** [JSON.stringify(v, null, 2)] *)

Definition hex_digit (n : nat) : string :=
  match n with
  | 0 => "0" | 1 => "1" | 2 => "2" | 3 => "3" | 4 => "4" | 5 => "5"
  | 6 => "6" | 7 => "7" | 8 => "8" | 9 => "9" | 10 => "a" | 11 => "b"
  | 12 => "c" | 13 => "d" | 14 => "e" | _ => "f"
  end.

Definition json_escape_char (c : ascii) : string :=
  let n := nat_of_ascii c in
  if Nat.eqb n 34 then "\" ++ dquote
  else if Nat.eqb n 92 then "\\"
  else if Nat.eqb n 8 then "\b"
  else if Nat.eqb n 9 then "\t"
  else if Nat.eqb n 10 then "\n"
  else if Nat.eqb n 12 then "\f"
  else if Nat.eqb n 13 then "\r"
  else if Nat.ltb n 32 then "\u00" ++ hex_digit (n / 16) ++ hex_digit (n mod 16)
  else String c EmptyString.

Fixpoint json_escape (s : string) : string :=
  match s with
  | EmptyString => ""
  | String c t => json_escape_char c ++ json_escape t
  end.

Definition json_quote (s : string) : string := dquote ++ json_escape s ++ dquote.

(** Serialisation at the current indentation [ind]; [None] is the
    [undefined] that [JSON.stringify] returns for an [undefined] value. *)
Fixpoint stringify_at (ind : string) (v : JsValue) : option string :=
  match v with
  | JUndefined => None
  | JNull => Some "null"
  | JBool true => Some "true"
  | JBool false => Some "false"
  | JNum n => Some (string_of_Z n)
  | JStr s => Some (json_quote s)
  | JArr items =>
      let ind' := ind ++ "  " in
      let cells :=
        (fix go (l : list JsValue) : list string :=
           match l with
           | [] => []
           | x :: t =>
               (ind' ++ match stringify_at ind' x with
                        | Some s => s
                        | None => "null"
                        end) :: go t
           end) items in
      match cells with
      | [] => Some "[]"
      | _ => Some ("[" ++ nl ++ String.concat ("," ++ nl) cells ++ nl ++ ind ++ "]")
      end
  | JObj props =>
      let ind' := ind ++ "  " in
      let cells :=
        (fix go (l : list (string * JsValue)) : list string :=
           match l with
           | [] => []
           | (k, x) :: t =>
               match stringify_at ind' x with
               | Some s => (ind' ++ json_quote k ++ ": " ++ s) :: go t
               | None => go t
               end
           end) props in
      match cells with
      | [] => Some "{}"
      | _ => Some ("{" ++ nl ++ String.concat ("," ++ nl) cells ++ nl ++ ind ++ "}")
      end
  end.

(** [`${JSON.stringify(v, null, 2)}`] *)
Definition JSON_stringify (v : JsValue) : string :=
  match stringify_at "" v with
  | Some s => s
  | None => "undefined"
  end.

(* ================================================================== *)
(** ** [node:path] (POSIX) and [node:url] *)
(* ================================================================== *)

Definition slash : ascii := "/"%char.

Definition isAbsolute (p : string) : bool :=
  match p with
  | String c _ => Ascii.eqb c slash
  | EmptyString => false
  end.

(** The segments of [p] between slashes. *)
Fixpoint split_slash (cur : string) (p : string) : list string :=
  match p with
  | EmptyString => [cur]
  | String c t =>
      if Ascii.eqb c slash then cur :: split_slash "" t
      else split_slash (cur ++ String c EmptyString) t
  end.

(** [normalizeString]: drops empty and [.] segments and resolves [..];
    [acc] holds the kept segments, last one first. *)
Fixpoint normalizeSegments (allowAboveRoot : bool) (acc : list string)
         (segs : list string) : list string :=
  match segs with
  | [] => rev acc
  | s :: rest =>
      if (s =? "") || (s =? ".") then normalizeSegments allowAboveRoot acc rest
      else if s =? ".." then
        match acc with
        | [] =>
            if allowAboveRoot
            then normalizeSegments allowAboveRoot [".."] rest
            else normalizeSegments allowAboveRoot [] rest
        | last :: acc' =>
            if last =? ".."
            then normalizeSegments allowAboveRoot (".." :: acc) rest
            else normalizeSegments allowAboveRoot acc' rest
        end
      else normalizeSegments allowAboveRoot (s :: acc) rest
  end.

(** The right-to-left scan of [path.resolve]: prepend arguments until an
    absolute one is met. *)
Fixpoint resolve_scan (rev_args : list string) (acc : string) : string * bool :=
  match rev_args with
  | [] => (acc, false)
  | p :: rest =>
      if p =? "" then resolve_scan rest acc
      else if isAbsolute p then (p ++ "/" ++ acc, true)
      else resolve_scan rest (p ++ "/" ++ acc)
  end.

(** [path.resolve(...args)], with [pcwd] the value of [process.cwd()]. *)
Definition resolve (pcwd : string) (args : list string) : string :=
  let '(joined, absolute) :=
    match resolve_scan (rev args) "" with
    | (acc, true) => (acc, true)
    | (acc, false) => (pcwd ++ "/" ++ acc, isAbsolute pcwd)
    end in
  let body :=
    String.concat "/"
      (normalizeSegments (negb absolute) [] (split_slash "" joined)) in
  if absolute then "/" ++ body
  else if body =? "" then "." else body.

(** Scan of [path.dirname] from the end of the path towards index 1; the
    argument is [path.slice(1)] reversed.  The result is [end - 1]. *)
Fixpoint dirname_scan (l : list ascii) (matchedSlash : bool) : option nat :=
  match l with
  | [] => None
  | c :: l' =>
      if Ascii.eqb c slash then
        if matchedSlash then dirname_scan l' true else Some (List.length l')
      else dirname_scan l' false
  end.

(** [path.dirname(path)] *)
Definition dirname (path : string) : string :=
  match path with
  | EmptyString => "."
  | String c0 rest =>
      let hasRoot := Ascii.eqb c0 slash in
      match dirname_scan (rev (list_ascii_of_string rest)) true with
      | None => if hasRoot then "/" else "."
      | Some k =>
          if hasRoot && Nat.eqb k 0 then "//"
          else String c0 (string_of_list_ascii (firstn k (list_ascii_of_string rest)))
      end
  end.

(** The characters of an absolute POSIX path that [pathToFileURL] writes
    as [%XX]: those it replaces itself ([%], [\], line feed, carriage
    return, tab, [?] and [#]) and those the URL parser percent-encodes in a
    path (the C0 controls, space, the double quote, [<], [>], [^], the back
    quote, [{], [}], DEL and every byte of a character outside ASCII). *)
Definition url_path_escaped (c : ascii) : bool :=
  let n := nat_of_ascii c in
  Nat.leb n 32 || Nat.ltb 126 n
  || existsb (Nat.eqb n) [34; 35; 37; 60; 62; 63; 92; 94; 96; 123; 125].

Definition HEX_digit (n : nat) : string :=
  match n with
  | 0 => "0" | 1 => "1" | 2 => "2" | 3 => "3" | 4 => "4" | 5 => "5"
  | 6 => "6" | 7 => "7" | 8 => "8" | 9 => "9" | 10 => "A" | 11 => "B"
  | 12 => "C" | 13 => "D" | 14 => "E" | _ => "F"
  end.

Fixpoint encode_path (p : string) : string :=
  match p with
  | EmptyString => ""
  | String c rest =>
      (if url_path_escaped c
       then "%" ++ HEX_digit (nat_of_ascii c / 16) ++ HEX_digit (nat_of_ascii c mod 16)
       else String c EmptyString)
        ++ encode_path rest
  end.

(** [pathToFileURL(p).href] of an absolute, normalised path, as
    [path.resolve] returns it. *)
Definition pathToFileURL (p : string) : string := "file://" ++ encode_path p.

(* ================================================================== *)
(** ** Errors, external effects and the computation monad *)
(* ================================================================== *)

(** One (path, reason) pair of a zod validation error. *)
Record Issue : Type := mkIssue { issue_path : list string; issue_message : string }.

Inductive Dialect : Type := Sqlite | PostgreSQL.

(** Every [throw new Error(...)] of the sources is a constructor; errors
    raised by collaborators outside the repository are [ExternalError] and
    [TypeError].  A handler that rethrows with [error.message] spliced into
    a new message keeps the caught error as its argument. *)
Inductive Exn : Type :=
| ExternalError (msg : string)
| TypeError (msg : string)
| ZodError (issues : list Issue)
(* config.js *)
| ConfigNotFound (resolvedPath : string)
| NoConfigFile
| ConfigInvalid (issues : list Issue)
| ConfigLoadFailed (cause : Exn)
| NotLoaded
(* database.ts *)
| ImportFailed (moduleName projectRoot : string) (cause : Exn)
| UnsupportedDialect (dialect : string)
| MissingCredential (d : Dialect)
| DriverUnavailableSqlite
| DriverUnavailablePg (projectRoot : string) (pgError : Exn)
| NotInitialized
| UnknownClientType
| NotImplementedForDialect (operation : string) (dialect : JsValue)
(* server.js *)
| ValidationError (msg : string)
| UnknownTool (name : string)
| UnknownResource (uri : string)
| ReadResourceFailed (uri : string) (cause : Exn)
| InitializeDatabaseFailed (cause : Exn).

Definition issue_text (i : Issue) : string :=
  String.concat "." (issue_path i) ++ ": " ++ issue_message i.

(** [error.message]; the message of a [ZodError], which no caller ever
    sees, is abridged to the list of its issues. *)
Fixpoint message (e : Exn) : string :=
  match e with
  | ExternalError msg => msg
  | TypeError msg => msg
  | ZodError issues => String.concat "; " (map issue_text issues)
  | ConfigNotFound resolvedPath =>
      "Drizzle config file not found at: " ++ resolvedPath
  | NoConfigFile =>
      "No drizzle config file found. Please specify a config path or create drizzle.config.ts"
  | ConfigInvalid issues =>
      "Invalid Drizzle config file: " ++ String.concat ", " (map issue_text issues)
  | ConfigLoadFailed cause => "Failed to load config file: " ++ message cause
  | NotLoaded => "No config loaded. Call loadConfig() first."
  | ImportFailed moduleName projectRoot cause =>
      "Failed to import " ++ moduleName ++ " from project root " ++ projectRoot
        ++ ": " ++ message cause
  | UnsupportedDialect d =>
      "Database dialect '" ++ d ++ "' is not supported. Supported dialects: sqlite, postgresql"
  | MissingCredential Sqlite =>
      "Database URL is required in config.dbCredentials.url for SQLite"
  | MissingCredential PostgreSQL =>
      "For PostgreSQL, either provide 'url' or 'host', 'user', and 'database' in config.dbCredentials"
  | DriverUnavailableSqlite =>
      "better-sqlite3 is required for SQLite databases. Install it with: npm install better-sqlite3"
  | DriverUnavailablePg projectRoot pgError =>
      "Either 'postgres' or 'pg' is required for PostgreSQL databases. Install one with: npm install postgres OR npm install pg. Project root: "
        ++ projectRoot ++ ". PG Error: " ++ message pgError
  | NotInitialized => "Database not initialized. Call initialize() first."
  | UnknownClientType => "Unknown PostgreSQL client type"
  | NotImplementedForDialect operation d =>
      operation ++ " not implemented for dialect: " ++ String_of d
  | ValidationError msg => msg
  | UnknownTool name => "Unknown tool: " ++ name
  | UnknownResource uri =>
      "Unknown resource URI: " ++ uri
        ++ ". Available resources: database://tables, database://schema"
  | ReadResourceFailed uri cause =>
      "Failed to read resource '" ++ uri ++ "': " ++ message cause
  | InitializeDatabaseFailed cause =>
      "Failed to initialize database: " ++ message cause
  end.

(** How a JavaScript call ends. *)
Inductive Completion (A : Type) : Type :=
| Return (a : A)
| Throw (e : Exn).
Arguments Return {A} a.
Arguments Throw {A} e.

(** The driver object held in [DatabaseManager.client]. *)
Inductive Client : Type :=
| SqliteDatabase (url : string)          (* new Database(url)          *)
| PostgresJs (connectionString : string) (* postgres(connectionString) *)
| PgPool (connectionString : string).    (* new Pool({connectionString}) *)

(** The externally visible effects, in the order they are performed. *)
Inductive Event : Type :=
| EvImportConfig (url : string)                  (* import(configUrl)          *)
| EvImportFromProject (projectRoot moduleName : string)
| EvConstruct (c : Client)                       (* a client object is built   *)
| EvDrizzle (c : Client)                         (* drizzle(client)            *)
| EvPrepare (query : string)                     (* client.prepare(query)      *)
| EvAll (query : string) (params : list JsValue) (* statement.all(...params)   *)
| EvUnsafe (query : string) (params : JsValue)   (* client.unsafe(query, params) *)
| EvTemplate (query : string)                    (* client`...`                *)
| EvPoolQuery (query : string) (params : JsValue) (* client.query(query, params) *)
| EvClose                                        (* client.close()             *)
| EvEnd                                          (* client.end()               *)
| EvExec (command cwd : string).                 (* execAsync(command, {cwd})  *)

(** A method of an object with fields [O]: from the object and the history
    so far to a completion, the updated object and the effects performed. *)
Definition M (O A : Type) : Type :=
  O -> list Event -> Completion A * O * list Event.

Definition ret {O A} (a : A) : M O A := fun o _ => (Return a, o, []).

Definition throw {O A} (e : Exn) : M O A := fun o _ => (Throw e, o, []).

Definition bind {O A B} (m : M O A) (k : A -> M O B) : M O B :=
  fun o h =>
    match m o h with
    | (Return a, o1, ev1) =>
        let '(r, o2, ev2) := k a o1 (h ++ ev1)%list in (r, o2, (ev1 ++ ev2)%list)
    | (Throw e, o1, ev1) => (Throw e, o1, ev1)
    end.

(** [try { m } catch (error) { handler error }] *)
Definition try_catch {O A} (m : M O A) (handler : Exn -> M O A) : M O A :=
  fun o h =>
    match m o h with
    | (Return a, o1, ev1) => (Return a, o1, ev1)
    | (Throw e, o1, ev1) =>
        let '(r, o2, ev2) := handler e o1 (h ++ ev1)%list in (r, o2, (ev1 ++ ev2)%list)
    end.

Definition this {O} : M O O := fun o _ => (Return o, o, []).
Definition assign {O} (f : O -> O) : M O unit := fun o _ => (Return tt, f o, []).
Definition history {O} : M O (list Event) := fun o h => (Return h, o, []).
Definition emit {O} (e : Event) : M O unit := fun o _ => (Return tt, o, [e]).
Definition complete {O A} (c : Completion A) : M O A := fun o _ => (c, o, []).

(** A call on a member object: [this.member.method(...)]. *)
Definition on {O P A} (get : O -> P) (set : P -> O -> O) (m : M P A) : M O A :=
  fun o h => let '(r, p, ev) := m (get o) h in (r, set p o, ev).

Declare Scope js_scope.
Delimit Scope js_scope with js.
Notation "x <- c1 ;; c2" := (bind c1 (fun x => c2))
  (at level 61, c1 at next level, right associativity) : js_scope.
Notation "c1 ;; c2" := (bind c1 (fun _ => c2))
  (at level 61, right associativity) : js_scope.
Open Scope js_scope.

(* ------------------------------------------------------------------ *)
(** *** The world outside the repository *)

(** A prepared better-sqlite3 statement; [reader] tells whether it returns
    data (a SELECT, or a statement with a RETURNING clause). *)
Record Statement : Type := mkStatement { source : string; reader : bool }.

(** The rows of [sqlite_master] and of [pg_tables] the schema queries read. *)
Record SqliteMasterRow : Type :=
  mkSqliteMasterRow { sm_type : string; sm_name : string; sm_sql : option string }.
Record PgTablesRow : Type :=
  mkPgTablesRow { schemaname : string; tablename : string }.

Record World : Type := mkWorld {
  (** [process.cwd()] *)
  process_cwd : string;
  (** [existsSync(path)] *)
  existsSync : string -> bool;
  (** [await import(url)] of a config file: its module namespace *)
  import_url : string -> Completion JsValue;
  (** [createRequire(root/package.json).resolve(name)] then [import]:
      the failure, if the module cannot be loaded from the project *)
  require_import : string -> string -> option Exn;
  (** the failure, if any, of building the client object *)
  construct : Client -> option Exn;
  (** the failure, if any, of [drizzle(client)] *)
  drizzle : Client -> option Exn;
  (** [db.prepare(query)] of better-sqlite3 *)
  prepare : list Event -> string -> Completion Statement;
  (** the rows a reader statement yields when stepped to completion *)
  step_rows : list Event -> string -> list JsValue -> Completion JsValue;
  (** the content of the catalog table [sqlite_master] *)
  sqlite_master : list Event -> Completion (list SqliteMasterRow);
  (** the content of the catalog view [pg_tables] *)
  pg_tables : list Event -> Completion (list PgTablesRow);
  (** [sql.unsafe(query, params)] of postgres-js: the rows *)
  unsafe : list Event -> string -> JsValue -> Completion JsValue;
  (** [pool.query(query, params)] of pg: the [rows] of the result *)
  pool_query : list Event -> string -> JsValue -> Completion JsValue;
  (** [execAsync(command, {cwd})]: captured stdout and stderr *)
  execAsync : list Event -> string -> string -> Completion (string * string)
}.

(* ================================================================== *)
(** ** config.js: [DrizzleConfigSchema] and [ConfigLoader] *)
(* ================================================================== *)

(** [dbCredentials] after validation: every field is optional. *)
Record DbCredentials : Type := mkDbCredentials {
  url : option string;
  host : option string;
  port : option Z;
  user : option string;
  password : option string;
  database : option string
}.

Inductive SchemaPaths : Type :=
| SchemaOne (path : string)
| SchemaMany (paths : list string).

(** [DrizzleConfig = z.infer<typeof DrizzleConfigSchema>]; [extra] holds the
    properties [.passthrough()] lets through. *)
Record DrizzleConfig : Type := mkDrizzleConfig {
  out : option string;
  schema : option SchemaPaths;
  dialect : string;
  dbCredentials : DbCredentials;
  extra : list (string * JsValue)
}.

Module Zod.

(** The name zod reports for the received value. *)
Definition received (v : JsValue) : string :=
  match v with
  | JUndefined => "undefined"
  | JNull => "null"
  | JBool _ => "boolean"
  | JNum _ => "number"
  | JStr _ => "string"
  | JArr _ => "array"
  | JObj _ => "object"
  end.

Definition invalid_type (path : list string) (expected : string) (v : JsValue) : Issue :=
  mkIssue path ("Invalid input: expected " ++ expected ++ ", received " ++ received v).

(** A schema checks a value found at [path]: the issues (none when the
    value is accepted) and the parsed output. *)
Definition Schema (A : Type) : Type := list string -> JsValue -> list Issue * A.

(** [z.string()] *)
Definition string_ : Schema string := fun path v =>
  match v with
  | JStr s => ([], s)
  | _ => ([invalid_type path "string" v], "")
  end.

(** [z.number()] *)
Definition number : Schema Z := fun path v =>
  match v with
  | JNum n => ([], n)
  | _ => ([invalid_type path "number" v], 0%Z)
  end.

(** [s.optional()] *)
Definition optional {A} (s : Schema A) : Schema (option A) := fun path v =>
  match v with
  | JUndefined => ([], None)
  | _ => let '(issues, a) := s path v in (issues, Some a)
  end.

Fixpoint strings_of (items : list JsValue) : option (list string) :=
  match items with
  | [] => Some []
  | JStr s :: t =>
      match strings_of t with Some l => Some (s :: l) | None => None end
  | _ :: _ => None
  end.

(** [z.string().or(z.array(z.string()))] *)
Definition string_or_strings : Schema SchemaPaths := fun path v =>
  match v with
  | JStr s => ([], SchemaOne s)
  | JArr items =>
      match strings_of items with
      | Some l => ([], SchemaMany l)
      | None => ([mkIssue path "Invalid input"], SchemaMany [])
      end
  | _ => ([mkIssue path "Invalid input"], SchemaMany [])
  end.

(** The check of property [k] of the object [v] found at [path]. *)
Definition field {A} (s : Schema A) (path : list string) (v : JsValue)
           (k : string) : list Issue * A :=
  s (path ++ [k])%list (prop k v).

(** The inner [z.object({url, host, port, user, password, database})];
    unknown keys are stripped. *)
Definition dbCredentials_ : Schema DbCredentials := fun path v =>
  match v with
  | JObj _ =>
      let '(i1, url) := field (optional string_) path v "url" in
      let '(i2, host) := field (optional string_) path v "host" in
      let '(i3, port) := field (optional number) path v "port" in
      let '(i4, user) := field (optional string_) path v "user" in
      let '(i5, password) := field (optional string_) path v "password" in
      let '(i6, database) := field (optional string_) path v "database" in
      ((i1 ++ i2 ++ i3 ++ i4 ++ i5 ++ i6)%list,
       mkDbCredentials url host port user password database)
  | _ => ([invalid_type path "object" v],
          mkDbCredentials None None None None None None)
  end.

Definition shape_keys : list string := ["out"; "schema"; "dialect"; "dbCredentials"].

Definition unknown_keys (props : list (string * JsValue)) : list (string * JsValue) :=
  filter (fun kv => negb (existsb (String.eqb (fst kv)) shape_keys)) props.

(** [DrizzleConfigSchema]: the outer object with [.passthrough()]. *)
Definition DrizzleConfigSchema : Schema DrizzleConfig := fun path v =>
  match v with
  | JObj props =>
      let '(i1, out) := field (optional string_) path v "out" in
      let '(i2, schema) := field (optional string_or_strings) path v "schema" in
      let '(i3, dialect) := field string_ path v "dialect" in
      let '(i4, creds) := field dbCredentials_ path v "dbCredentials" in
      ((i1 ++ i2 ++ i3 ++ i4)%list,
       mkDrizzleConfig out schema dialect creds (unknown_keys props))
  | _ => ([invalid_type path "object" v],
          mkDrizzleConfig None None ""
            (mkDbCredentials None None None None None None) [])
  end.

(** [schema.parse(raw)]: throws a [ZodError] unless there is no issue. *)
Definition parse {A} (s : Schema A) (raw : JsValue) : Completion A :=
  match s [] raw with
  | ([], a) => Return a
  | (issues, _) => Throw (ZodError issues)
  end.

End Zod.

Module ConfigLoader.

Record t : Type := mk {
  cwd : string;
  config : option DrizzleConfig;
  configPath : option string
}.

Definition set_config (c : option DrizzleConfig) (o : t) : t :=
  mk (cwd o) c (configPath o).
Definition set_configPath (p : option string) (o : t) : t :=
  mk (cwd o) (config o) p.

Section Methods.
Variable w : World.

(** [constructor(options = {})]: [this.cwd = options.cwd || process.cwd()] *)
Definition new (options_cwd : JsValue) : t :=
  mk (match options_cwd with
      | JStr c => if c =? "" then process_cwd w else c
      | _ => process_cwd w
      end) None None.

(** [path.resolve(base, p)] with an argument that may not be a string:
    Node validates the arguments from the last one on and throws
    [ERR_INVALID_ARG_TYPE], whose message ends in a description of the
    value received. *)
Definition invalid_arg_received (p : JsValue) : string :=
  match p with
  | JUndefined | JNull => String_of p
  | JBool _ | JNum _ => "type " ++ typeof p ++ " (" ++ String_of p ++ ")"
  | JStr s => "type string ('" ++ s ++ "')"
  | JArr _ => "an instance of Array"
  | JObj _ => "an instance of Object"
  end.

Definition resolve_arg (base : string) (p : JsValue) : M t string :=
  match p with
  | JStr s => ret (resolve (process_cwd w) [base; s])
  | _ => throw (TypeError ("The " ++ dquote ++ "paths[1]" ++ dquote
                             ++ " argument must be of type string. Received "
                             ++ invalid_arg_received p))
  end.

(** The first of the conventional file names that exists. *)
Fixpoint first_existing (base : string) (names : list string) : option string :=
  match names with
  | [] => None
  | name :: rest =>
      let fullPath := resolve (process_cwd w) [base; name] in
      if existsSync w fullPath then Some fullPath
      else first_existing base rest
  end.

Definition commonPaths : list string :=
  ["drizzle.config.ts"; "drizzle.config.js"; "drizzle.config.mjs"].

Definition resolveConfigPath (configPath : JsValue) : M t string :=
  o <- this ;;
  if truthy configPath then resolve_arg (cwd o) configPath
  else
    match first_existing (cwd o) commonPaths with
    | Some fullPath => ret fullPath
    | None => throw NoConfigFile
    end.

(** [configPath === this.configPath] *)
Definition same_path (configPath : JsValue) (cached : option string) : bool :=
  match configPath, cached with
  | JStr p, Some q => p =? q
  | _, _ => false
  end.

(** [configModule.default || configModule] *)
Definition default_or_module (configModule : JsValue) : JsValue :=
  if truthy (prop "default" configModule)
  then prop "default" configModule else configModule.

(** The body of [loadConfig] past the cache test. *)
Definition load (configPath : JsValue) : M t DrizzleConfig :=
  resolvedPath <- resolveConfigPath configPath ;;
  if negb (existsSync w resolvedPath)
  then throw (ConfigNotFound resolvedPath)
  else
    try_catch
      (let configUrl := pathToFileURL resolvedPath in
       emit (EvImportConfig configUrl) ;;
       configModule <- complete (import_url w configUrl) ;;
       let rawConfig := default_or_module configModule in
       parsed <- complete (Zod.parse Zod.DrizzleConfigSchema rawConfig) ;;
       assign (set_config (Some parsed)) ;;
       assign (set_configPath (Some resolvedPath)) ;;
       ret parsed)
      (fun error =>
         match error with
         | ZodError issues => throw (ConfigInvalid issues)
         | _ => throw (ConfigLoadFailed error)
         end).

Definition loadConfig (configPath : JsValue) : M t DrizzleConfig :=
  o <- this ;;
  match config o with
  | Some cached =>
      if negb (truthy configPath) || same_path configPath (ConfigLoader.configPath o)
      then ret cached
      else load configPath
  | None => load configPath
  end.

Definition getConfigDirectory : M t string :=
  o <- this ;;
  match configPath o with
  | Some p => if p =? "" then throw NotLoaded else ret (dirname p)
  | None => throw NotLoaded
  end.

Definition resolvePathFromConfig (path : string) : M t string :=
  configDir <- getConfigDirectory ;;
  ret (resolve (process_cwd w) [configDir; path]).

End Methods.
End ConfigLoader.

(* ================================================================== *)
(** ** database.ts: [DatabaseManager] *)
(* ================================================================== *)

(** The ORM wrapper [drizzle(client)] held in [DatabaseManager.db]. *)
Inductive Orm : Type := Drizzle (c : Client).

(** [!s] for an optional string field. *)
Definition absent (s : option string) : bool :=
  match s with
  | Some x => x =? ""
  | None => true
  end.

(** [s || d] for an optional string field. *)
Definition or_default (s : option string) (d : string) : string :=
  match s with
  | Some x => if x =? "" then d else x
  | None => d
  end.

Definition sqlite_tables_query : string :=
  "SELECT name FROM sqlite_master WHERE type='table'".
Definition sqlite_schema_query : string :=
  "SELECT name, sql FROM sqlite_master WHERE type='table'".
(** The two PostgreSQL catalog queries, with their line breaks and
    indentation folded to single spaces. *)
Definition pg_tables_query : string :=
  "SELECT tablename as name FROM pg_tables WHERE schemaname = 'public'".
Definition pg_schema_query : string :=
  "SELECT t.tablename as name, 'CREATE TABLE ' || t.tablename || ' (...);' as sql FROM pg_tables t WHERE t.schemaname = 'public'".

(** What the four catalog queries compute from the catalog content. *)
Definition sqlite_tables_rows (catalog : list SqliteMasterRow) : JsValue :=
  JArr (map (fun r => JObj [("name", JStr (sm_name r))])
            (filter (fun r => sm_type r =? "table") catalog)).

Definition sqlite_schema_rows (catalog : list SqliteMasterRow) : JsValue :=
  JArr (map (fun r => JObj [("name", JStr (sm_name r));
                            ("sql", match sm_sql r with
                                    | Some s => JStr s
                                    | None => JNull
                                    end)])
            (filter (fun r => sm_type r =? "table") catalog)).

Definition pg_tables_rows (catalog : list PgTablesRow) : JsValue :=
  JArr (map (fun r => JObj [("name", JStr (tablename r))])
            (filter (fun r => schemaname r =? "public") catalog)).

Definition pg_schema_rows (catalog : list PgTablesRow) : JsValue :=
  JArr (map (fun r => JObj [("name", JStr (tablename r));
                            ("sql", JStr ("CREATE TABLE " ++ tablename r ++ " (...);"))])
            (filter (fun r => schemaname r =? "public") catalog)).

Module DatabaseManager.

Record t : Type := mk {
  db : option Orm;
  client : option Client;
  config : option DrizzleConfig;
  projectRoot : string
}.

Definition set_db (d : option Orm) (o : t) : t :=
  mk d (client o) (config o) (projectRoot o).
Definition set_client (c : option Client) (o : t) : t :=
  mk (db o) c (config o) (projectRoot o).
Definition set_config (c : option DrizzleConfig) (o : t) : t :=
  mk (db o) (client o) c (projectRoot o).

(** [constructor(projectRoot)] *)
Definition new (projectRoot : string) : t := mk None None None projectRoot.

Section Methods.
Variable w : World.

Definition importFromProject (moduleName : string) : M t unit :=
  o <- this ;;
  emit (EvImportFromProject (projectRoot o) moduleName) ;;
  match require_import w (projectRoot o) moduleName with
  | None => ret tt
  | Some error => throw (ImportFailed moduleName (projectRoot o) error)
  end.

(** [this.client = <build c>; this.db = drizzle(this.client);] *)
Definition connect (c : Client) : M t unit :=
  emit (EvConstruct c) ;;
  match construct w c with
  | Some error => throw error
  | None =>
      assign (set_client (Some c)) ;;
      emit (EvDrizzle c) ;;
      match drizzle w c with
      | Some error => throw error
      | None => assign (set_db (Some (Drizzle c)))
      end
  end.

Definition initializeSQLite (config : DrizzleConfig) : M t unit :=
  if absent (url (dbCredentials config))
  then throw (MissingCredential Sqlite)
  else
    o <- this ;;
    match client o with
    | Some _ => ret tt
    | None =>
        try_catch
          (importFromProject "better-sqlite3" ;;
           importFromProject "drizzle-orm/better-sqlite3" ;;
           connect (SqliteDatabase (or_default (url (dbCredentials config)) "")))
          (fun _ => throw DriverUnavailableSqlite)
    end.

(** [`postgresql://${user}:${password || ''}@${host}:${port || 5432}/${database}`];
    the port is an integer that JavaScript prints in decimal. *)
Definition synthesized (c : DbCredentials) : string :=
  "postgresql://" ++ or_default (user c) "" ++ ":" ++ or_default (password c) ""
    ++ "@" ++ or_default (host c) "" ++ ":"
    ++ string_of_Z (match port c with
                    | Some p => if (p =? 0)%Z then 5432%Z else p
                    | None => 5432%Z
                    end)
    ++ "/" ++ or_default (database c) "".

Definition initializePostgreSQL (config : DrizzleConfig) : M t unit :=
  let creds := dbCredentials config in
  connectionString <-
    (if absent (url creds) then
       if absent (host creds) || absent (user creds) || absent (database creds)
       then throw (MissingCredential PostgreSQL)
       else ret (synthesized creds)
     else ret (or_default (url creds) "")) ;;
  o <- this ;;
  match client o with
  | Some _ => ret tt
  | None =>
      try_catch
        (importFromProject "postgres" ;;
         importFromProject "drizzle-orm/postgres-js" ;;
         connect (PostgresJs connectionString))
        (fun postgresError =>
           try_catch
             (importFromProject "pg" ;;
              importFromProject "drizzle-orm/node-postgres" ;;
              connect (PgPool connectionString))
             (fun pgError =>
                o' <- this ;;
                throw (DriverUnavailablePg (projectRoot o') pgError)))
  end.

Definition initialize (config : DrizzleConfig) : M t unit :=
  assign (set_config (Some config)) ;;
  if dialect config =? "sqlite" then initializeSQLite config
  else if dialect config =? "postgresql" then initializePostgreSQL config
  else throw (UnsupportedDialect (dialect config)).

Definition getDb : M t Orm :=
  o <- this ;;
  match db o with
  | Some d => ret d
  | None => throw NotInitialized
  end.

Definition getClient : M t Client :=
  o <- this ;;
  match client o with
  | Some c => ret c
  | None => throw NotInitialized
  end.

(** [this.config?.dialect] *)
Definition config_dialect (o : t) : JsValue :=
  match config o with
  | Some c => JStr (dialect c)
  | None => JUndefined
  end.

Definition dialect_is (o : t) (d : string) : bool :=
  match config o with
  | Some c => dialect c =? d
  | None => false
  end.

(** [client.prepare(query)] then [.all(...)] of better-sqlite3, the
    arguments of [all] being evaluated once the statement is prepared:
    [all] is refused on a statement that returns no data. *)
Definition prepare_spread_all (c : Client) (query : string)
           (arguments : Completion (list JsValue))
           (rows : list Event -> list JsValue -> Completion JsValue) : M t JsValue :=
  match c with
  | SqliteDatabase _ =>
      h <- history ;;
      emit (EvPrepare query) ;;
      stmt <- complete (prepare w h query) ;;
      params <- complete arguments ;;
      if reader stmt then
        emit (EvAll query params) ;;
        complete (rows h params)
      else throw (TypeError "This statement does not return data. Use run() instead")
  | _ => throw (TypeError "client.prepare is not a function")
  end.

(** [client.prepare(query).all()], with the arguments written out. *)
Definition prepare_all (c : Client) (query : string) (params : list JsValue)
           (rows : list Event -> Completion JsValue) : M t JsValue :=
  prepare_spread_all c query (Return params) (fun h _ => rows h).

(** [params = []]: the default replaces an argument that is [undefined]. *)
Definition default_params (params : JsValue) : JsValue :=
  match params with
  | JUndefined => JArr []
  | _ => params
  end.

(** [params.length > 0], on whatever value the caller passed. *)
Definition length_positive (params : JsValue) : Completion bool :=
  match params with
  | JUndefined | JNull =>
      Throw (TypeError ("Cannot read properties of " ++ String_of params
                          ++ " (reading 'length')"))
  | JBool _ | JNum _ => Return false
  | JStr s => Return (negb (s =? ""))
  | JArr items => Return (match items with [] => false | _ => true end)
  | JObj _ => Return (greater_than_zero (prop "length" params))
  end.

(** [...params]: an array spreads into its items, a string into its
    characters, and nothing else is iterable. *)
Definition spread (params : JsValue) : Completion (list JsValue) :=
  match params with
  | JArr items => Return items
  | JStr s => Return (map JStr (code_points s))
  | _ => Throw (TypeError
                  "Spread syntax requires ...iterable[Symbol.iterator] to be a function")
  end.

Definition executeQuery (query : string) (params : JsValue) : M t JsValue :=
  let params := default_params params in
  _ <- getDb ;;
  o <- this ;;
  if dialect_is o "sqlite" then
    c <- getClient ;;
    nonempty <- complete (length_positive params) ;;
    prepare_spread_all c query (if nonempty then spread params else Return [])
      (fun h arguments => step_rows w h query arguments)
  else if dialect_is o "postgresql" then
    c <- getClient ;;
    match c with
    | PostgresJs _ =>
        h <- history ;;
        emit (EvUnsafe query params) ;;
        complete (unsafe w h query params)
    | PgPool _ =>
        h <- history ;;
        emit (EvPoolQuery query params) ;;
        complete (pool_query w h query params)
    | SqliteDatabase _ => throw UnknownClientType
    end
  else throw (NotImplementedForDialect "Query execution" (config_dialect o)).

(** A catalog query sent through whichever PostgreSQL client is held:
    the tagged template of postgres-js, or [query] of pg, whose result
    is unwrapped with [.rows]. *)
Definition pg_catalog (c : Client) (query : string)
           (rows : list PgTablesRow -> JsValue) : M t JsValue :=
  match c with
  | PostgresJs _ =>
      h <- history ;;
      emit (EvTemplate query) ;;
      catalog <- complete (pg_tables w h) ;;
      ret (rows catalog)
  | PgPool _ =>
      h <- history ;;
      emit (EvPoolQuery query JUndefined) ;;
      catalog <- complete (pg_tables w h) ;;
      ret (rows catalog)
  | SqliteDatabase _ => throw UnknownClientType
  end.

Definition sqlite_catalog (h : list Event)
           (rows : list SqliteMasterRow -> JsValue) : Completion JsValue :=
  match sqlite_master w h with
  | Return catalog => Return (rows catalog)
  | Throw e => Throw e
  end.

Definition getTables : M t JsValue :=
  o <- this ;;
  if dialect_is o "sqlite" then
    c <- getClient ;;
    prepare_all c sqlite_tables_query []
      (fun h => sqlite_catalog h sqlite_tables_rows)
  else if dialect_is o "postgresql" then
    c <- getClient ;;
    pg_catalog c pg_tables_query pg_tables_rows
  else throw (NotImplementedForDialect "getTables" (config_dialect o)).

Definition getSchema : M t JsValue :=
  o <- this ;;
  if dialect_is o "sqlite" then
    c <- getClient ;;
    prepare_all c sqlite_schema_query []
      (fun h => sqlite_catalog h sqlite_schema_rows)
  else if dialect_is o "postgresql" then
    c <- getClient ;;
    pg_catalog c pg_schema_query pg_schema_rows
  else throw (NotImplementedForDialect "getSchema" (config_dialect o)).

(** [this.client.close()] and [this.client.end()]: a better-sqlite3
    database has [close] only, a pg pool [end] only, a postgres-js client
    both. *)
Definition client_close (c : Client) : M t unit :=
  match c with
  | SqliteDatabase _ | PostgresJs _ => emit EvClose
  | PgPool _ => throw (TypeError "this.client.close is not a function")
  end.

Definition client_end (c : Client) : M t unit :=
  match c with
  | SqliteDatabase _ => throw (TypeError "this.client.end is not a function")
  | _ => emit EvEnd
  end.

Definition close : M t unit :=
  o <- this ;;
  match client o with
  | Some c =>
      (if dialect_is o "sqlite" then client_close c
       else if dialect_is o "postgresql" then client_end c
       else ret tt) ;;
      assign (set_client None) ;;
      assign (set_db None)
  | None => ret tt
  end.

End Methods.
End DatabaseManager.

(* ================================================================== *)
(** ** server.js: [DrizzleMCPServer] *)
(* ================================================================== *)

(** A character class and the test of [/^[class]+$/] (no flags: [$] only
    matches at the very end of the input). *)
Inductive ClassItem : Type :=
| Range (lo hi : ascii)
| Single (c : ascii).

Definition class_mem (cls : list ClassItem) (c : ascii) : bool :=
  existsb (fun item =>
             match item with
             | Range lo hi => Ascii.leb lo c && Ascii.leb c hi
             | Single x => Ascii.eqb c x
             end) cls.

Definition test_class_plus (cls : list ClassItem) (s : string) : bool :=
  match s with
  | EmptyString => false
  | _ => forallb (class_mem cls) (list_ascii_of_string s)
  end.

(** [[a-zA-Z0-9_-]] *)
Definition migration_name_class : list ClassItem :=
  [Range "a" "z"; Range "A" "Z"; Range "0" "9"; Single "_"; Single "-"]%char.

(** The result of a tool call; [isError] is absent on success. *)
Record TextContent : Type := mkTextContent { type_ : string; text : string }.
Record CallToolResult : Type :=
  mkCallToolResult { content : list TextContent; isError : option bool }.

(** The result of a resource read. *)
Record ResourceContents : Type :=
  mkResourceContents { rc_uri : string; mimeType : string; rc_text : string }.
Record ReadResourceResult : Type :=
  mkReadResourceResult { contents : list ResourceContents }.

Definition text_result (s : string) : CallToolResult :=
  mkCallToolResult [mkTextContent "text" s] None.

Module RESOURCE_URIS.
Definition TABLES : string := "database://tables".
Definition SCHEMA : string := "database://schema".
End RESOURCE_URIS.

Module DrizzleMCPServer.

Record t : Type := mk {
  configLoader : ConfigLoader.t;
  databaseManager : DatabaseManager.t;
  config : option DrizzleConfig
}.

Definition set_configLoader (c : ConfigLoader.t) (o : t) : t :=
  mk c (databaseManager o) (config o).
Definition set_databaseManager (d : DatabaseManager.t) (o : t) : t :=
  mk (configLoader o) d (config o).
Definition set_config (c : option DrizzleConfig) (o : t) : t :=
  mk (configLoader o) (databaseManager o) c.

Definition on_configLoader {A} (m : M ConfigLoader.t A) : M t A :=
  on configLoader set_configLoader m.
Definition on_databaseManager {A} (m : M DatabaseManager.t A) : M t A :=
  on databaseManager set_databaseManager m.

Definition validateMigrationName (name : JsValue) : M t unit :=
  match name with
  | JStr s =>
      if s =? ""
      then throw (ValidationError "Migration name is required and must be a string")
      else if negb (test_class_plus migration_name_class s)
      then throw (ValidationError
                    "Migration name can only contain letters, numbers, hyphens, and underscores")
      else ret tt
  | _ => throw (ValidationError "Migration name is required and must be a string")
  end.

(** [const { k, ... } = args]: fails on [undefined] and [null]. *)
Definition destructure (args : JsValue) (k : string) : M t unit :=
  match args with
  | JUndefined | JNull =>
      throw (TypeError ("Cannot destructure property '" ++ k ++ "' of 'args' as it is "
                          ++ String_of args ++ "."))
  | _ => ret tt
  end.

Section Methods.
Variable w : World.

(** [constructor(cwd)] *)
Definition new (cwd : JsValue) : t :=
  mk (ConfigLoader.new w cwd)
     (DatabaseManager.new (match cwd with
                           | JStr c => if c =? "" then process_cwd w else c
                           | _ => process_cwd w
                           end))
     None.

Definition loadConfig (configPath : JsValue) : M t unit :=
  o <- this ;;
  match config o, truthy configPath with
  | Some _, false => ret tt
  | _, _ =>
      loaded <- on_configLoader (ConfigLoader.loadConfig w configPath) ;;
      assign (set_config (Some loaded)) ;;
      on_databaseManager (DatabaseManager.initialize w loaded)
  end.

Definition getDefaultConfigPath : string := "drizzle.config.ts".

Definition executeDrizzleKitCommand (command : string) (config : JsValue)
  : M t (string * string) :=
  loadConfig config ;;
  let configPath := if truthy config then config else JStr getDefaultConfigPath in
  let fullCommand :=
    "npx drizzle-kit " ++ command ++ " --config=" ++ String_of configPath in
  cwd <- on_configLoader (ConfigLoader.getConfigDirectory) ;;
  h <- history ;;
  emit (EvExec fullCommand cwd) ;;
  complete (execAsync w h fullCommand cwd).

Definition handleGenerateMigration (args : JsValue) : M t CallToolResult :=
  destructure args "name" ;;
  let migrationName := prop "name" args in
  let config := prop "config" args in
  validateMigrationName migrationName ;;
  out <- executeDrizzleKitCommand
           ("generate --name=" ++ String_of migrationName) config ;;
  ret (text_result
         ("Migration '" ++ String_of migrationName ++ "' generated successfully:"
            ++ nl ++ nl ++ "STDOUT:" ++ nl ++ fst out
            ++ nl ++ nl ++ "STDERR:" ++ nl ++ snd out)).

Definition handleRunMigrations (args : JsValue) : M t CallToolResult :=
  destructure args "config" ;;
  out <- executeDrizzleKitCommand "migrate" (prop "config" args) ;;
  ret (text_result
         ("Migrations executed successfully:"
            ++ nl ++ nl ++ "STDOUT:" ++ nl ++ fst out
            ++ nl ++ nl ++ "STDERR:" ++ nl ++ snd out)).

Definition handleIntrospectSchema (args : JsValue) : M t CallToolResult :=
  destructure args "config" ;;
  out <- executeDrizzleKitCommand "introspect" (prop "config" args) ;;
  ret (text_result
         ("Schema introspected successfully:"
            ++ nl ++ nl ++ "STDOUT:" ++ nl ++ fst out
            ++ nl ++ nl ++ "STDERR:" ++ nl ++ snd out)).

Definition handleExecuteQuery (args : JsValue) : M t CallToolResult :=
  destructure args "query" ;;
  match prop "query" args with
  | JStr query =>
      if query =? ""
      then throw (ValidationError "Query is required and must be a string")
      else
        o <- this ;;
        match config o with
        | None => loadConfig JUndefined
        | Some _ => ret tt
        end ;;
        result <- on_databaseManager
                    (DatabaseManager.executeQuery w query
                       (DatabaseManager.default_params (prop "params" args))) ;;
        ret (text_result
               ("Query executed successfully:" ++ nl ++ nl ++ "Result:" ++ nl
                  ++ JSON_stringify result))
  | _ => throw (ValidationError "Query is required and must be a string")
  end.

Definition handleInitializeDatabase (args : JsValue) : M t CallToolResult :=
  destructure args "config" ;;
  let config := prop "config" args in
  try_catch
    (loadConfig config ;;
     ret (text_result
            ("Database initialized successfully with config: "
               ++ (if truthy config then String_of config else "auto-detected"))))
    (fun error => throw (InitializeDatabaseFailed error)).

(** The body of the [try] of the [CallToolRequestSchema] handler. *)
Definition dispatch (name : string) (args : JsValue) : M t CallToolResult :=
  if name =? "drizzle_generate_migration" then handleGenerateMigration args
  else if name =? "drizzle_run_migrations" then handleRunMigrations args
  else if name =? "drizzle_introspect_schema" then handleIntrospectSchema args
  else if name =? "execute_query" then handleExecuteQuery args
  else if name =? "initialize_database" then handleInitializeDatabase args
  else throw (UnknownTool name).

Definition error_result (error : Exn) : CallToolResult :=
  mkCallToolResult [mkTextContent "text" ("Error: " ++ message error)] (Some true).

(** The [CallToolRequestSchema] handler. *)
Definition callTool (name : string) (args : JsValue) : M t CallToolResult :=
  try_catch (dispatch name args) (fun error => ret (error_result error)).

Definition json_contents (uri : string) (v : JsValue) : ReadResourceResult :=
  mkReadResourceResult
    [mkResourceContents uri "application/json" (JSON_stringify v)].

(** The body of the [try] of the [ReadResourceRequestSchema] handler. *)
Definition fetch (uri : string) : M t ReadResourceResult :=
  if uri =? RESOURCE_URIS.TABLES then
    tables <- on_databaseManager (DatabaseManager.getTables w) ;;
    ret (json_contents uri tables)
  else if uri =? RESOURCE_URIS.SCHEMA then
    schema <- on_databaseManager (DatabaseManager.getSchema w) ;;
    ret (json_contents uri schema)
  else throw (UnknownResource uri).

(** The [ReadResourceRequestSchema] handler. *)
Definition readResource (uri : string) : M t ReadResourceResult :=
  o <- this ;;
  match config o with
  | None => loadConfig JUndefined
  | Some _ => ret tt
  end ;;
  try_catch (fetch uri) (fun error => throw (ReadResourceFailed uri error)).

Definition stop : M t unit :=
  on_databaseManager DatabaseManager.close.

End Methods.
End DrizzleMCPServer.

(* ================================================================== *)
(** ** Test doubles for the world *)
(* ================================================================== *)

(** A world whose file system holds the config modules [files] (absolute
    path, module namespace), where every driver module is installed and
    the PostgreSQL catalog view holds [pg_catalog].  Its sqlite database
    compiles every statement ([prepare] never fails, as on a database in
    which the tables named exist), and the statements that return data
    are those written with a leading upper-case [SELECT]; the scenarios
    use no other reader. *)
Definition stub_world (files : list (string * JsValue))
           (pg_catalog : list PgTablesRow) : World :=
  {| process_cwd := "/proj";
     existsSync := fun p => match assoc p files with Some _ => true | None => false end;
     import_url := fun u =>
       match assoc u (map (fun f => (pathToFileURL (fst f), snd f)) files) with
       | Some m => Return m
       | None => Throw (ExternalError ("Cannot find module " ++ u))
       end;
     require_import := fun _ _ => None;
     construct := fun _ => None;
     drizzle := fun _ => None;
     prepare := fun _ q => Return (mkStatement q (prefix "SELECT" q));
     step_rows := fun _ _ _ => Return (JArr []);
     sqlite_master := fun _ => Return [];
     pg_tables := fun _ => Return pg_catalog;
     unsafe := fun _ _ _ => Return (JArr []);
     pool_query := fun _ _ _ => Return (JArr []);
     execAsync := fun _ _ _ => Return ("", "") |}.

(** [export default { dialect, dbCredentials: creds }] *)
Definition config_module (dialect : string) (creds : list (string * JsValue)) : JsValue :=
  JObj [("default", JObj [("dialect", JStr dialect); ("dbCredentials", JObj creds)])].

Definition sqlite_memory_module : JsValue :=
  config_module "sqlite" [("url", JStr ":memory:")].

Definition no_creds : DbCredentials := mkDbCredentials None None None None None None.

Definition sqlite_memory_config : DrizzleConfig :=
  mkDrizzleConfig None None "sqlite"
    (mkDbCredentials (Some ":memory:") None None None None None) [].

(* ================================================================== *)
(** ** Vocabulary of the properties *)
(* ================================================================== *)

(** [m] keeps the property [P] of the object, however it completes. *)
Definition preserves {O A} (P : O -> Prop) (m : M O A) : Prop :=
  forall o h r o' ev, m o h = (r, o', ev) -> P o -> P o'.

(** What the schema checks, in words: the types of the known fields. *)
Definition is_string (v : JsValue) : bool :=
  match v with JStr _ => true | _ => false end.
Definition is_object (v : JsValue) : bool :=
  match v with JObj _ => true | _ => false end.
Definition is_optional_string (v : JsValue) : bool :=
  match v with JUndefined | JStr _ => true | _ => false end.
Definition is_optional_number (v : JsValue) : bool :=
  match v with JUndefined | JNum _ => true | _ => false end.
Definition is_optional_paths (v : JsValue) : bool :=
  match v with
  | JUndefined | JStr _ => true
  | JArr items => forallb is_string items
  | _ => false
  end.

Definition well_typed_credentials (c : JsValue) : bool :=
  is_object c
  && is_optional_string (prop "url" c)
  && is_optional_string (prop "host" c)
  && is_optional_number (prop "port" c)
  && is_optional_string (prop "user" c)
  && is_optional_string (prop "password" c)
  && is_optional_string (prop "database" c).

Definition well_typed (raw : JsValue) : bool :=
  is_object raw
  && is_optional_string (prop "out" raw)
  && is_optional_paths (prop "schema" raw)
  && is_string (prop "dialect" raw)
  && well_typed_credentials (prop "dbCredentials" raw).

(** The constraints of section 3 of the specification on a configuration:
    a dialect of the closed set, and the credentials its dialect needs. *)
Definition present {A} (x : option A) : bool :=
  match x with Some _ => true | None => false end.

Definition section3_valid (c : DrizzleConfig) : bool :=
  let creds := dbCredentials c in
  if dialect c =? "sqlite" then present (url creds)
  else if dialect c =? "postgresql" then
    present (url creds)
    || (present (host creds) && present (user creds) && present (database creds))
  else false.

(** The alphabet of migration names, by character code. *)
Definition in_name_alphabet (c : ascii) : Prop :=
  let n := nat_of_ascii c in
  97 <= n <= 122 \/ 65 <= n <= 90 \/ 48 <= n <= 57 \/ n = 95 \/ n = 45.

(** A [name] argument that is not a string, is empty, or holds a character
    outside the alphabet. *)
Definition malformed_name (v : JsValue) : Prop :=
  match v with
  | JStr s =>
      s = "" \/ exists c, In c (list_ascii_of_string s) /\ ~ in_name_alphabet c
  | _ => True
  end.


(** A row of the schema resource: exactly the fields [name] and [sql], in
    this order; under PostgreSQL the [sql] is the placeholder. *)
Definition schema_row (postgresql : bool) (row : JsValue) : Prop :=
  exists name sql,
    row = JObj [("name", JStr name); ("sql", sql)]
    /\ (postgresql = true -> sql = JStr ("CREATE TABLE " ++ name ++ " (...);")).

(* ================================================================== *)
(** ** Scenarios *)
(* ================================================================== *)

(** A project directory [/proj] whose [drizzle.config.ts] is the sqlite
    configuration of the specification's example. *)
Definition sqlite_project : World :=
  stub_world [("/proj/drizzle.config.ts", sqlite_memory_module)] [].

(** The same project with a dialect outside the closed set and no
    credentials at all. *)
Definition mysql_module : JsValue := config_module "mysql" [].
Definition mysql_config : DrizzleConfig := mkDrizzleConfig None None "mysql" no_creds [].
Definition mysql_project : World :=
  stub_world [("/proj/drizzle.config.ts", mysql_module)] [].

(** A config file whose [dialect] is a number. *)
Definition ill_typed_module : JsValue :=
  JObj [("default", JObj [("dialect", JNum 3); ("dbCredentials", JObj [])])].
Definition ill_typed_project : World :=
  stub_world [("/proj/drizzle.config.ts", ill_typed_module)] [].

Definition fresh_loader : ConfigLoader.t := ConfigLoader.mk "/proj" None None.

(** The loader after it has loaded [/proj/drizzle.config.ts]. *)
Definition loaded_loader : ConfigLoader.t :=
  ConfigLoader.mk "/proj" (Some sqlite_memory_config) (Some "/proj/drizzle.config.ts").

(** The manager after [initialize] on the sqlite example. *)
Definition open_manager : DatabaseManager.t :=
  DatabaseManager.mk (Some (Drizzle (SqliteDatabase ":memory:")))
    (Some (SqliteDatabase ":memory:")) (Some sqlite_memory_config) "/proj".

(** A postgresql configuration with a host and a user but no database. *)
Definition pg_no_database : DrizzleConfig :=
  mkDrizzleConfig None None "postgresql"
    (mkDbCredentials None (Some "localhost") None (Some "app") None None) [].

(** The server after [initialize_database] in the sqlite project, and a
    project directory without any config file. *)
Definition ready_server : DrizzleMCPServer.t :=
  DrizzleMCPServer.mk loaded_loader open_manager (Some sqlite_memory_config).
Definition new_server : DrizzleMCPServer.t :=
  DrizzleMCPServer.mk fresh_loader (DatabaseManager.new "/proj") None.
Definition empty_project : World := stub_world [] [].

(** The server after [stop]: the configuration is kept, the connection
    handle is cleared. *)
Definition closed_server : DrizzleMCPServer.t :=
  DrizzleMCPServer.mk loaded_loader
    (DatabaseManager.mk None None (Some sqlite_memory_config) "/proj")
    (Some sqlite_memory_config).

(** A project whose only config file is [drizzle.config.js], and one whose
    config file lies in the subdirectory [conf]. *)
Definition js_project : World :=
  stub_world [("/proj/drizzle.config.js", sqlite_memory_module)] [].
Definition conf_project : World :=
  stub_world [("/proj/conf/drizzle.config.ts", sqlite_memory_module)] [].

(** A PostgreSQL project whose catalog holds one public table [t], and the
    server after [initialize_database] in it. *)
Definition pg_url_config : DrizzleConfig :=
  mkDrizzleConfig None None "postgresql"
    (mkDbCredentials (Some "postgresql://app@localhost/app") None None None None None) [].
Definition pg_project : World :=
  stub_world
    [("/proj/drizzle.config.ts",
      config_module "postgresql" [("url", JStr "postgresql://app@localhost/app")])]
    [mkPgTablesRow "public" "t"; mkPgTablesRow "pg_catalog" "pg_class"].
Definition pg_server : DrizzleMCPServer.t :=
  DrizzleMCPServer.mk
    (ConfigLoader.mk "/proj" (Some pg_url_config) (Some "/proj/drizzle.config.ts"))
    (DatabaseManager.mk
       (Some (Drizzle (PostgresJs "postgresql://app@localhost/app")))
       (Some (PostgresJs "postgresql://app@localhost/app"))
       (Some pg_url_config) "/proj")
    (Some pg_url_config).

(* ================================================================== *)
(** ** cli.ts: the command-line entry point *)
(* ================================================================== *)

Module Cli.

(** The options as commander hands them to the action; [cwd] defaults to
    [process.cwd()]. *)
Record Options : Type := mkOptions {
  config : JsValue;
  cwd : string;
  verbose : bool
}.

(** What the process does, in order. *)
Inductive Output : Type :=
| Stderr (line : string)   (* console.error(line)                        *)
| Effect (e : Event)       (* an effect of the server                    *)
| Started                  (* server.start() has connected the transport *)
| Exit (code : Z).         (* process.exit(code)                         *)

(** How the action, or a signal handler, ends. *)
Inductive Outcome : Type :=
| Running (server : DrizzleMCPServer.t) (* the signal handlers are registered *)
| Exited (code : Z)
| Unhandled (e : Exn).                  (* a rejection nobody catches         *)

(** [if (options.verbose) console.error(line)] *)
Definition log (verbose : bool) (line : string) : list Output :=
  if verbose then [Stderr line] else [].

(** [catch (error) { console.error(...); process.exit(1); }] *)
Definition fail (error : Exn) : list Output :=
  [Stderr ("Error starting server: " ++ message error); Exit 1%Z].

Section Action.
Variable w : World.
(** How [server.start()] ends: the connection of the stdio transport. *)
Variable start : Completion unit.

Definition action (configArg : JsValue) (options : Options) : Outcome * list Output :=
  let configPath := if truthy (config options) then config options else configArg in
  let cwd := resolve (process_cwd w) [cwd options] in
  let banner :=
    (log (verbose options) "Starting Drizzle MCP Server..."
     ++ log (verbose options) ("Working directory: " ++ cwd)
     ++ log (verbose options)
          ("Config file: "
             ++ (if truthy configPath then String_of configPath else "auto-detected")))%list in
  let server := DrizzleMCPServer.new w (JStr cwd) in
  let '(loaded, server1, effects) :=
    if truthy configPath
    then DrizzleMCPServer.loadConfig w configPath server []
    else (Return tt, server, []) in
  match loaded with
  | Throw error => (Exited 1%Z, (banner ++ map Effect effects ++ fail error)%list)
  | Return _ =>
      let validated :=
        if truthy configPath
        then log (verbose options)
               ("Config loaded successfully from: " ++ String_of configPath)
        else [] in
      match start with
      | Throw error =>
          (Exited 1%Z, (banner ++ map Effect effects ++ validated ++ fail error)%list)
      | Return _ =>
          (Running server1,
           (banner ++ map Effect effects ++ validated ++ [Started]
            ++ log (verbose options) "Server started and listening on stdio")%list)
      end
  end.

End Action.

(** The handler of [SIGINT] and of [SIGTERM], on the running server. *)
Definition shutdown (verbose : bool) (server : DrizzleMCPServer.t) (h : list Event)
  : Outcome * list Output :=
  let '(stopped, _, effects) := DrizzleMCPServer.stop server h in
  match stopped with
  | Return _ =>
      (Exited 0%Z,
       (log verbose "Shutting down server..." ++ map Effect effects ++ [Exit 0%Z])%list)
  | Throw error =>
      (Unhandled error, (log verbose "Shutting down server..." ++ map Effect effects)%list)
  end.

End Cli.

(* ================================================================== *)
(** ** Vocabulary of the further properties *)
(* ================================================================== *)

(** [m] performs only effects satisfying [Q], however it completes. *)
Definition emits {O A} (Q : Event -> Prop) (m : M O A) : Prop :=
  forall o h r o' ev, m o h = (r, o', ev) -> Forall Q ev.

(** Whatever [m] returns satisfies [Q]. *)
Definition returns {O A} (Q : A -> Prop) (m : M O A) : Prop :=
  forall o h a o' ev, m o h = (Return a, o', ev) -> Q a.

(** Whatever [m] throws satisfies [Q]. *)
Definition throws {O A} (Q : Exn -> Prop) (m : M O A) : Prop :=
  forall o h e o' ev, m o h = (Throw e, o', ev) -> Q e.

Definition is_exec (e : Event) : Prop :=
  match e with EvExec _ _ => True | _ => False end.

(** A statement or query handed to a database driver. *)
Definition is_query (e : Event) : Prop :=
  match e with
  | EvPrepare _ | EvAll _ _ | EvUnsafe _ _ | EvTemplate _ | EvPoolQuery _ _ => True
  | _ => False
  end.

(** The import of the config file, the resolution of a driver module, the
    construction of a client or of its ORM wrapper. *)
Definition is_setup (e : Event) : Prop :=
  match e with
  | EvImportConfig _ | EvImportFromProject _ _ | EvConstruct _ | EvDrizzle _ => True
  | _ => False
  end.

(** The cache of a loader: a configuration together with the non-empty
    path it was loaded from, or neither. *)
Definition loader_ok (o : ConfigLoader.t) : Prop :=
  match ConfigLoader.config o, ConfigLoader.configPath o with
  | Some _, Some p => p <> ""
  | None, None => True
  | _, _ => False
  end.

(** The handle of a manager: an ORM wrapper is a wrapper of the client
    held. *)
Definition handle_ok (o : DatabaseManager.t) : Prop :=
  match DatabaseManager.db o with
  | Some (Drizzle c) => DatabaseManager.client o = Some c
  | None => True
  end.

(** The connection string [initializePostgreSQL] hands to the driver. *)
Definition connection_string (creds : DbCredentials) : string :=
  if absent (url creds) then DatabaseManager.synthesized creds
  else or_default (url creds) "".

(** A migration name the validator lets through. *)
Definition well_formed_name (n : string) : Prop :=
  n <> "" /\ forall c, In c (list_ascii_of_string n) -> in_name_alphabet c.

(** The world [w] in which the modules [missing] are not installed in the
    project. *)
Definition without_modules (missing : list string) (w : World) : World :=
  {| process_cwd := process_cwd w;
     existsSync := existsSync w;
     import_url := import_url w;
     require_import := fun root name =>
       if existsb (String.eqb name) missing
       then Some (ExternalError ("Cannot find module '" ++ name ++ "'"))
       else require_import w root name;
     construct := construct w;
     drizzle := drizzle w;
     prepare := prepare w;
     step_rows := step_rows w;
     sqlite_master := sqlite_master w;
     pg_tables := pg_tables w;
     unsafe := unsafe w;
     pool_query := pool_query w;
     execAsync := execAsync w |}.

(** The world [w] in which no sqlite database file can be opened. *)
Definition unopenable_database (w : World) : World :=
  {| process_cwd := process_cwd w;
     existsSync := existsSync w;
     import_url := import_url w;
     require_import := require_import w;
     construct := fun c =>
       match c with
       | SqliteDatabase _ => Some (ExternalError "unable to open database file")
       | _ => construct w c
       end;
     drizzle := drizzle w;
     prepare := prepare w;
     step_rows := step_rows w;
     sqlite_master := sqlite_master w;
     pg_tables := pg_tables w;
     unsafe := unsafe w;
     pool_query := pool_query w;
     execAsync := execAsync w |}.

(** The manager of the PostgreSQL example before and after [initialize]
    when only [pg] is installed. *)
Definition pg_pool_manager : DatabaseManager.t :=
  DatabaseManager.mk
    (Some (Drizzle (PgPool "postgresql://app@localhost/app")))
    (Some (PgPool "postgresql://app@localhost/app"))
    (Some pg_url_config) "/proj".

(** A result of a handler: one text item, without the error flag. *)
Definition plain_text (res : CallToolResult) : Prop :=
  isError res = None /\ exists t, content res = [mkTextContent "text" t].

(** The three tools that run drizzle-kit. *)
Definition migration_tools : list string :=
  ["drizzle_generate_migration"; "drizzle_run_migrations"; "drizzle_introspect_schema"].

(* ================================================================== *)
(** * Properties *)
(* ================================================================== *)

(** ** The library functions and the schema on examples *)

Example resolve_relative :
  resolve "/" ["/proj"; "drizzle.config.ts"] = "/proj/drizzle.config.ts".
Proof. reflexivity. Qed.

Example resolve_dots :
  resolve "/" ["/proj/app"; "../conf/./drizzle.config.js"] = "/proj/conf/drizzle.config.js".
Proof. reflexivity. Qed.

Example resolve_absolute :
  resolve "/home" ["/proj"; "/etc/drizzle.config.ts"] = "/etc/drizzle.config.ts".
Proof. reflexivity. Qed.

Example resolve_relative_cwd :
  resolve "/home/u" ["work"; "c.ts"] = "/home/u/work/c.ts".
Proof. reflexivity. Qed.

Example dirname_file : dirname "/proj/conf/drizzle.config.js" = "/proj/conf".
Proof. reflexivity. Qed.

Example dirname_root_file : dirname "/drizzle.config.ts" = "/".
Proof. reflexivity. Qed.

Example dirname_bare : dirname "drizzle.config.ts" = ".".
Proof. reflexivity. Qed.

Example stringify_rows :
  JSON_stringify (JArr [JObj [("id", JNum 1)]])
  = "[" ++ nl ++ "  {" ++ nl ++ "    " ++ dquote ++ "id" ++ dquote ++ ": 1"
      ++ nl ++ "  }" ++ nl ++ "]".
Proof. reflexivity. Qed.

Example parse_sqlite_memory :
  Zod.parse Zod.DrizzleConfigSchema (prop "default" sqlite_memory_module)
  = Return sqlite_memory_config.
Proof. reflexivity. Qed.

Example parse_rejects_number_dialect :
  Zod.parse Zod.DrizzleConfigSchema
    (JObj [("dialect", JNum 3); ("dbCredentials", JObj [("port", JStr "5432")])])
  = Throw (ZodError
             [mkIssue ["dialect"] "Invalid input: expected string, received number";
              mkIssue ["dbCredentials"; "port"]
                "Invalid input: expected number, received string"]).
Proof. reflexivity. Qed.

(* ================================================================== *)
(** ** General facts about the computation monad *)
(* ================================================================== *)

Lemma bind_Return {O A B} (m : M O A) (k : A -> M O B) o h a o1 ev1 :
  m o h = (Return a, o1, ev1) ->
  bind m k o h =
    (let '(r, o2, ev2) := k a o1 (h ++ ev1)%list in (r, o2, (ev1 ++ ev2)%list)).
Proof. intros E. unfold bind. rewrite E. reflexivity. Qed.

Lemma bind_Throw {O A B} (m : M O A) (k : A -> M O B) o h e o1 ev1 :
  m o h = (Throw e, o1, ev1) ->
  bind m k o h = (Throw e, o1, ev1).
Proof. intros E. unfold bind. rewrite E. reflexivity. Qed.

Lemma preserves_ret {O A} (P : O -> Prop) (a : A) : preserves P (ret a).
Proof. intros o h r o' ev E. inversion E; subst. auto. Qed.

Lemma preserves_throw {O A} (P : O -> Prop) e : preserves P (@throw O A e).
Proof. intros o h r o' ev E. inversion E; subst. auto. Qed.

Lemma preserves_this {O} (P : O -> Prop) : preserves P (@this O).
Proof. intros o h r o' ev E. inversion E; subst. auto. Qed.

Lemma preserves_history {O} (P : O -> Prop) : preserves P (@history O).
Proof. intros o h r o' ev E. inversion E; subst. auto. Qed.

Lemma preserves_emit {O} (P : O -> Prop) e : preserves P (@emit O e).
Proof. intros o h r o' ev E. inversion E; subst. auto. Qed.

Lemma preserves_complete {O A} (P : O -> Prop) (c : Completion A) :
  preserves P (@complete O A c).
Proof. intros o h r o' ev E. inversion E; subst. auto. Qed.

Lemma preserves_assign {O} (P : O -> Prop) (f : O -> O) :
  (forall o, P o -> P (f o)) -> preserves P (assign f).
Proof. intros F o h r o' ev E. inversion E; subst. auto. Qed.

Lemma preserves_bind {O A B} (P : O -> Prop) (m : M O A) (k : A -> M O B) :
  preserves P m -> (forall a, preserves P (k a)) -> preserves P (bind m k).
Proof.
  intros Hm Hk o h r o' ev E Po. unfold bind in E.
  destruct (m o h) as [[[a | e] o1] ev1] eqn:Em.
  - destruct (k a o1 (h ++ ev1)%list) as [[r2 o2] ev2] eqn:Ek.
    inversion E; subst. eapply Hk; [eassumption |]. eapply Hm; eassumption.
  - inversion E; subst. eapply Hm; eassumption.
Qed.

Lemma preserves_try_catch {O A} (P : O -> Prop) (m : M O A) (handler : Exn -> M O A) :
  preserves P m -> (forall e, preserves P (handler e)) ->
  preserves P (try_catch m handler).
Proof.
  intros Hm Hk o h r o' ev E Po. unfold try_catch in E.
  destruct (m o h) as [[[a | e] o1] ev1] eqn:Em.
  - inversion E; subst. eapply Hm; eassumption.
  - destruct (handler e o1 (h ++ ev1)%list) as [[r2 o2] ev2] eqn:Ek.
    inversion E; subst. eapply Hk; [eassumption |]. eapply Hm; eassumption.
Qed.

Create HintDb preserves discriminated.
#[export] Hint Resolve preserves_ret preserves_throw preserves_this
  preserves_history preserves_emit preserves_complete : preserves.

(** Splits a goal [preserves P m] along the structure of [m]. *)
Ltac preserves_step :=
  match goal with
  | |- preserves _ (bind _ _) => apply preserves_bind; [| intros ?]
  | |- preserves _ (try_catch _ _) => apply preserves_try_catch; [| intros ?]
  | |- preserves _ (assign _) => apply preserves_assign; intros ? ?
  | |- preserves _ (match ?x with _ => _ end) => destruct x
  | |- preserves _ _ => solve [auto with preserves]
  end.

(* ================================================================== *)
(** ** ConfigLoader: caching and failure *)
(* ================================================================== *)

(** [resolveConfigPath] never updates the loader and performs no effect. *)
Lemma resolveConfigPath_pure w p o h r o' ev :
  ConfigLoader.resolveConfigPath w p o h = (r, o', ev) -> o' = o /\ ev = [].
Proof.
  unfold ConfigLoader.resolveConfigPath, bind, this. cbv beta iota.
  destruct (truthy p).
  - unfold ConfigLoader.resolve_arg.
    destruct p; unfold ret, throw; intros H; inversion H; auto.
  - destruct (ConfigLoader.first_existing w (ConfigLoader.cwd o) ConfigLoader.commonPaths);
      unfold ret, throw; intros H; inversion H; auto.
Qed.

(** A load that throws leaves the loader as it was. *)
Lemma load_Throw_unchanged w p o h e o' ev :
  ConfigLoader.load w p o h = (Throw e, o', ev) -> o' = o.
Proof.
  unfold ConfigLoader.load. intros H.
  destruct (ConfigLoader.resolveConfigPath w p o h) as [[r o1] ev1] eqn:R.
  destruct (resolveConfigPath_pure _ _ _ _ _ _ _ R) as [-> ->].
  destruct r as [resolved | e0].
  - rewrite (bind_Return _ _ _ _ _ _ _ R) in H.
    destruct (existsSync w resolved); simpl in H.
    + unfold try_catch, bind, emit, complete, assign, ret, throw in H. simpl in H.
      destruct (import_url w (pathToFileURL resolved)) as [m | e1]; simpl in H.
      * destruct (Zod.parse Zod.DrizzleConfigSchema _) as [c | e2]; simpl in H.
        -- inversion H.
        -- destruct e2; inversion H; reflexivity.
      * destruct e1; inversion H; reflexivity.
    + unfold throw in H. inversion H. reflexivity.
  - rewrite (bind_Throw _ _ _ _ _ _ _ R) in H. inversion H. reflexivity.
Qed.

Lemma loadConfig_Throw_unchanged w p o h e o' ev :
  ConfigLoader.loadConfig w p o h = (Throw e, o', ev) -> o' = o.
Proof.
  unfold ConfigLoader.loadConfig, bind, this. simpl. intros H.
  destruct (ConfigLoader.config o) as [cached |].
  - destruct (negb (truthy p) || ConfigLoader.same_path p (ConfigLoader.configPath o)).
    + unfold ret in H. inversion H.
    + destruct (ConfigLoader.load w p o (h ++ [])%list) as [[r o1] ev1] eqn:L.
      inversion H; subst. eapply load_Throw_unchanged; eauto.
  - destruct (ConfigLoader.load w p o (h ++ [])%list) as [[r o1] ev1] eqn:L.
    inversion H; subst. eapply load_Throw_unchanged; eauto.
Qed.

(** With a cached configuration, a call without a path answers from the
    cache: no effect at all, in particular no file is read. *)
Lemma loadConfig_cached_no_path w p o h cached :
  ConfigLoader.config o = Some cached ->
  truthy p = false ->
  ConfigLoader.loadConfig w p o h = (Return cached, o, []).
Proof.
  intros C T. unfold ConfigLoader.loadConfig, bind, this. simpl.
  rewrite C, T. reflexivity.
Qed.

(** So does a call whose path is, as a string, the cached resolved path. *)
Lemma loadConfig_cached_same_string w o h cached path :
  ConfigLoader.config o = Some cached ->
  ConfigLoader.configPath o = Some path ->
  ConfigLoader.loadConfig w (JStr path) o h = (Return cached, o, []).
Proof.
  intros C P. unfold ConfigLoader.loadConfig, bind, this. simpl.
  rewrite C, P. simpl. rewrite String.eqb_refl, orb_true_r. reflexivity.
Qed.

(** Any other explicit path runs resolution, loading and validation again. *)
Lemma loadConfig_other_path_reloads w o h p :
  p <> "" ->
  ConfigLoader.configPath o <> Some p ->
  ConfigLoader.loadConfig w (JStr p) o h = ConfigLoader.load w (JStr p) o h.
Proof.
  intros NE D. unfold ConfigLoader.loadConfig, bind, this. cbv beta iota.
  assert (T : truthy (JStr p) = true).
  { simpl. destruct (String.eqb_spec p ""); [contradiction | reflexivity]. }
  assert (S : ConfigLoader.same_path (JStr p) (ConfigLoader.configPath o) = false).
  { unfold ConfigLoader.same_path. destruct (ConfigLoader.configPath o) as [q |]; auto.
    destruct (String.eqb_spec p q); [subst; contradiction | reflexivity]. }
  rewrite T, S. cbn [negb orb]. rewrite app_nil_r.
  destruct (ConfigLoader.config o);
    destruct (ConfigLoader.load w (JStr p) o h) as [[r o1] ev1]; reflexivity.
Qed.

Lemma optional_string_issues path v :
  fst (Zod.optional Zod.string_ path v) = [] <-> is_optional_string v = true.
Proof. destruct v; simpl; split; intros H; try reflexivity; discriminate. Qed.

Lemma optional_number_issues path v :
  fst (Zod.optional Zod.number path v) = [] <-> is_optional_number v = true.
Proof. destruct v; simpl; split; intros H; try reflexivity; discriminate. Qed.

Lemma string_issues path v :
  fst (Zod.string_ path v) = [] <-> is_string v = true.
Proof. destruct v; simpl; split; intros H; try reflexivity; discriminate. Qed.

Lemma strings_of_forallb items :
  Zod.strings_of items <> None <-> forallb is_string items = true.
Proof.
  induction items as [| x t IH]; simpl.
  - split; [reflexivity | discriminate].
  - destruct x; simpl; try (split; [congruence | discriminate]).
    destruct (Zod.strings_of t); split; intros H.
    + apply IH. discriminate.
    + discriminate.
    + congruence.
    + apply IH in H. congruence.
Qed.

Lemma optional_paths_issues path v :
  fst (Zod.optional Zod.string_or_strings path v) = [] <-> is_optional_paths v = true.
Proof.
  destruct v; simpl; try (split; intros H; try reflexivity; discriminate).
  pose proof (strings_of_forallb items) as F.
  destruct (Zod.strings_of items); simpl; split; intros H.
  - apply F. discriminate.
  - reflexivity.
  - discriminate.
  - apply F in H. congruence.
Qed.

Lemma app_nil_iff {A} (l1 l2 : list A) : (l1 ++ l2)%list = [] <-> l1 = [] /\ l2 = [].
Proof.
  split.
  - apply app_eq_nil.
  - intros [-> ->]. reflexivity.
Qed.

Lemma credentials_issues path c :
  fst (Zod.dbCredentials_ path c) = [] <-> well_typed_credentials c = true.
Proof.
  unfold well_typed_credentials.
  destruct c; simpl; try (split; intros H; discriminate).
  unfold Zod.field.
  pose proof (optional_string_issues (path ++ ["url"])%list (prop "url" (JObj props))) as H1.
  pose proof (optional_string_issues (path ++ ["host"])%list (prop "host" (JObj props))) as H2.
  pose proof (optional_number_issues (path ++ ["port"])%list (prop "port" (JObj props))) as H3.
  pose proof (optional_string_issues (path ++ ["user"])%list (prop "user" (JObj props))) as H4.
  pose proof (optional_string_issues (path ++ ["password"])%list (prop "password" (JObj props))) as H5.
  pose proof (optional_string_issues (path ++ ["database"])%list (prop "database" (JObj props))) as H6.
  destruct (Zod.optional Zod.string_ (path ++ ["url"])%list _) as [i1 v1].
  destruct (Zod.optional Zod.string_ (path ++ ["host"])%list _) as [i2 v2].
  destruct (Zod.optional Zod.number (path ++ ["port"])%list _) as [i3 v3].
  destruct (Zod.optional Zod.string_ (path ++ ["user"])%list _) as [i4 v4].
  destruct (Zod.optional Zod.string_ (path ++ ["password"])%list _) as [i5 v5].
  destruct (Zod.optional Zod.string_ (path ++ ["database"])%list _) as [i6 v6].
  simpl in *.
  rewrite !app_nil_iff, !andb_true_iff.
  rewrite H1, H2, H3, H4, H5, H6. tauto.
Qed.

(** The schema reports no issue exactly on the well-typed objects. *)
Lemma schema_issues_iff raw :
  fst (Zod.DrizzleConfigSchema [] raw) = [] <-> well_typed raw = true.
Proof.
  unfold well_typed.
  destruct raw; simpl; try (split; intros H; discriminate).
  unfold Zod.field.
  pose proof (optional_string_issues ["out"] (prop "out" (JObj props))) as H1.
  pose proof (optional_paths_issues ["schema"] (prop "schema" (JObj props))) as H2.
  pose proof (string_issues ["dialect"] (prop "dialect" (JObj props))) as H3.
  pose proof (credentials_issues ["dbCredentials"] (prop "dbCredentials" (JObj props))) as H4.
  change ([] ++ ["out"])%list with ["out"].
  change ([] ++ ["schema"])%list with ["schema"].
  change ([] ++ ["dialect"])%list with ["dialect"].
  change ([] ++ ["dbCredentials"])%list with ["dbCredentials"].
  destruct (Zod.optional Zod.string_ ["out"] _) as [i1 v1].
  destruct (Zod.optional Zod.string_or_strings ["schema"] _) as [i2 v2].
  destruct (Zod.string_ ["dialect"] _) as [i3 v3].
  destruct (Zod.dbCredentials_ ["dbCredentials"] _) as [i4 v4].
  simpl in *.
  rewrite !app_nil_iff, !andb_true_iff.
  rewrite H1, H2, H3, H4. tauto.
Qed.

(** [parse] throws the schema's issues on an object that is not well typed. *)
Lemma parse_ill_typed raw :
  well_typed raw = false ->
  exists issues, issues <> [] /\
    Zod.parse Zod.DrizzleConfigSchema raw = Throw (ZodError issues).
Proof.
  intros W. pose proof (schema_issues_iff raw) as I.
  unfold Zod.parse.
  destruct (Zod.DrizzleConfigSchema [] raw) as [issues c]. simpl in I.
  destruct issues as [| i rest].
  - destruct I as [I _]. rewrite (I eq_refl) in W. discriminate.
  - exists (i :: rest). split; [discriminate | reflexivity].
Qed.

(* ================================================================== *)
(** ** DatabaseManager: initialisation *)
(* ================================================================== *)

Lemma initializeSQLite_missing_url w c o h :
  absent (url (dbCredentials c)) = true ->
  DatabaseManager.initializeSQLite w c o h = (Throw (MissingCredential Sqlite), o, []).
Proof. intros A. unfold DatabaseManager.initializeSQLite. rewrite A. reflexivity. Qed.

Lemma initializePostgreSQL_missing_credentials w c o h :
  absent (url (dbCredentials c)) = true ->
  absent (host (dbCredentials c)) || absent (user (dbCredentials c))
    || absent (database (dbCredentials c)) = true ->
  DatabaseManager.initializePostgreSQL w c o h
  = (Throw (MissingCredential PostgreSQL), o, []).
Proof.
  intros A B. unfold DatabaseManager.initializePostgreSQL, bind.
  rewrite A, B. reflexivity.
Qed.

(** [initialize] stores the configuration before it looks at it; what
    follows runs on the manager holding the new configuration. *)
Lemma initialize_unfold w c o h :
  DatabaseManager.initialize w c o h =
    (if dialect c =? "sqlite"
     then DatabaseManager.initializeSQLite w c
     else if dialect c =? "postgresql"
          then DatabaseManager.initializePostgreSQL w c
          else throw (UnsupportedDialect (dialect c)))
      (DatabaseManager.set_config (Some c) o) h.
Proof.
  unfold DatabaseManager.initialize, bind, assign. cbv beta iota.
  rewrite app_nil_r.
  destruct (dialect c =? "sqlite");
    [| destruct (dialect c =? "postgresql")];
    match goal with
    | |- context [?f (DatabaseManager.set_config (Some c) o) h] =>
        destruct (f (DatabaseManager.set_config (Some c) o) h) as [[r o2] ev2]
    end; reflexivity.
Qed.

(** Once a client is held, neither dialect branch touches the manager. *)
Lemma initializeSQLite_with_client w c o h cl :
  DatabaseManager.client o = Some cl ->
  exists r, DatabaseManager.initializeSQLite w c o h = (r, o, []).
Proof.
  intros C. unfold DatabaseManager.initializeSQLite.
  destruct (absent (url (dbCredentials c))).
  - eexists. reflexivity.
  - unfold bind, this. cbv beta iota. rewrite C. eexists. reflexivity.
Qed.

Lemma initializePostgreSQL_with_client w c o h cl :
  DatabaseManager.client o = Some cl ->
  exists r, DatabaseManager.initializePostgreSQL w c o h = (r, o, []).
Proof.
  intros C. unfold DatabaseManager.initializePostgreSQL, bind, this.
  destruct (absent (url (dbCredentials c))).
  - destruct (absent (host (dbCredentials c)) || absent (user (dbCredentials c))
              || absent (database (dbCredentials c))).
    + eexists. reflexivity.
    + unfold ret. cbv beta iota. rewrite C. eexists. reflexivity.
  - unfold ret. cbv beta iota. rewrite C. eexists. reflexivity.
Qed.

Lemma initialize_with_client w c o h cl :
  DatabaseManager.client o = Some cl ->
  exists r, DatabaseManager.initialize w c o h
            = (r, DatabaseManager.set_config (Some c) o, []).
Proof.
  intros C. rewrite initialize_unfold.
  assert (C' : DatabaseManager.client (DatabaseManager.set_config (Some c) o) = Some cl)
    by exact C.
  destruct (dialect c =? "sqlite").
  - eapply initializeSQLite_with_client; eauto.
  - destruct (dialect c =? "postgresql").
    + eapply initializePostgreSQL_with_client; eauto.
    + eexists. reflexivity.
Qed.

(** No method of the manager but [initialize] writes [config]. *)
Lemma importFromProject_preserves w (P : DatabaseManager.t -> Prop) name :
  preserves P (DatabaseManager.importFromProject w name).
Proof. unfold DatabaseManager.importFromProject. repeat preserves_step. Qed.

Lemma connect_preserves_config w cl c :
  preserves (fun o => DatabaseManager.config o = Some c) (DatabaseManager.connect w cl).
Proof. unfold DatabaseManager.connect. repeat preserves_step; assumption. Qed.

Lemma initializeSQLite_preserves_config w cfg c :
  preserves (fun o => DatabaseManager.config o = Some c)
            (DatabaseManager.initializeSQLite w cfg).
Proof.
  unfold DatabaseManager.initializeSQLite.
  repeat first [ apply importFromProject_preserves
               | apply connect_preserves_config
               | preserves_step ].
Qed.

Lemma initializePostgreSQL_preserves_config w cfg c :
  preserves (fun o => DatabaseManager.config o = Some c)
            (DatabaseManager.initializePostgreSQL w cfg).
Proof.
  unfold DatabaseManager.initializePostgreSQL.
  repeat first [ apply importFromProject_preserves
               | apply connect_preserves_config
               | preserves_step ].
Qed.

(** Whatever happens, the manager holds the configuration it was given. *)
Lemma initialize_stores_config w c o h r o' ev :
  DatabaseManager.initialize w c o h = (r, o', ev) ->
  DatabaseManager.config o' = Some c.
Proof.
  rewrite initialize_unfold. intros E.
  destruct (dialect c =? "sqlite"); [| destruct (dialect c =? "postgresql")].
  - eapply initializeSQLite_preserves_config; eauto.
  - eapply initializePostgreSQL_preserves_config; eauto.
  - inversion E; subst. reflexivity.
Qed.

(* ================================================================== *)
(** ** First load and first initialisation on the example *)
(* ================================================================== *)

Example first_load :
  ConfigLoader.loadConfig sqlite_project JUndefined fresh_loader []
  = (Return sqlite_memory_config, loaded_loader,
     [EvImportConfig "file:///proj/drizzle.config.ts"]).
Proof. reflexivity. Qed.

Example first_initialize :
  DatabaseManager.initialize sqlite_project sqlite_memory_config
    (DatabaseManager.new "/proj") []
  = (Return tt, open_manager,
     [EvImportFromProject "/proj" "better-sqlite3";
      EvImportFromProject "/proj" "drizzle-orm/better-sqlite3";
      EvConstruct (SqliteDatabase ":memory:");
      EvDrizzle (SqliteDatabase ":memory:")]).
Proof. reflexivity. Qed.

(** Initialising twice with the same configuration makes one connection,
    which one [close] tears down; a second [close] does nothing. *)
Example initialize_twice_close_once :
  DatabaseManager.initialize sqlite_project sqlite_memory_config open_manager []
  = (Return tt, open_manager, [])
  /\ DatabaseManager.close open_manager []
     = (Return tt, DatabaseManager.mk None None (Some sqlite_memory_config) "/proj",
        [EvClose])
  /\ DatabaseManager.close
       (DatabaseManager.mk None None (Some sqlite_memory_config) "/proj") []
     = (Return tt, DatabaseManager.mk None None (Some sqlite_memory_config) "/proj", []).
Proof. repeat split. Qed.

(* ================================================================== *)
(** ** Configuration loading and connection set-up *)
(* ================================================================== *)

(** C1, as stated, fails: the schema types [dialect] as any string and
    every credential as optional, so [loadConfig] returns as validated a
    configuration whose dialect is [mysql] and which has no credentials. *)
Lemma C1_counterexample :
  ConfigLoader.loadConfig mysql_project JUndefined fresh_loader []
  = (Return mysql_config,
     ConfigLoader.mk "/proj" (Some mysql_config) (Some "/proj/drizzle.config.ts"),
     [EvImportConfig "file:///proj/drizzle.config.ts"])
  /\ section3_valid mysql_config = false.
Proof. split; reflexivity. Qed.

(** C1, amended: a load that reaches the file fails with [ConfigInvalid],
    carrying a non-empty list of (field path, reason) issues and leaving the
    loader unchanged, whenever the exported object violates the field types
    of the schema (the object itself, [out], [schema], [dialect],
    [dbCredentials] and its six fields).  The closed set of dialects and
    the credentials a dialect needs are not checked by [loadConfig]: a
    configuration violating them is rejected by
    [DatabaseManager.initialize], with [UnsupportedDialect] or
    [MissingCredential], before any driver is used. *)
Theorem C1_type_violation_is_ConfigInvalid w :
  (forall p o h resolved configModule,
     ConfigLoader.config o = None
     \/ (truthy p = true
         /\ ConfigLoader.same_path p (ConfigLoader.configPath o) = false) ->
     ConfigLoader.resolveConfigPath w p o h = (Return resolved, o, []) ->
     existsSync w resolved = true ->
     import_url w (pathToFileURL resolved) = Return configModule ->
     well_typed (ConfigLoader.default_or_module configModule) = false ->
     exists issues,
       issues <> [] /\
       ConfigLoader.loadConfig w p o h
       = (Throw (ConfigInvalid issues), o, [EvImportConfig (pathToFileURL resolved)]))
  /\
  (forall c o h,
     section3_valid c = false ->
     exists e,
       DatabaseManager.initialize w c o h
       = (Throw e, DatabaseManager.set_config (Some c) o, [])
       /\ (e = UnsupportedDialect (dialect c)
           \/ e = MissingCredential Sqlite
           \/ e = MissingCredential PostgreSQL)).
Proof.
  split.
  - intros p o h resolved configModule Miss R Ex Im W.
    destruct (parse_ill_typed _ W) as (issues & NE & Pz).
    exists issues. split; [exact NE |].
    assert (L : ConfigLoader.load w p o h
                = (Throw (ConfigInvalid issues), o,
                   [EvImportConfig (pathToFileURL resolved)])).
    { unfold ConfigLoader.load.
      rewrite (bind_Return _ _ _ _ _ _ _ R). rewrite Ex. cbn [negb].
      unfold try_catch, bind, emit, complete. cbv beta iota.
      rewrite Im. cbv beta iota. rewrite Pz. reflexivity. }
    unfold ConfigLoader.loadConfig, bind, this. cbv beta iota.
    rewrite app_nil_r.
    destruct Miss as [N | [T S]].
    + rewrite N, L. reflexivity.
    + rewrite T, S. cbn [negb orb].
      destruct (ConfigLoader.config o); rewrite L; reflexivity.
  - intros c o h V. rewrite initialize_unfold.
    unfold section3_valid in V.
    destruct (dialect c =? "sqlite").
    + exists (MissingCredential Sqlite). split; [| auto].
      apply initializeSQLite_missing_url.
      destruct (url (dbCredentials c)); [discriminate | reflexivity].
    + destruct (dialect c =? "postgresql").
      * exists (MissingCredential PostgreSQL). split; [| auto].
        apply orb_false_iff in V. destruct V as [U V].
        apply initializePostgreSQL_missing_credentials.
        -- destruct (url (dbCredentials c)); [discriminate | reflexivity].
        -- destruct (host (dbCredentials c)); [| reflexivity].
           destruct (user (dbCredentials c)); [| apply orb_true_iff; left; apply orb_true_r].
           destruct (database (dbCredentials c)); [discriminate | apply orb_true_r].
      * exists (UnsupportedDialect (dialect c)). split; [reflexivity | auto].
Qed.

Lemma C1_witness :
  (exists issues,
     issues <> [] /\
     ConfigLoader.loadConfig ill_typed_project JUndefined fresh_loader []
     = (Throw (ConfigInvalid issues), fresh_loader,
        [EvImportConfig (pathToFileURL "/proj/drizzle.config.ts")]))
  /\
  (exists e,
     DatabaseManager.initialize mysql_project mysql_config (DatabaseManager.new "/proj") []
     = (Throw e, DatabaseManager.set_config (Some mysql_config) (DatabaseManager.new "/proj"), [])
     /\ (e = UnsupportedDialect (dialect mysql_config)
         \/ e = MissingCredential Sqlite
         \/ e = MissingCredential PostgreSQL)).
Proof.
  split.
  - apply (proj1 (C1_type_violation_is_ConfigInvalid ill_typed_project)
             JUndefined fresh_loader [] "/proj/drizzle.config.ts" ill_typed_module).
    + left. reflexivity.
    + reflexivity.
    + reflexivity.
    + reflexivity.
    + reflexivity.
  - apply (proj2 (C1_type_violation_is_ConfigInvalid mysql_project)
             mysql_config (DatabaseManager.new "/proj") []).
    reflexivity.
Defined.

(** C2, at its failing input: the loader of [/proj] has loaded
    [drizzle.config.ts]; a second call with the same explicit path, whose
    resolution is the cached resolved path, does not answer from the cache:
    the cache test compares the path as given with the cached resolved
    path, so the call resolves the path, probes the file system, requests
    the import and validates again.  Were the file removed in between, the
    second call would fail with [ConfigNotFound], where a call without a
    path still answers from the cache. *)
Theorem C2_same_relative_path_is_read_again :
  let first := ConfigLoader.loadConfig sqlite_project (JStr "drizzle.config.ts")
                 fresh_loader [] in
  let second := ConfigLoader.loadConfig sqlite_project (JStr "drizzle.config.ts")
                  (snd (fst first)) (snd first) in
  first = (Return sqlite_memory_config, loaded_loader,
           [EvImportConfig "file:///proj/drizzle.config.ts"])
  /\ ConfigLoader.configPath loaded_loader
     = Some (resolve (process_cwd sqlite_project)
               [ConfigLoader.cwd loaded_loader; "drizzle.config.ts"])
  /\ second = (Return sqlite_memory_config, loaded_loader,
               [EvImportConfig "file:///proj/drizzle.config.ts"])
  /\ ConfigLoader.loadConfig empty_project (JStr "drizzle.config.ts")
       loaded_loader (snd first)
     = (Throw (ConfigNotFound "/proj/drizzle.config.ts"), loaded_loader, [])
  /\ ConfigLoader.loadConfig empty_project JUndefined loaded_loader (snd first)
     = (Return sqlite_memory_config, loaded_loader, []).
Proof. repeat split. Qed.

(** C6: for a postgresql configuration without [url] and without one of
    [host], [user], [database], [initialize] fails with [MissingCredential];
    it performs no effect, so no driver module is resolved and no client
    or connection object is built, and it leaves the client and the ORM
    wrapper of the manager as they were. *)
Theorem C6_postgresql_missing_credential w c o h :
  dialect c = "postgresql" ->
  url (dbCredentials c) = None ->
  host (dbCredentials c) = None \/ user (dbCredentials c) = None
    \/ database (dbCredentials c) = None ->
  DatabaseManager.initialize w c o h
  = (Throw (MissingCredential PostgreSQL), DatabaseManager.set_config (Some c) o, []).
Proof.
  intros D U Miss. rewrite initialize_unfold, D. cbn [String.eqb Ascii.eqb Bool.eqb].
  apply initializePostgreSQL_missing_credentials.
  - rewrite U. reflexivity.
  - destruct Miss as [E | [E | E]]; rewrite E; cbn [absent];
      rewrite ?orb_true_r; reflexivity.
Qed.

Lemma C6_witness :
  dialect pg_no_database = "postgresql"
  /\ url (dbCredentials pg_no_database) = None
  /\ DatabaseManager.initialize sqlite_project pg_no_database (DatabaseManager.new "/proj") []
     = (Throw (MissingCredential PostgreSQL),
        DatabaseManager.set_config (Some pg_no_database) (DatabaseManager.new "/proj"), []).
Proof.
  split; [reflexivity |]. split; [reflexivity |].
  apply (C6_postgresql_missing_credential sqlite_project pg_no_database
           (DatabaseManager.new "/proj") []).
  - reflexivity.
  - reflexivity.
  - right. right. reflexivity.
Defined.

(** [close] on a manager that holds a client: the method is picked by the
    dialect of the stored configuration, and called on whatever client is
    held. *)
Lemma close_with_client o h cl :
  DatabaseManager.client o = Some cl ->
  DatabaseManager.close o h
  = let released := DatabaseManager.set_db None (DatabaseManager.set_client None o) in
    if DatabaseManager.dialect_is o "sqlite" then
      match cl with
      | PgPool _ => (Throw (TypeError "this.client.close is not a function"), o, [])
      | _ => (Return tt, released, [EvClose])
      end
    else if DatabaseManager.dialect_is o "postgresql" then
      match cl with
      | SqliteDatabase _ => (Throw (TypeError "this.client.end is not a function"), o, [])
      | _ => (Return tt, released, [EvEnd])
      end
    else (Return tt, released, []).
Proof.
  intros C. unfold DatabaseManager.close, bind, this. cbv beta iota. rewrite C.
  unfold DatabaseManager.client_close, DatabaseManager.client_end,
    assign, emit, ret, throw.
  destruct (DatabaseManager.dialect_is o "sqlite");
    [| destruct (DatabaseManager.dialect_is o "postgresql")];
    destruct cl; reflexivity.
Qed.

Lemma dialect_is_set_config c o d :
  DatabaseManager.dialect_is (DatabaseManager.set_config (Some c) o) d = (dialect c =? d).
Proof. reflexivity. Qed.

(** C9, and where the code breaks it.  On a manager that holds a client,
    [initialize] makes no second connection: it performs no effect, keeps
    the client and its wrapper, and stores the configuration it is given,
    as every [initialize] does, whether it returns or throws (first client,
    last configuration).  What a single [close] then does depends on the
    stored dialect only.  When the client has the method of that dialect
    ([close()] under sqlite, [end()] under postgresql), the one connection
    is closed, once, and released.  After a switch of dialect over a
    better-sqlite3 database or a pg pool, [close] throws a [TypeError]
    and leaves the manager as it was, so that the connection is never
    closed, however often [close] is called; and under a dialect that is
    not supported the client is dropped without being closed. *)
Theorem C9_dialect_switch_defeats_teardown w c o h cl :
  DatabaseManager.client o = Some cl ->
  let o1 := DatabaseManager.set_config (Some c) o in
  let released := DatabaseManager.set_db None (DatabaseManager.set_client None o1) in
  (exists r, DatabaseManager.initialize w c o h = (r, o1, []))
  /\ DatabaseManager.client o1 = Some cl
  /\ DatabaseManager.db o1 = DatabaseManager.db o
  /\ DatabaseManager.config o1 = Some c
  /\ (forall o0 h0 r o' ev,
        DatabaseManager.initialize w c o0 h0 = (r, o', ev) ->
        DatabaseManager.config o' = Some c)
  /\ (forall h',
        dialect c = "sqlite" -> (forall s, cl <> PgPool s) ->
        DatabaseManager.close o1 h' = (Return tt, released, [EvClose]))
  /\ (forall h',
        dialect c = "postgresql" -> (forall u, cl <> SqliteDatabase u) ->
        DatabaseManager.close o1 h' = (Return tt, released, [EvEnd]))
  /\ (forall h' u,
        dialect c = "postgresql" -> cl = SqliteDatabase u ->
        DatabaseManager.close o1 h'
        = (Throw (TypeError "this.client.end is not a function"), o1, []))
  /\ (forall h' s,
        dialect c = "sqlite" -> cl = PgPool s ->
        DatabaseManager.close o1 h'
        = (Throw (TypeError "this.client.close is not a function"), o1, []))
  /\ (forall h',
        dialect c <> "sqlite" -> dialect c <> "postgresql" ->
        DatabaseManager.close o1 h' = (Return tt, released, [])).
Proof.
  intros C o1 released.
  assert (C1 : DatabaseManager.client o1 = Some cl) by exact C.
  split; [exact (initialize_with_client w c o h cl C) |].
  split; [exact C |]. split; [reflexivity |]. split; [reflexivity |].
  split; [intros o0 h0 r o' ev E; eapply initialize_stores_config; exact E |].
  repeat split.
  - intros h' D N. rewrite (close_with_client o1 h' cl C1).
    unfold o1. rewrite !dialect_is_set_config, D. cbv zeta.
    destruct cl as [u | s | s]; try reflexivity. destruct (N s eq_refl).
  - intros h' D N. rewrite (close_with_client o1 h' cl C1).
    unfold o1. rewrite !dialect_is_set_config, D. cbv zeta.
    destruct cl as [u | s | s]; try reflexivity. destruct (N u eq_refl).
  - intros h' u D ->. rewrite (close_with_client o1 h' _ C1).
    unfold o1. rewrite !dialect_is_set_config, D. reflexivity.
  - intros h' s D ->. rewrite (close_with_client o1 h' _ C1).
    unfold o1. rewrite !dialect_is_set_config, D. reflexivity.
  - intros h' N1 N2. rewrite (close_with_client o1 h' cl C1).
    unfold o1. rewrite !dialect_is_set_config.
    destruct (String.eqb_spec (dialect c) "sqlite") as [E | _]; [destruct (N1 E) |].
    destruct (String.eqb_spec (dialect c) "postgresql") as [E | _]; [destruct (N2 E) |].
    reflexivity.
Qed.

(** The failing input: the sqlite example is initialised, then a
    postgresql configuration; the database is still held, and [close]
    throws without closing it, leaving the manager as it was. *)
Lemma C9_witness :
  DatabaseManager.client open_manager = Some (SqliteDatabase ":memory:")
  /\ DatabaseManager.initialize sqlite_project pg_url_config open_manager []
     = (Return tt, DatabaseManager.set_config (Some pg_url_config) open_manager, [])
  /\ DatabaseManager.close (DatabaseManager.set_config (Some pg_url_config) open_manager) []
     = (Throw (TypeError "this.client.end is not a function"),
        DatabaseManager.set_config (Some pg_url_config) open_manager, []).
Proof.
  split; [reflexivity |]. split; [reflexivity |].
  pose proof (C9_dialect_switch_defeats_teardown sqlite_project pg_url_config open_manager []
                (SqliteDatabase ":memory:") eq_refl) as H.
  cbv zeta in H.
  destruct H as (_ & _ & _ & _ & _ & _ & _ & Switch & _).
  exact (Switch [] ":memory:" eq_refl eq_refl).
Defined.

(** C10: a [loadConfig] call that fails, for whichever reason, leaves the
    loader exactly as it was; hence a configuration loaded before is still
    what a later call without a path returns, without any effect, and
    [getConfigDirectory] still answers the directory of the config file
    loaded before. *)
Theorem C10_failed_load_keeps_cache w p o h e o' ev :
  ConfigLoader.loadConfig w p o h = (Throw e, o', ev) ->
  o' = o
  /\ (forall cached q h',
        ConfigLoader.config o = Some cached -> truthy q = false ->
        ConfigLoader.loadConfig w q o' h' = (Return cached, o', []))
  /\ (forall path h',
        ConfigLoader.configPath o = Some path -> path <> "" ->
        ConfigLoader.getConfigDirectory o' h' = (Return (dirname path), o', [])).
Proof.
  intros F. apply loadConfig_Throw_unchanged in F. subst o'.
  split; [reflexivity |]. split.
  - intros cached q h' C T. apply loadConfig_cached_no_path; assumption.
  - intros path h' P NE.
    unfold ConfigLoader.getConfigDirectory, bind, this. cbv beta iota.
    rewrite P. destruct (String.eqb_spec path ""); [contradiction | reflexivity].
Qed.

Lemma C10_witness :
  ConfigLoader.loadConfig sqlite_project (JStr "missing.config.ts") loaded_loader []
  = (Throw (ConfigNotFound "/proj/missing.config.ts"), loaded_loader, [])
  /\ ConfigLoader.loadConfig sqlite_project JUndefined loaded_loader []
     = (Return sqlite_memory_config, loaded_loader, [])
  /\ ConfigLoader.getConfigDirectory loaded_loader [] = (Return "/proj", loaded_loader, []).
Proof.
  pose proof (C10_failed_load_keeps_cache sqlite_project (JStr "missing.config.ts")
                loaded_loader [] (ConfigNotFound "/proj/missing.config.ts")
                loaded_loader [] eq_refl) as [_ [Cached Dir]].
  split; [reflexivity |]. split.
  - apply (Cached sqlite_memory_config JUndefined []); reflexivity.
  - apply (Dir "/proj/drizzle.config.ts" []); [reflexivity | discriminate].
Defined.

(* ================================================================== *)
(** ** The dispatcher *)
(* ================================================================== *)

Lemma class_mem_alphabet c :
  class_mem migration_name_class c = true <-> in_name_alphabet c.
Proof.
  unfold in_name_alphabet.
  destruct c as [[] [] [] [] [] [] [] []]; vm_compute;
    split; intros H; try reflexivity; try discriminate; lia.
Qed.

Lemma test_class_plus_false s :
  s = "" \/ (exists c, In c (list_ascii_of_string s) /\ ~ in_name_alphabet c) ->
  test_class_plus migration_name_class s = false.
Proof.
  intros [-> | (c & I & N)]; [reflexivity |].
  unfold test_class_plus. destruct s as [| c0 t]; [reflexivity |].
  apply not_true_is_false. intros F.
  rewrite forallb_forall in F. apply N, class_mem_alphabet, F, I.
Qed.

Lemma validateMigrationName_malformed v s h :
  malformed_name v ->
  exists msg,
    DrizzleMCPServer.validateMigrationName v s h = (Throw (ValidationError msg), s, []).
Proof.
  intros Bad. unfold DrizzleMCPServer.validateMigrationName.
  destruct v; try (eexists; reflexivity).
  simpl in Bad. rename s0 into n.
  destruct (n =? ""); [eexists; reflexivity |].
  rewrite (test_class_plus_false n Bad). eexists. reflexivity.
Qed.

(** A handler that throws before any effect is answered by the error
    envelope, the server unchanged. *)
Lemma callTool_of_dispatch w name args s h :
  DrizzleMCPServer.callTool w name args s h =
    match DrizzleMCPServer.dispatch w name args s h with
    | (Return res, s', ev) => (Return res, s', ev)
    | (Throw e, s', ev) => (Return (DrizzleMCPServer.error_result e), s', ev)
    end.
Proof.
  unfold DrizzleMCPServer.callTool, try_catch, ret.
  destruct (DrizzleMCPServer.dispatch w name args s h) as [[[res | e] s'] ev];
    [reflexivity |].
  rewrite app_nil_r. reflexivity.
Qed.

(** C7: when the [name] argument of [drizzle_generate_migration] is not a
    string, is empty, or holds a character outside [a-zA-Z0-9_-], the
    handler throws a validation error before any effect: the tool call is
    answered by the error envelope, the server is unchanged, and no event,
    in particular no subprocess, has been emitted. *)
Theorem C7_malformed_name_spawns_nothing w s h props :
  malformed_name (prop "name" (JObj props)) ->
  exists msg,
    DrizzleMCPServer.handleGenerateMigration w (JObj props) s h
    = (Throw (ValidationError msg), s, [])
    /\ DrizzleMCPServer.callTool w "drizzle_generate_migration" (JObj props) s h
       = (Return (DrizzleMCPServer.error_result (ValidationError msg)), s, []).
Proof.
  intros Bad.
  destruct (validateMigrationName_malformed _ s (h ++ [])%list Bad) as [msg V].
  exists msg.
  assert (H : DrizzleMCPServer.handleGenerateMigration w (JObj props) s h
              = (Throw (ValidationError msg), s, [])).
  { unfold DrizzleMCPServer.handleGenerateMigration, DrizzleMCPServer.destructure.
    unfold bind at 1. unfold ret at 1. cbv beta iota.
    rewrite (bind_Throw _ _ _ _ _ _ _ V). reflexivity. }
  split; [exact H |].
  rewrite callTool_of_dispatch. unfold DrizzleMCPServer.dispatch.
  cbn [String.eqb Ascii.eqb Bool.eqb]. rewrite H. reflexivity.
Qed.

Lemma C7_witness :
  malformed_name (prop "name" (JObj [("name", JStr "add users; rm -rf /")]))
  /\ exists msg,
       DrizzleMCPServer.handleGenerateMigration sqlite_project
         (JObj [("name", JStr "add users; rm -rf /")])
         (DrizzleMCPServer.new sqlite_project (JStr "/proj")) []
       = (Throw (ValidationError msg), DrizzleMCPServer.new sqlite_project (JStr "/proj"), [])
       /\ DrizzleMCPServer.callTool sqlite_project "drizzle_generate_migration"
            (JObj [("name", JStr "add users; rm -rf /")])
            (DrizzleMCPServer.new sqlite_project (JStr "/proj")) []
          = (Return (DrizzleMCPServer.error_result (ValidationError msg)),
             DrizzleMCPServer.new sqlite_project (JStr "/proj"), []).
Proof.
  assert (Bad : malformed_name (prop "name" (JObj [("name", JStr "add users; rm -rf /")]))).
  { right. exists " "%char. split.
    - simpl. tauto.
    - intros A. vm_compute in A. lia. }
  split; [exact Bad |].
  exact (C7_malformed_name_spawns_nothing sqlite_project
           (DrizzleMCPServer.new sqlite_project (JStr "/proj")) []
           [("name", JStr "add users; rm -rf /")] Bad).
Defined.



(** [readResource] is the optional first load followed by the guarded
    fetch. *)
Lemma readResource_loaded w uri s h cfg :
  DrizzleMCPServer.config s = Some cfg ->
  DrizzleMCPServer.readResource w uri s h =
    match DrizzleMCPServer.fetch w uri s h with
    | (Return res, s', ev) => (Return res, s', ev)
    | (Throw e, s', ev) => (Throw (ReadResourceFailed uri e), s', ev)
    end.
Proof.
  intros C. unfold DrizzleMCPServer.readResource, bind, this. cbv beta iota.
  rewrite C. unfold ret at 1. cbv beta iota. rewrite !app_nil_r.
  unfold try_catch, throw.
  destruct (DrizzleMCPServer.fetch w uri s h) as [[[res | e] s'] ev];
    [reflexivity | rewrite app_nil_r; reflexivity].
Qed.

Lemma readResource_unloaded w uri s h :
  DrizzleMCPServer.config s = None ->
  DrizzleMCPServer.readResource w uri s h =
    match DrizzleMCPServer.loadConfig w JUndefined s h with
    | (Return _, s1, ev1) =>
        match DrizzleMCPServer.fetch w uri s1 (h ++ ev1)%list with
        | (Return res, s', ev) => (Return res, s', (ev1 ++ ev)%list)
        | (Throw e, s', ev) => (Throw (ReadResourceFailed uri e), s', (ev1 ++ ev)%list)
        end
    | (Throw e, s1, ev1) => (Throw e, s1, ev1)
    end.
Proof.
  intros C. unfold DrizzleMCPServer.readResource, bind, this. cbv beta iota.
  rewrite C, !app_nil_r.
  destruct (DrizzleMCPServer.loadConfig w JUndefined s h) as [[[u | e] s1] ev1];
    [| reflexivity].
  unfold try_catch, throw.
  destruct (DrizzleMCPServer.fetch w uri s1 (h ++ ev1)%list) as [[[res | e] s'] ev];
    [reflexivity | rewrite app_nil_r; reflexivity].
Qed.



(* ================================================================== *)
(** ** Queries and schema resources *)
(* ================================================================== *)

Example initialize_database_tool :
  DrizzleMCPServer.callTool sqlite_project "initialize_database" (JObj []) new_server []
  = (Return (text_result "Database initialized successfully with config: auto-detected"),
     ready_server,
     [EvImportConfig "file:///proj/drizzle.config.ts";
      EvImportFromProject "/proj" "better-sqlite3";
      EvImportFromProject "/proj" "drizzle-orm/better-sqlite3";
      EvConstruct (SqliteDatabase ":memory:");
      EvDrizzle (SqliteDatabase ":memory:")]).
Proof. reflexivity. Qed.

(** C3, at its failing input, the scenario of the specification on sqlite:
    [executeQuery] sends every statement through [prepare(query).all()],
    which better-sqlite3 refuses for a statement that returns no data; the
    [INSERT] (and the [CREATE TABLE] before it) is answered by an error
    and is never run, so there is no row to read back. *)
Theorem C3_sqlite_insert_is_refused :
  DatabaseManager.executeQuery sqlite_project "INSERT INTO t VALUES (1)" (JArr [])
    open_manager []
  = (Throw (TypeError "This statement does not return data. Use run() instead"),
     open_manager, [EvPrepare "INSERT INTO t VALUES (1)"])
  /\ DrizzleMCPServer.callTool sqlite_project "execute_query"
       (JObj [("query", JStr "INSERT INTO t VALUES (1)")]) ready_server []
     = (Return (mkCallToolResult
                  [mkTextContent "text"
                     "Error: This statement does not return data. Use run() instead"]
                  (Some true)),
        ready_server, [EvPrepare "INSERT INTO t VALUES (1)"])
  /\ DrizzleMCPServer.callTool sqlite_project "execute_query"
       (JObj [("query", JStr "CREATE TABLE t(id INTEGER)")]) ready_server []
     = (Return (mkCallToolResult
                  [mkTextContent "text"
                     "Error: This statement does not return data. Use run() instead"]
                  (Some true)),
        ready_server, [EvPrepare "CREATE TABLE t(id INTEGER)"]).
Proof. repeat split. Qed.

(** On sqlite, [executeQuery] with an array of parameters runs no
    statement but a reader. *)
Lemma executeQuery_sqlite_needs_reader w o h query items stmt cfg url :
  DatabaseManager.config o = Some cfg -> dialect cfg = "sqlite" ->
  DatabaseManager.db o = Some (Drizzle (SqliteDatabase url)) ->
  DatabaseManager.client o = Some (SqliteDatabase url) ->
  prepare w h query = Return stmt -> reader stmt = false ->
  DatabaseManager.executeQuery w query (JArr items) o h
  = (Throw (TypeError "This statement does not return data. Use run() instead"),
     o, [EvPrepare query]).
Proof.
  intros C D B Cl P R.
  unfold DatabaseManager.executeQuery, DatabaseManager.getDb, DatabaseManager.getClient,
    DatabaseManager.dialect_is, DatabaseManager.prepare_spread_all,
    DatabaseManager.default_params, DatabaseManager.length_positive,
    DatabaseManager.spread, bind, this, history, emit, complete, ret, throw.
  cbv beta iota. rewrite B. cbv beta iota. rewrite C, D.
  cbn [String.eqb Ascii.eqb Bool.eqb]. cbv beta iota. rewrite Cl. cbv beta iota.
  rewrite !app_nil_r, P. cbv beta iota.
  destruct items; cbv beta iota; rewrite R; reflexivity.
Qed.

(** The subprocess of a migration operation: it is spawned once the
    configuration is loaded, in the directory of the loader's resolved
    config path, and is given as [--config] the argument as typed, or the
    constant of [getDefaultConfigPath]. *)
Lemma executeDrizzleKitCommand_spawns w command config s h s1 ev1 path :
  DrizzleMCPServer.loadConfig w config s h = (Return tt, s1, ev1) ->
  ConfigLoader.configPath (DrizzleMCPServer.configLoader s1) = Some path ->
  path <> "" ->
  exists r,
    DrizzleMCPServer.executeDrizzleKitCommand w command config s h
    = (r, s1,
       (ev1 ++ [EvExec ("npx drizzle-kit " ++ command ++ " --config="
                          ++ String_of (if truthy config then config
                                        else JStr "drizzle.config.ts"))
                  (dirname path)])%list).
Proof.
  intros L P NE. unfold DrizzleMCPServer.executeDrizzleKitCommand.
  rewrite (bind_Return _ _ _ _ _ _ _ L).
  unfold DrizzleMCPServer.on_configLoader, on, ConfigLoader.getConfigDirectory,
    bind, this, history, emit, complete, ret.
  cbv beta iota. rewrite P.
  destruct (String.eqb_spec path ""); [contradiction |].
  cbv beta iota. destruct s1 as [cl dm cfg].
  unfold DrizzleMCPServer.set_configLoader. cbn [DrizzleMCPServer.configLoader
    DrizzleMCPServer.databaseManager DrizzleMCPServer.config app].
  eexists. reflexivity.
Qed.

Lemma executeDrizzleKitCommand_load_failure w command config s h e s1 ev1 :
  DrizzleMCPServer.loadConfig w config s h = (Throw e, s1, ev1) ->
  DrizzleMCPServer.executeDrizzleKitCommand w command config s h = (Throw e, s1, ev1).
Proof.
  intros L. unfold DrizzleMCPServer.executeDrizzleKitCommand.
  apply bind_Throw. exact L.
Qed.

(** C5, at its failing inputs.  With the config auto-detected as
    [/proj/drizzle.config.js], the subprocess is given
    [--config=drizzle.config.ts], the constant of [getDefaultConfigPath],
    not the path found.  With the explicit path [conf/drizzle.config.ts]
    the subprocess is given the path as typed, which it reads from its
    working directory [/proj/conf], not the resolved path
    [/proj/conf/drizzle.config.ts].  The working directory is the
    directory of the resolved config file in both. *)
Theorem C5_config_argument_is_not_the_resolved_path :
  (exists s',
     DrizzleMCPServer.callTool js_project "drizzle_run_migrations" (JObj []) new_server []
     = (Return (text_result
                  ("Migrations executed successfully:" ++ nl ++ nl ++ "STDOUT:" ++ nl
                     ++ nl ++ nl ++ "STDERR:" ++ nl)),
        s',
        [EvImportConfig "file:///proj/drizzle.config.js";
         EvImportFromProject "/proj" "better-sqlite3";
         EvImportFromProject "/proj" "drizzle-orm/better-sqlite3";
         EvConstruct (SqliteDatabase ":memory:");
         EvDrizzle (SqliteDatabase ":memory:");
         EvExec "npx drizzle-kit migrate --config=drizzle.config.ts" "/proj"])
     /\ ConfigLoader.configPath (DrizzleMCPServer.configLoader s')
        = Some "/proj/drizzle.config.js")
  /\
  (exists s' out,
     DrizzleMCPServer.executeDrizzleKitCommand conf_project "migrate"
       (JStr "conf/drizzle.config.ts") new_server []
     = (Return out, s',
        [EvImportConfig "file:///proj/conf/drizzle.config.ts";
         EvImportFromProject "/proj" "better-sqlite3";
         EvImportFromProject "/proj" "drizzle-orm/better-sqlite3";
         EvConstruct (SqliteDatabase ":memory:");
         EvDrizzle (SqliteDatabase ":memory:");
         EvExec "npx drizzle-kit migrate --config=conf/drizzle.config.ts" "/proj/conf"])
     /\ ConfigLoader.configPath (DrizzleMCPServer.configLoader s')
        = Some "/proj/conf/drizzle.config.ts"
     /\ resolve "/" ["/proj/conf"; "conf/drizzle.config.ts"]
        = "/proj/conf/conf/drizzle.config.ts").
Proof.
  split.
  - eexists. split; reflexivity.
  - eexists. eexists. split; [reflexivity |]. split; reflexivity.
Qed.

Lemma sqlite_schema_rows_shape catalog pg rows :
  sqlite_schema_rows catalog = JArr rows -> pg = false -> Forall (schema_row pg) rows.
Proof.
  unfold sqlite_schema_rows. intros E ->. inversion E; subst. clear E.
  apply Forall_forall. intros row I. apply in_map_iff in I.
  destruct I as (r & <- & _). eexists. eexists. split; [reflexivity | discriminate].
Qed.

Lemma pg_schema_rows_shape catalog pg :
  exists rows, pg_schema_rows catalog = JArr rows /\ Forall (schema_row pg) rows.
Proof.
  unfold pg_schema_rows. eexists. split; [reflexivity |].
  apply Forall_forall. intros row I. apply in_map_iff in I.
  destruct I as (r & <- & _). eexists. eexists. split; [reflexivity | reflexivity].
Qed.

Lemma dialect_is_exclusive o :
  DatabaseManager.dialect_is o "sqlite" = true ->
  DatabaseManager.dialect_is o "postgresql" = false.
Proof.
  unfold DatabaseManager.dialect_is. destruct (DatabaseManager.config o) as [c |]; auto.
  intros E. apply String.eqb_eq in E. rewrite E. reflexivity.
Qed.

(** [getSchema] does not update the manager, and what it returns is an
    array of schema rows. *)
Lemma getSchema_rows w o h v o' ev :
  DatabaseManager.getSchema w o h = (Return v, o', ev) ->
  o' = o /\ exists rows,
    v = JArr rows
    /\ Forall (schema_row (DatabaseManager.dialect_is o "postgresql")) rows.
Proof.
  unfold DatabaseManager.getSchema, DatabaseManager.getClient, bind, this.
  cbv beta iota.
  destruct (DatabaseManager.dialect_is o "sqlite") eqn:S.
  - pose proof (dialect_is_exclusive o S) as X.
    destruct (DatabaseManager.client o) as [c |]; unfold ret, throw; cbv beta iota;
      [| intros E; discriminate].
    unfold DatabaseManager.prepare_all, DatabaseManager.prepare_spread_all,
      DatabaseManager.sqlite_catalog,
      bind, history, emit, complete, throw, ret.
    destruct c; cbv beta iota; try (intros E; discriminate).
    destruct (prepare w _ sqlite_schema_query) as [stmt | e]; cbv beta iota;
      [| intros E; discriminate].
    destruct (reader stmt); cbv beta iota; [| intros E; discriminate].
    destruct (sqlite_master w _) as [catalog | e]; intros E; [| discriminate].
    inversion E; subst. split; [reflexivity |].
    eexists. split; [reflexivity |].
    eapply sqlite_schema_rows_shape; [reflexivity | exact X].
  - destruct (DatabaseManager.dialect_is o "postgresql") eqn:P;
      [| unfold throw; intros E; discriminate].
    destruct (DatabaseManager.client o) as [c |]; unfold ret, throw; cbv beta iota;
      [| intros E; discriminate].
    unfold DatabaseManager.pg_catalog, bind, history, emit, complete, throw, ret.
    destruct c; cbv beta iota; try (intros E; discriminate);
      (destruct (pg_tables w _) as [catalog | e]; cbv beta iota; intros E;
       [| discriminate]);
      inversion E; subst; (split; [reflexivity |]);
      apply pg_schema_rows_shape.
Qed.

(** C4, as stated, fails: on a PostgreSQL database with one public table
    [t], the entry of the schema resource has the fields [name] and [sql]
    and no field [ddl], and its placeholder ends in a semicolon. *)
Lemma C4_counterexample :
  DrizzleMCPServer.callTool pg_project "initialize_database" (JObj []) new_server []
  = (Return (text_result "Database initialized successfully with config: auto-detected"),
     pg_server,
     [EvImportConfig "file:///proj/drizzle.config.ts";
      EvImportFromProject "/proj" "postgres";
      EvImportFromProject "/proj" "drizzle-orm/postgres-js";
      EvConstruct (PostgresJs "postgresql://app@localhost/app");
      EvDrizzle (PostgresJs "postgresql://app@localhost/app")])
  /\ DrizzleMCPServer.readResource pg_project "database://schema" pg_server []
     = (Return (DrizzleMCPServer.json_contents "database://schema"
                  (JArr [JObj [("name", JStr "t");
                               ("sql", JStr "CREATE TABLE t (...);")]])),
        pg_server, [EvTemplate pg_schema_query])
  /\ prop "ddl" (JObj [("name", JStr "t"); ("sql", JStr "CREATE TABLE t (...);")])
     = JUndefined
  /\ JStr "CREATE TABLE t (...);" <> JStr "CREATE TABLE t (...)".
Proof. repeat split. discriminate. Qed.

(** C4, amended: a read of [database://schema] that returns yields one
    content item, of MIME type [application/json], whose text is the JSON
    serialisation of an array of objects each having exactly the fields
    [name] and [sql]; under the postgresql dialect the [sql] of every
    entry is the placeholder [CREATE TABLE <name> (...);]. *)
Theorem C4_schema_resource_rows w s h res s' ev :
  DrizzleMCPServer.readResource w RESOURCE_URIS.SCHEMA s h = (Return res, s', ev) ->
  exists rows,
    contents res
    = [mkResourceContents "database://schema" "application/json"
         (JSON_stringify (JArr rows))]
    /\ Forall (schema_row
                 (DatabaseManager.dialect_is (DrizzleMCPServer.databaseManager s')
                    "postgresql")) rows.
Proof.
  assert (F : forall s1 h1 res1 s2 ev1,
             DrizzleMCPServer.fetch w RESOURCE_URIS.SCHEMA s1 h1 = (Return res1, s2, ev1) ->
             exists rows,
               contents res1
               = [mkResourceContents "database://schema" "application/json"
                    (JSON_stringify (JArr rows))]
               /\ Forall (schema_row
                            (DatabaseManager.dialect_is
                               (DrizzleMCPServer.databaseManager s2) "postgresql")) rows).
  { intros s1 h1 res1 s2 ev1. unfold DrizzleMCPServer.fetch.
    cbn [String.eqb Ascii.eqb Bool.eqb RESOURCE_URIS.SCHEMA RESOURCE_URIS.TABLES].
    unfold bind, DrizzleMCPServer.on_databaseManager, on.
    destruct (DatabaseManager.getSchema w (DrizzleMCPServer.databaseManager s1) h1)
      as [[[v | e] dm] ev0] eqn:G; [| intros E; discriminate].
    destruct (getSchema_rows _ _ _ _ _ _ G) as (-> & rows & -> & Rows).
    unfold ret. intros E. inversion E; subst. exists rows. split; [reflexivity |].
    exact Rows. }
  intros R.
  destruct (DrizzleMCPServer.config s) as [cfg |] eqn:C.
  - rewrite (readResource_loaded w _ s h cfg C) in R.
    destruct (DrizzleMCPServer.fetch w RESOURCE_URIS.SCHEMA s h)
      as [[[res1 | e] s2] ev1] eqn:E; [| discriminate].
    inversion R; subst. eapply F; eauto.
  - rewrite (readResource_unloaded w _ s h C) in R.
    destruct (DrizzleMCPServer.loadConfig w JUndefined s h) as [[[u | e] s1] ev1];
      [| discriminate].
    destruct (DrizzleMCPServer.fetch w RESOURCE_URIS.SCHEMA s1 (h ++ ev1)%list)
      as [[[res1 | e] s2] ev2] eqn:E; [| discriminate].
    inversion R; subst. eapply F; eauto.
Qed.

Lemma C4_witness :
  DrizzleMCPServer.readResource pg_project RESOURCE_URIS.SCHEMA pg_server []
  = (Return (DrizzleMCPServer.json_contents "database://schema"
               (JArr [JObj [("name", JStr "t"); ("sql", JStr "CREATE TABLE t (...);")]])),
     pg_server, [EvTemplate pg_schema_query])
  /\ exists rows,
       [mkResourceContents "database://schema" "application/json"
          (JSON_stringify
             (JArr [JObj [("name", JStr "t"); ("sql", JStr "CREATE TABLE t (...);")]]))]
       = [mkResourceContents "database://schema" "application/json"
            (JSON_stringify (JArr rows))]
       /\ Forall (schema_row true) rows.
Proof.
  split; [reflexivity |].
  exact (C4_schema_resource_rows pg_project pg_server []
           (DrizzleMCPServer.json_contents "database://schema"
              (JArr [JObj [("name", JStr "t"); ("sql", JStr "CREATE TABLE t (...);")]]))
           pg_server [EvTemplate pg_schema_query] eq_refl).
Defined.

(* ================================================================== *)
(** ** Effects, results and errors along the structure of a method *)
(* ================================================================== *)

Lemma emits_ret {O A} Q (a : A) : emits Q (@ret O A a).
Proof. intros o h r o' ev E. inversion E; subst. constructor. Qed.

Lemma emits_throw {O A} Q e : emits Q (@throw O A e).
Proof. intros o h r o' ev E. inversion E; subst. constructor. Qed.

Lemma emits_this {O} Q : emits Q (@this O).
Proof. intros o h r o' ev E. inversion E; subst. constructor. Qed.

Lemma emits_history {O} Q : emits Q (@history O).
Proof. intros o h r o' ev E. inversion E; subst. constructor. Qed.

Lemma emits_assign {O} Q (f : O -> O) : emits Q (assign f).
Proof. intros o h r o' ev E. inversion E; subst. constructor. Qed.

Lemma emits_complete {O A} Q (c : Completion A) : emits Q (@complete O A c).
Proof. intros o h r o' ev E. inversion E; subst. constructor. Qed.

Lemma emits_emit {O} (Q : Event -> Prop) e : Q e -> emits Q (@emit O e).
Proof. intros Qe o h r o' ev E. inversion E; subst. constructor; [exact Qe | constructor]. Qed.

Lemma emits_bind {O A B} Q (m : M O A) (k : A -> M O B) :
  emits Q m -> (forall a, emits Q (k a)) -> emits Q (bind m k).
Proof.
  intros Hm Hk o h r o' ev E. unfold bind in E.
  destruct (m o h) as [[[a | e] o1] ev1] eqn:Em.
  - destruct (k a o1 (h ++ ev1)%list) as [[r2 o2] ev2] eqn:Ek.
    inversion E; subst. apply Forall_app. split.
    + eapply Hm; eassumption.
    + eapply Hk; eassumption.
  - inversion E; subst. eapply Hm; eassumption.
Qed.

Lemma emits_try_catch {O A} Q (m : M O A) (handler : Exn -> M O A) :
  emits Q m -> (forall e, emits Q (handler e)) -> emits Q (try_catch m handler).
Proof.
  intros Hm Hk o h r o' ev E. unfold try_catch in E.
  destruct (m o h) as [[[a | e] o1] ev1] eqn:Em.
  - inversion E; subst. eapply Hm; eassumption.
  - destruct (handler e o1 (h ++ ev1)%list) as [[r2 o2] ev2] eqn:Ek.
    inversion E; subst. apply Forall_app. split.
    + eapply Hm; eassumption.
    + eapply Hk; eassumption.
Qed.

Lemma emits_on {O P A} Q (get : O -> P) (set : P -> O -> O) (m : M P A) :
  emits Q m -> emits Q (on get set m).
Proof.
  intros Hm o h r o' ev E. unfold on in E.
  destruct (m (get o) h) as [[r1 p] ev1] eqn:Em.
  inversion E; subst. eapply Hm; eassumption.
Qed.

Lemma emits_weaken {O A} (Q Q' : Event -> Prop) (m : M O A) :
  (forall e, Q e -> Q' e) -> emits Q m -> emits Q' m.
Proof.
  intros W Hm o h r o' ev E. eapply Forall_impl; [exact W |]. eapply Hm; eassumption.
Qed.

Create HintDb emits discriminated.
#[export] Hint Resolve emits_ret emits_throw emits_this emits_history emits_assign
  emits_complete : emits.

(** Splits a goal [emits Q m] along the structure of [m]. *)
Ltac emits_step :=
  match goal with
  | |- emits _ (bind _ _) => apply emits_bind; [| intros ?]
  | |- emits _ (try_catch _ _) => apply emits_try_catch; [| intros ?]
  | |- emits _ (on _ _ _) => apply emits_on
  | |- emits _ (emit _) => apply emits_emit; exact I
  | |- emits _ (match ?x with _ => _ end) => destruct x
  | |- emits _ _ => solve [auto with emits]
  end.

Lemma returns_throw {O A} (Q : A -> Prop) e : returns Q (@throw O A e).
Proof. intros o h a o' ev E. inversion E. Qed.

Lemma returns_ret {O A} (Q : A -> Prop) (a : A) : Q a -> returns Q (@ret O A a).
Proof. intros Qa o h x o' ev E. inversion E; subst. exact Qa. Qed.

Lemma returns_bind {O A B} (Q : B -> Prop) (m : M O A) (k : A -> M O B) :
  (forall a, returns Q (k a)) -> returns Q (bind m k).
Proof.
  intros Hk o h b o' ev E. unfold bind in E.
  destruct (m o h) as [[[a | e] o1] ev1] eqn:Em.
  - destruct (k a o1 (h ++ ev1)%list) as [[r2 o2] ev2] eqn:Ek.
    inversion E; subst. eapply Hk; eassumption.
  - inversion E.
Qed.

Lemma returns_try_catch {O A} (Q : A -> Prop) (m : M O A) (handler : Exn -> M O A) :
  returns Q m -> (forall e, returns Q (handler e)) -> returns Q (try_catch m handler).
Proof.
  intros Hm Hk o h a o' ev E. unfold try_catch in E.
  destruct (m o h) as [[[x | e] o1] ev1] eqn:Em.
  - inversion E; subst. eapply Hm; eassumption.
  - destruct (handler e o1 (h ++ ev1)%list) as [[r2 o2] ev2] eqn:Ek.
    inversion E; subst. eapply Hk; eassumption.
Qed.

Lemma throws_ret {O A} (Q : Exn -> Prop) (a : A) : throws Q (@ret O A a).
Proof. intros o h e o' ev E. inversion E. Qed.

Lemma throws_throw {O A} (Q : Exn -> Prop) e : Q e -> throws Q (@throw O A e).
Proof. intros Qe o h x o' ev E. inversion E; subst. exact Qe. Qed.

Lemma throws_bind {O A B} (Q : Exn -> Prop) (m : M O A) (k : A -> M O B) :
  throws Q m -> (forall a, throws Q (k a)) -> throws Q (bind m k).
Proof.
  intros Hm Hk o h x o' ev E. unfold bind in E.
  destruct (m o h) as [[[a | e] o1] ev1] eqn:Em.
  - destruct (k a o1 (h ++ ev1)%list) as [[r2 o2] ev2] eqn:Ek.
    inversion E; subst. eapply Hk; eassumption.
  - inversion E; subst. eapply Hm; eassumption.
Qed.

Lemma throws_try_catch {O A} (Q : Exn -> Prop) (m : M O A) (handler : Exn -> M O A) :
  (forall e, throws Q (handler e)) -> throws Q (try_catch m handler).
Proof.
  intros Hk o h x o' ev E. unfold try_catch in E.
  destruct (m o h) as [[[a | e] o1] ev1] eqn:Em.
  - inversion E.
  - destruct (handler e o1 (h ++ ev1)%list) as [[r2 o2] ev2] eqn:Ek.
    inversion E; subst. eapply Hk; eassumption.
Qed.

(* ================================================================== *)
(** ** ConfigLoader: resolution and the cache *)
(* ================================================================== *)

(** [first_existing] answers the first name of the list whose resolution
    exists, and nothing when none does. *)
Lemma first_existing_Some w base names p :
  ConfigLoader.first_existing w base names = Some p ->
  exists before name after,
    names = (before ++ name :: after)%list
    /\ p = resolve (process_cwd w) [base; name]
    /\ existsSync w p = true
    /\ Forall (fun m => existsSync w (resolve (process_cwd w) [base; m]) = false) before.
Proof.
  induction names as [| n rest IH]; simpl; [discriminate |].
  destruct (existsSync w (resolve (process_cwd w) [base; n])) eqn:E.
  - intros P. inversion P; subst. exists [], n, rest. repeat split; auto.
  - intros P. destruct (IH P) as (before & name & after & -> & -> & Ex & No).
    exists (n :: before), name, after. repeat split; auto.
Qed.

Lemma first_existing_None w base names :
  ConfigLoader.first_existing w base names = None ->
  Forall (fun m => existsSync w (resolve (process_cwd w) [base; m]) = false) names.
Proof.
  induction names as [| n rest IH]; simpl; [constructor |].
  destruct (existsSync w (resolve (process_cwd w) [base; n])) eqn:E; [discriminate |].
  intros P. constructor; auto.
Qed.

(** Auto-detection: without an explicit path, [resolveConfigPath] answers
    the first of [drizzle.config.ts], [drizzle.config.js],
    [drizzle.config.mjs] that exists in the loader's directory, every name
    before it being absent, and fails with [NoConfigFile] exactly when none
    of the three exists.  It neither updates the loader nor performs an
    effect. *)
Theorem autodetect_takes_first_existing w p o h :
  truthy p = false ->
  (exists before name after,
     ConfigLoader.commonPaths = (before ++ name :: after)%list
     /\ existsSync w (resolve (process_cwd w) [ConfigLoader.cwd o; name]) = true
     /\ Forall (fun m => existsSync w (resolve (process_cwd w) [ConfigLoader.cwd o; m])
                         = false) before
     /\ ConfigLoader.resolveConfigPath w p o h
        = (Return (resolve (process_cwd w) [ConfigLoader.cwd o; name]), o, []))
  \/ (Forall (fun m => existsSync w (resolve (process_cwd w) [ConfigLoader.cwd o; m])
                       = false) ConfigLoader.commonPaths
      /\ ConfigLoader.resolveConfigPath w p o h = (Throw NoConfigFile, o, [])).
Proof.
  intros T. unfold ConfigLoader.resolveConfigPath, bind, this. cbv beta iota.
  rewrite T.
  destruct (ConfigLoader.first_existing w (ConfigLoader.cwd o) ConfigLoader.commonPaths)
    as [found |] eqn:F.
  - left. destruct (first_existing_Some _ _ _ _ F) as (before & name & after & S & -> & Ex & No).
    exists before, name, after. repeat split; auto.
  - right. split; [apply first_existing_None; exact F | reflexivity].
Qed.

Lemma autodetect_takes_first_existing_witness :
  truthy JUndefined = false
  /\ ((exists before name after,
         ConfigLoader.commonPaths = (before ++ name :: after)%list
         /\ existsSync js_project
              (resolve (process_cwd js_project) [ConfigLoader.cwd fresh_loader; name]) = true
         /\ Forall (fun m => existsSync js_project
                               (resolve (process_cwd js_project)
                                  [ConfigLoader.cwd fresh_loader; m]) = false) before
         /\ ConfigLoader.resolveConfigPath js_project JUndefined fresh_loader []
            = (Return (resolve (process_cwd js_project)
                         [ConfigLoader.cwd fresh_loader; name]), fresh_loader, []))
      \/ (Forall (fun m => existsSync js_project
                             (resolve (process_cwd js_project)
                                [ConfigLoader.cwd fresh_loader; m]) = false)
            ConfigLoader.commonPaths
          /\ ConfigLoader.resolveConfigPath js_project JUndefined fresh_loader []
             = (Throw NoConfigFile, fresh_loader, []))).
Proof.
  split; [reflexivity |].
  apply (autodetect_takes_first_existing js_project JUndefined fresh_loader []).
  reflexivity.
Defined.

Lemma resolve_nonempty pcwd args : resolve pcwd args <> "".
Proof.
  unfold resolve.
  destruct (resolve_scan (rev args) "") as [acc [|]];
    [| destruct (isAbsolute pcwd)].
  - simpl. discriminate.
  - simpl. discriminate.
  - match goal with
    | |- (if ?b =? "" then _ else _) <> _ => destruct (String.eqb_spec b "")
    end; [discriminate | assumption].
Qed.

(** What a [load] that returns has done: the file at the resolved path
    exists, its import is the only effect, and the loader now caches the
    returned configuration under that path. *)
Lemma load_Return w p o h c o' ev :
  ConfigLoader.load w p o h = (Return c, o', ev) ->
  exists path,
    path <> "" /\ existsSync w path = true
    /\ ev = [EvImportConfig (pathToFileURL path)]
    /\ o' = ConfigLoader.mk (ConfigLoader.cwd o) (Some c) (Some path).
Proof.
  unfold ConfigLoader.load. intros H.
  destruct (ConfigLoader.resolveConfigPath w p o h) as [[r o1] ev1] eqn:R.
  assert (NE : forall path, r = Return path -> path <> "").
  { intros path ->. revert R.
    unfold ConfigLoader.resolveConfigPath, ConfigLoader.resolve_arg, bind, this.
    cbv beta iota. destruct (truthy p).
    - destruct p; unfold ret, throw; intros E; inversion E. apply resolve_nonempty.
    - destruct (ConfigLoader.first_existing w (ConfigLoader.cwd o) ConfigLoader.commonPaths)
        as [f |] eqn:F; unfold ret, throw; intros E; inversion E; subst.
      destruct (first_existing_Some _ _ _ _ F) as (? & ? & ? & _ & -> & _).
      apply resolve_nonempty. }
  destruct (resolveConfigPath_pure _ _ _ _ _ _ _ R) as [-> ->].
  destruct r as [resolved | e0].
  - rewrite (bind_Return _ _ _ _ _ _ _ R) in H.
    destruct (existsSync w resolved) eqn:Ex; simpl in H.
    + unfold try_catch, bind, emit, complete, assign, ret, throw in H. simpl in H.
      destruct (import_url w (pathToFileURL resolved)) as [m | e1]; simpl in H.
      * destruct (Zod.parse Zod.DrizzleConfigSchema _) as [c0 | e2]; simpl in H.
        -- inversion H; subst. exists resolved. repeat split; auto.
        -- destruct e2; inversion H.
      * destruct e1; inversion H.
    + unfold throw in H. inversion H.
  - rewrite (bind_Throw _ _ _ _ _ _ _ R) in H. inversion H.
Qed.

Lemma loadConfig_Return w p o h c o' ev :
  ConfigLoader.loadConfig w p o h = (Return c, o', ev) ->
  (ConfigLoader.config o = Some c /\ o' = o /\ ev = [])
  \/ exists path,
       path <> "" /\ existsSync w path = true
       /\ ev = [EvImportConfig (pathToFileURL path)]
       /\ o' = ConfigLoader.mk (ConfigLoader.cwd o) (Some c) (Some path).
Proof.
  unfold ConfigLoader.loadConfig, bind, this. cbv beta iota. rewrite app_nil_r.
  destruct (ConfigLoader.config o) as [cached |].
  - destruct (negb (truthy p) || ConfigLoader.same_path p (ConfigLoader.configPath o)).
    + unfold ret. intros E. inversion E; subst. left. auto.
    + destruct (ConfigLoader.load w p o h) as [[r o1] ev1] eqn:L.
      intros E. inversion E; subst. right. eapply load_Return; eauto.
  - destruct (ConfigLoader.load w p o h) as [[r o1] ev1] eqn:L.
    intros E. inversion E; subst. right. eapply load_Return; eauto.
Qed.

(** The effects of a [load], however it ends: nothing, or one import of a
    file the file system reports. *)
Lemma load_events w p o h r o' ev :
  ConfigLoader.load w p o h = (r, o', ev) ->
  ev = [] \/ exists path, existsSync w path = true
                          /\ ev = [EvImportConfig (pathToFileURL path)].
Proof.
  unfold ConfigLoader.load. intros H.
  destruct (ConfigLoader.resolveConfigPath w p o h) as [[r0 o1] ev1] eqn:R.
  destruct (resolveConfigPath_pure _ _ _ _ _ _ _ R) as [-> ->].
  destruct r0 as [resolved | e0].
  - rewrite (bind_Return _ _ _ _ _ _ _ R) in H.
    destruct (existsSync w resolved) eqn:Ex; simpl in H.
    + right. exists resolved. split; [exact Ex |].
      unfold try_catch, bind, emit, complete, assign, ret, throw in H. simpl in H.
      destruct (import_url w (pathToFileURL resolved)) as [m | e1]; simpl in H.
      * destruct (Zod.parse Zod.DrizzleConfigSchema _) as [c0 | e2]; simpl in H.
        -- inversion H; reflexivity.
        -- destruct e2; inversion H; reflexivity.
      * destruct e1; inversion H; reflexivity.
    + unfold throw in H. inversion H. left. reflexivity.
  - rewrite (bind_Throw _ _ _ _ _ _ _ R) in H. inversion H. left. reflexivity.
Qed.

Lemma loadConfig_loader_ok w p o h r o' ev :
  loader_ok o -> ConfigLoader.loadConfig w p o h = (r, o', ev) -> loader_ok o'.
Proof.
  intros Ok E. destruct r as [c | e].
  - destruct (loadConfig_Return _ _ _ _ _ _ _ E) as [(_ & -> & _) | (path & NE & _ & _ & ->)].
    + exact Ok.
    + exact NE.
  - apply loadConfig_Throw_unchanged in E. subst. exact Ok.
Qed.

(** The cache invariant: a new loader caches nothing, and [loadConfig],
    however it ends, leaves the loader with a configuration together with
    the non-empty path it came from, or with neither. *)
Theorem loadConfig_keeps_cache_paired w :
  (forall cwd, loader_ok (ConfigLoader.new w cwd))
  /\ (forall p o h r o' ev,
        loader_ok o -> ConfigLoader.loadConfig w p o h = (r, o', ev) -> loader_ok o').
Proof.
  split.
  - intros cwd. exact I.
  - intros p o h r o' ev. apply loadConfig_loader_ok.
Qed.

Lemma loadConfig_keeps_cache_paired_witness :
  loader_ok (ConfigLoader.new sqlite_project (JStr "/proj"))
  /\ loader_ok loaded_loader.
Proof.
  destruct (loadConfig_keeps_cache_paired sqlite_project) as [New Keeps].
  split.
  - apply New.
  - apply (Keeps JUndefined fresh_loader [] (Return sqlite_memory_config) loaded_loader
             [EvImportConfig "file:///proj/drizzle.config.ts"]).
    + exact I.
    + reflexivity.
Defined.



(** [loadConfig], however it ends, performs no effect or exactly one: the
    import of a file that the file system reports to exist. *)
Theorem loadConfig_imports_at_most_once w p o h r o' ev :
  ConfigLoader.loadConfig w p o h = (r, o', ev) ->
  ev = [] \/ exists path, existsSync w path = true
                          /\ ev = [EvImportConfig (pathToFileURL path)].
Proof.
  unfold ConfigLoader.loadConfig, bind, this. cbv beta iota. rewrite app_nil_r.
  destruct (ConfigLoader.config o) as [cached |].
  - destruct (negb (truthy p) || ConfigLoader.same_path p (ConfigLoader.configPath o)).
    + unfold ret. intros E. inversion E. left. reflexivity.
    + destruct (ConfigLoader.load w p o h) as [[r1 o1] ev1] eqn:L.
      intros E. inversion E; subst. eapply load_events; eauto.
  - destruct (ConfigLoader.load w p o h) as [[r1 o1] ev1] eqn:L.
    intros E. inversion E; subst. eapply load_events; eauto.
Qed.

Lemma loadConfig_imports_at_most_once_witness :
  ConfigLoader.loadConfig ill_typed_project JUndefined fresh_loader []
  = (Throw (ConfigInvalid
              [mkIssue ["dialect"] "Invalid input: expected string, received number"]),
     fresh_loader, [EvImportConfig "file:///proj/drizzle.config.ts"])
  /\ ([EvImportConfig "file:///proj/drizzle.config.ts"] = []
      \/ exists path, existsSync ill_typed_project path = true
                      /\ [EvImportConfig "file:///proj/drizzle.config.ts"]
                         = [EvImportConfig (pathToFileURL path)]).
Proof.
  split; [reflexivity |].
  apply (loadConfig_imports_at_most_once ill_typed_project JUndefined fresh_loader []
           (Throw (ConfigInvalid
              [mkIssue ["dialect"] "Invalid input: expected string, received number"]))
           fresh_loader).
  reflexivity.
Defined.

(** An explicit path that does not exist fails with [ConfigNotFound] at its
    resolution: the conventional file names are not tried in its place,
    nothing is imported, the loader is unchanged. *)
Theorem explicit_path_has_no_fallback w o h p :
  p <> "" ->
  ConfigLoader.configPath o <> Some p ->
  existsSync w (resolve (process_cwd w) [ConfigLoader.cwd o; p]) = false ->
  ConfigLoader.loadConfig w (JStr p) o h
  = (Throw (ConfigNotFound (resolve (process_cwd w) [ConfigLoader.cwd o; p])), o, []).
Proof.
  intros NE D Ex. rewrite (loadConfig_other_path_reloads w o h p NE D).
  unfold ConfigLoader.load, ConfigLoader.resolveConfigPath, ConfigLoader.resolve_arg,
    bind, this, ret.
  cbv beta iota.
  assert (T : truthy (JStr p) = true).
  { simpl. destruct (String.eqb_spec p ""); [contradiction | reflexivity]. }
  rewrite T. cbv beta iota. rewrite Ex. reflexivity.
Qed.

Lemma explicit_path_has_no_fallback_witness :
  "custom.config.ts" <> ""
  /\ existsSync sqlite_project "/proj/drizzle.config.ts" = true
  /\ ConfigLoader.loadConfig sqlite_project (JStr "custom.config.ts") fresh_loader []
     = (Throw (ConfigNotFound
                 (resolve (process_cwd sqlite_project)
                    [ConfigLoader.cwd fresh_loader; "custom.config.ts"])),
        fresh_loader, []).
Proof.
  split; [discriminate |]. split; [reflexivity |].
  apply (explicit_path_has_no_fallback sqlite_project fresh_loader [] "custom.config.ts").
  - discriminate.
  - discriminate.
  - reflexivity.
Defined.

(* ================================================================== *)
(** ** The schema: what it accepts and what it keeps *)
(* ================================================================== *)

(** [DrizzleConfigSchema.parse] returns exactly on the well-typed objects:
    an object whose [dialect] is a string, whose [dbCredentials] is an
    object, and whose optional fields, where present, have their type:
    [out] a string, [schema] a string or an array of strings, the
    credentials [url], [host], [user], [password] and [database] strings
    and [port] a number.  No other key is typed. *)
Theorem parse_accepts_exactly_well_typed raw :
  (exists c, Zod.parse Zod.DrizzleConfigSchema raw = Return c) <-> well_typed raw = true.
Proof.
  pose proof (schema_issues_iff raw) as I. unfold Zod.parse.
  destruct (Zod.DrizzleConfigSchema [] raw) as [issues c]. simpl in I.
  destruct issues as [| i rest]; split.
  - intros _. apply I. reflexivity.
  - intros _. exists c. reflexivity.
  - intros [c' E]. discriminate.
  - intros W. apply I in W. discriminate.
Qed.

Lemma parse_accepts_exactly_well_typed_witness :
  well_typed (prop "default" sqlite_memory_module) = true
  /\ exists c, Zod.parse Zod.DrizzleConfigSchema (prop "default" sqlite_memory_module)
               = Return c.
Proof.
  split; [reflexivity |].
  apply (proj2 (parse_accepts_exactly_well_typed (prop "default" sqlite_memory_module))).
  reflexivity.
Defined.

Lemma optional_string_value path v i o :
  Zod.optional Zod.string_ path v = (i, o) -> i = [] ->
  forall u, o = Some u <-> v = JStr u.
Proof.
  destruct v; simpl; intros E N; inversion E; subst; try discriminate;
    intros u; split; intros H; try discriminate; inversion H; reflexivity.
Qed.

Lemma optional_number_value path v i o :
  Zod.optional Zod.number path v = (i, o) -> i = [] ->
  forall n, o = Some n <-> v = JNum n.
Proof.
  destruct v; simpl; intros E N; inversion E; subst; try discriminate;
    intros u; split; intros H; try discriminate; inversion H; reflexivity.
Qed.

Lemma assoc_filter_kept (keep : string -> bool) k (props : list (string * JsValue)) :
  keep k = true ->
  assoc k (filter (fun kv => keep (fst kv)) props) = assoc k props.
Proof.
  intros K. induction props as [| [k' v] t IH]; [reflexivity |].
  cbn [filter fst]. destruct (keep k') eqn:X.
  - cbn [assoc]. destruct (k =? k'); [reflexivity | exact IH].
  - cbn [assoc]. destruct (String.eqb_spec k k') as [-> | D]; [congruence | exact IH].
Qed.

Lemma assoc_filter_dropped (keep : string -> bool) k (props : list (string * JsValue)) :
  keep k = false ->
  assoc k (filter (fun kv => keep (fst kv)) props) = None.
Proof.
  intros K. induction props as [| [k' v] t IH]; [reflexivity |].
  cbn [filter fst]. destruct (keep k') eqn:X; [| exact IH].
  cbn [assoc]. destruct (String.eqb_spec k k') as [-> | D]; [congruence | exact IH].
Qed.

Lemma existsb_eqb_In k keys : existsb (String.eqb k) keys = true <-> In k keys.
Proof.
  rewrite existsb_exists. split.
  - intros (x & I & E). apply String.eqb_eq in E. subst. exact I.
  - intros I. exists k. split; [exact I | apply String.eqb_refl].
Qed.

(** What a successful parse keeps: the dialect and the credentials are the
    values of the raw object, every property of the raw object outside the
    schema is passed through with its value, and the credentials keep the
    six known fields only. *)
Theorem parse_keeps_the_raw_values raw c :
  Zod.parse Zod.DrizzleConfigSchema raw = Return c ->
  exists props,
    raw = JObj props
    /\ prop "dialect" raw = JStr (dialect c)
    /\ (forall k, ~ In k Zod.shape_keys -> assoc k (extra c) = assoc k props)
    /\ (forall k, In k Zod.shape_keys -> assoc k (extra c) = None)
    /\ (forall u, url (dbCredentials c) = Some u
                  <-> prop "url" (prop "dbCredentials" raw) = JStr u)
    /\ (forall u, host (dbCredentials c) = Some u
                  <-> prop "host" (prop "dbCredentials" raw) = JStr u)
    /\ (forall n, port (dbCredentials c) = Some n
                  <-> prop "port" (prop "dbCredentials" raw) = JNum n)
    /\ (forall u, user (dbCredentials c) = Some u
                  <-> prop "user" (prop "dbCredentials" raw) = JStr u)
    /\ (forall u, password (dbCredentials c) = Some u
                  <-> prop "password" (prop "dbCredentials" raw) = JStr u)
    /\ (forall u, database (dbCredentials c) = Some u
                  <-> prop "database" (prop "dbCredentials" raw) = JStr u).
Proof.
  unfold Zod.parse, Zod.DrizzleConfigSchema.
  destruct raw as [| | | | | | props]; try (intros E; discriminate).
  intros H. exists props. split; [reflexivity |].
  revert H. unfold Zod.field.
  change ([] ++ ["out"])%list with ["out"].
  change ([] ++ ["schema"])%list with ["schema"].
  change ([] ++ ["dialect"])%list with ["dialect"].
  change ([] ++ ["dbCredentials"])%list with ["dbCredentials"].
  destruct (Zod.optional Zod.string_ ["out"] _) as [i1 v1].
  destruct (Zod.optional Zod.string_or_strings ["schema"] _) as [i2 v2].
  destruct (Zod.string_ ["dialect"] (prop "dialect" (JObj props))) as [i3 v3] eqn:D.
  destruct (Zod.dbCredentials_ ["dbCredentials"] (prop "dbCredentials" (JObj props)))
    as [i4 v4] eqn:C.
  destruct (i1 ++ i2 ++ i3 ++ i4)%list as [| i rest] eqn:Is; intros E; [| discriminate].
  inversion E; subst c. clear E.
  apply app_eq_nil in Is. destruct Is as [_ Is].
  apply app_eq_nil in Is. destruct Is as [_ Is].
  apply app_eq_nil in Is. destruct Is as [-> ->].
  cbn [dialect extra dbCredentials].
  split.
  { revert D. unfold Zod.string_. destruct (prop "dialect" (JObj props));
      intros D; inversion D; reflexivity. }
  split.
  { intros k N. apply (assoc_filter_kept
                         (fun x => negb (existsb (String.eqb x) Zod.shape_keys))).
    apply negb_true_iff, not_true_iff_false. intros X. apply N, existsb_eqb_In, X. }
  split.
  { intros k K. apply (assoc_filter_dropped
                         (fun x => negb (existsb (String.eqb x) Zod.shape_keys))).
    apply negb_false_iff, existsb_eqb_In, K. }
  revert C. unfold Zod.dbCredentials_, Zod.field.
  destruct (prop "dbCredentials" (JObj props)) as [| | | | | | cprops];
    try (intros C; discriminate).
  set (cr := JObj cprops).
  destruct (Zod.optional Zod.string_ (["dbCredentials"] ++ ["url"])%list _) as [j1 w1] eqn:F1.
  destruct (Zod.optional Zod.string_ (["dbCredentials"] ++ ["host"])%list _) as [j2 w2] eqn:F2.
  destruct (Zod.optional Zod.number (["dbCredentials"] ++ ["port"])%list _) as [j3 w3] eqn:F3.
  destruct (Zod.optional Zod.string_ (["dbCredentials"] ++ ["user"])%list _) as [j4 w4] eqn:F4.
  destruct (Zod.optional Zod.string_ (["dbCredentials"] ++ ["password"])%list _)
    as [j5 w5] eqn:F5.
  destruct (Zod.optional Zod.string_ (["dbCredentials"] ++ ["database"])%list _)
    as [j6 w6] eqn:F6.
  intros C. inversion C as [[Js V]]. clear C.
  apply app_eq_nil in Js. destruct Js as [-> Js].
  apply app_eq_nil in Js. destruct Js as [-> Js].
  apply app_eq_nil in Js. destruct Js as [-> Js].
  apply app_eq_nil in Js. destruct Js as [-> Js].
  apply app_eq_nil in Js. destruct Js as [-> ->].
  cbn [url host port user password database].
  repeat split;
    first [ eapply optional_string_value; [eassumption | reflexivity]
          | eapply optional_number_value; [eassumption | reflexivity]
          | intros; eapply optional_string_value; [eassumption | reflexivity | assumption]
          | intros; eapply optional_number_value; [eassumption | reflexivity | assumption] ].
Qed.

Lemma parse_keeps_the_raw_values_witness :
  exists props,
    JObj [("dialect", JStr "postgresql");
          ("dbCredentials", JObj [("host", JStr "db"); ("sslmode", JStr "require")]);
          ("verbose", JBool true)] = JObj props
    /\ prop "dialect" (JObj props) = JStr "postgresql"
    /\ assoc "verbose" [("verbose", JBool true)] = assoc "verbose" props.
Proof.
  destruct (parse_keeps_the_raw_values
              (JObj [("dialect", JStr "postgresql");
                     ("dbCredentials", JObj [("host", JStr "db"); ("sslmode", JStr "require")]);
                     ("verbose", JBool true)])
              (mkDrizzleConfig None None "postgresql"
                 (mkDbCredentials None (Some "db") None None None None)
                 [("verbose", JBool true)])
              eq_refl) as (props & E & D & Extra & _).
  exists props. split; [exact E |]. split; [rewrite <- E; exact D |].
  apply (Extra "verbose"). simpl. intros [H | [H | [H | [H | []]]]]; discriminate.
Defined.

(* ================================================================== *)
(** ** DatabaseManager: resolving a driver *)
(* ================================================================== *)

Lemma importFromProject_cases w name o h :
  DatabaseManager.importFromProject w name o h
  = (match require_import w (DatabaseManager.projectRoot o) name with
     | None => Return tt
     | Some error => Throw (ImportFailed name (DatabaseManager.projectRoot o) error)
     end, o, [EvImportFromProject (DatabaseManager.projectRoot o) name]).
Proof.
  unfold DatabaseManager.importFromProject, bind, this, emit, ret, throw.
  cbv beta iota.
  destruct (require_import w (DatabaseManager.projectRoot o) name); reflexivity.
Qed.

Lemma connect_cases w c o h :
  DatabaseManager.connect w c o h
  = match construct w c, drizzle w c with
    | Some error, _ => (Throw error, o, [EvConstruct c])
    | None, Some error =>
        (Throw error, DatabaseManager.set_client (Some c) o, [EvConstruct c; EvDrizzle c])
    | None, None =>
        (Return tt,
         DatabaseManager.set_db (Some (Drizzle c)) (DatabaseManager.set_client (Some c) o),
         [EvConstruct c; EvDrizzle c])
    end.
Proof.
  unfold DatabaseManager.connect, bind, emit, assign, throw. cbv beta iota.
  destruct (construct w c); [reflexivity |].
  cbv beta iota. destruct (drizzle w c); reflexivity.
Qed.

(** One attempt at a driver, in closed form: the driver module, the ORM
    adapter, the client, the wrapper. *)
Lemma attempt_cases w a b c o h :
  (DatabaseManager.importFromProject w a ;;
   DatabaseManager.importFromProject w b ;;
   DatabaseManager.connect w c) o h
  = let root := DatabaseManager.projectRoot o in
    match require_import w root a with
    | Some e => (Throw (ImportFailed a root e), o, [EvImportFromProject root a])
    | None =>
        match require_import w root b with
        | Some e =>
            (Throw (ImportFailed b root e), o,
             [EvImportFromProject root a; EvImportFromProject root b])
        | None =>
            match construct w c, drizzle w c with
            | Some e, _ =>
                (Throw e, o,
                 [EvImportFromProject root a; EvImportFromProject root b; EvConstruct c])
            | None, Some e =>
                (Throw e, DatabaseManager.set_client (Some c) o,
                 [EvImportFromProject root a; EvImportFromProject root b;
                  EvConstruct c; EvDrizzle c])
            | None, None =>
                (Return tt,
                 DatabaseManager.set_db (Some (Drizzle c))
                   (DatabaseManager.set_client (Some c) o),
                 [EvImportFromProject root a; EvImportFromProject root b;
                  EvConstruct c; EvDrizzle c])
            end
        end
    end.
Proof.
  unfold bind. rewrite !importFromProject_cases, !connect_cases. cbv zeta.
  destruct (require_import w (DatabaseManager.projectRoot o) a); [reflexivity |].
  destruct (require_import w (DatabaseManager.projectRoot o) b); [reflexivity |].
  destruct (construct w c); [reflexivity |].
  destruct (drizzle w c); reflexivity.
Qed.

(** [initializeSQLite] past its credential test, without a client held. *)
Lemma initializeSQLite_attempt w c o h u :
  url (dbCredentials c) = Some u -> u <> "" ->
  DatabaseManager.client o = None ->
  DatabaseManager.initializeSQLite w c o h
  = try_catch
      (DatabaseManager.importFromProject w "better-sqlite3" ;;
       DatabaseManager.importFromProject w "drizzle-orm/better-sqlite3" ;;
       DatabaseManager.connect w (SqliteDatabase u))
      (fun _ => throw DriverUnavailableSqlite) o h.
Proof.
  intros U NE C. unfold DatabaseManager.initializeSQLite. rewrite U.
  cbn [absent or_default]. destruct (String.eqb_spec u ""); [contradiction |].
  unfold bind at 1. unfold this at 1. cbv beta iota. rewrite C, app_nil_r.
  destruct (try_catch _ _ o h) as [[r o2] ev2].
  reflexivity.
Qed.

(** [initializePostgreSQL] past its credential test, without a client
    held: postgres-js first, pg in the handler of its failure. *)
Lemma initializePostgreSQL_attempt w c o h :
  absent (url (dbCredentials c)) = false
  \/ absent (host (dbCredentials c)) || absent (user (dbCredentials c))
       || absent (database (dbCredentials c)) = false ->
  DatabaseManager.client o = None ->
  DatabaseManager.initializePostgreSQL w c o h
  = try_catch
      (DatabaseManager.importFromProject w "postgres" ;;
       DatabaseManager.importFromProject w "drizzle-orm/postgres-js" ;;
       DatabaseManager.connect w (PostgresJs (connection_string (dbCredentials c))))
      (fun _ =>
         try_catch
           (DatabaseManager.importFromProject w "pg" ;;
            DatabaseManager.importFromProject w "drizzle-orm/node-postgres" ;;
            DatabaseManager.connect w (PgPool (connection_string (dbCredentials c))))
           (fun pgError =>
              o' <- this ;;
              throw (DriverUnavailablePg (DatabaseManager.projectRoot o') pgError))) o h.
Proof.
  intros Creds C. unfold DatabaseManager.initializePostgreSQL, connection_string.
  unfold bind at 1.
  assert (E : (if absent (url (dbCredentials c))
               then if absent (host (dbCredentials c)) || absent (user (dbCredentials c))
                       || absent (database (dbCredentials c))
                    then throw (MissingCredential PostgreSQL)
                    else ret (DatabaseManager.synthesized (dbCredentials c))
               else ret (or_default (url (dbCredentials c)) "")) o h
              = (Return (if absent (url (dbCredentials c))
                         then DatabaseManager.synthesized (dbCredentials c)
                         else or_default (url (dbCredentials c)) ""), o, [])).
  { destruct (absent (url (dbCredentials c))); [| reflexivity].
    destruct Creds as [X | X]; [discriminate |]. rewrite X. reflexivity. }
  rewrite E. unfold bind at 1. unfold this at 1. cbv beta iota. rewrite C, !app_nil_r.
  destruct (try_catch _ _ o h) as [[r o2] ev2]. reflexivity.
Qed.

(** Destructs every oracle consulted in the goal or in [H]. *)
Ltac oracle_cases :=
  repeat match goal with
         | |- context [require_import ?w ?r ?n] => destruct (require_import w r n) eqn:?
         | |- context [construct ?w ?c] => destruct (construct w c) eqn:?
         | |- context [drizzle ?w ?c] => destruct (drizzle w c) eqn:?
         end.

Ltac oracle_cases_in H :=
  repeat match type of H with
         | context [require_import ?w ?r ?n] => destruct (require_import w r n) eqn:?
         | context [construct ?w ?c] => destruct (construct w c) eqn:?
         | context [drizzle ?w ?c] => destruct (drizzle w c) eqn:?
         end.

(** The outcome of [initializeSQLite] without a client held. *)
Lemma initializeSQLite_outcome w c o h u r o' ev :
  url (dbCredentials c) = Some u -> u <> "" ->
  DatabaseManager.client o = None ->
  DatabaseManager.initializeSQLite w c o h = (r, o', ev) ->
  (r = Return tt
   /\ o' = DatabaseManager.set_db (Some (Drizzle (SqliteDatabase u)))
             (DatabaseManager.set_client (Some (SqliteDatabase u)) o))
  \/ (r = Throw DriverUnavailableSqlite
      /\ (o' = o \/ o' = DatabaseManager.set_client (Some (SqliteDatabase u)) o)).
Proof.
  intros U NE C. rewrite (initializeSQLite_attempt w c o h u U NE C).
  unfold try_catch. rewrite attempt_cases. cbv zeta. unfold throw.
  intros H. oracle_cases_in H; inversion H; subst; auto.
Qed.

(** The outcome of [initializePostgreSQL] without a client held. *)
Lemma initializePostgreSQL_outcome w c o h r o' ev :
  absent (url (dbCredentials c)) = false
  \/ absent (host (dbCredentials c)) || absent (user (dbCredentials c))
       || absent (database (dbCredentials c)) = false ->
  DatabaseManager.client o = None ->
  DatabaseManager.initializePostgreSQL w c o h = (r, o', ev) ->
  let cs := connection_string (dbCredentials c) in
  (r = Return tt
   /\ exists cl, (cl = PostgresJs cs \/ cl = PgPool cs)
                 /\ o' = DatabaseManager.set_db (Some (Drizzle cl))
                           (DatabaseManager.set_client (Some cl) o))
  \/ ((exists pgError, r = Throw (DriverUnavailablePg (DatabaseManager.projectRoot o) pgError))
      /\ DatabaseManager.db o' = DatabaseManager.db o
      /\ DatabaseManager.config o' = DatabaseManager.config o
      /\ DatabaseManager.projectRoot o' = DatabaseManager.projectRoot o).
Proof.
  intros Creds C. rewrite (initializePostgreSQL_attempt w c o h Creds C).
  unfold try_catch. rewrite attempt_cases. cbv zeta.
  intros H.
  destruct (require_import w (DatabaseManager.projectRoot o) "postgres") eqn:R1;
    [| destruct (require_import w (DatabaseManager.projectRoot o) "drizzle-orm/postgres-js")
         eqn:R2;
       [| destruct (construct w (PostgresJs (connection_string (dbCredentials c)))) eqn:R3;
          [| destruct (drizzle w (PostgresJs (connection_string (dbCredentials c)))) eqn:R4]]];
    try (rewrite attempt_cases in H; cbv zeta in H;
         cbn [DatabaseManager.projectRoot DatabaseManager.set_client] in H;
         unfold bind, this, throw in H;
         oracle_cases_in H; inversion H; subst;
         solve [ left; split; [reflexivity |]; eexists; split; [right; reflexivity | reflexivity]
               | right; split; [eexists; reflexivity | repeat split] ]).
  inversion H; subst. left. split; [reflexivity |].
  eexists. split; [left; reflexivity | reflexivity].
Qed.

Lemma absent_false (s : option string) : absent s = false -> exists x, s = Some x /\ x <> "".
Proof.
  destruct s as [x |]; simpl; [| discriminate].
  destruct (String.eqb_spec x ""); [discriminate |]. intros _. eauto.
Qed.

(** The outcome of [initialize] on a manager without a client. *)
Lemma initialize_outcome w c o h r o' ev :
  DatabaseManager.client o = None ->
  DatabaseManager.initialize w c o h = (r, o', ev) ->
  let o1 := DatabaseManager.set_config (Some c) o in
  (r = Return tt
   /\ exists cl,
        o' = DatabaseManager.set_db (Some (Drizzle cl)) (DatabaseManager.set_client (Some cl) o1)
        /\ ((dialect c = "sqlite"
             /\ exists u, url (dbCredentials c) = Some u /\ u <> "" /\ cl = SqliteDatabase u)
            \/ (dialect c = "postgresql"
                /\ (cl = PostgresJs (connection_string (dbCredentials c))
                    \/ cl = PgPool (connection_string (dbCredentials c))))))
  \/ ((r = Throw (UnsupportedDialect (dialect c))
       \/ r = Throw (MissingCredential Sqlite)
       \/ r = Throw (MissingCredential PostgreSQL)
       \/ r = Throw DriverUnavailableSqlite
       \/ exists pgError,
            r = Throw (DriverUnavailablePg (DatabaseManager.projectRoot o) pgError))
      /\ DatabaseManager.db o' = DatabaseManager.db o
      /\ DatabaseManager.config o' = Some c).
Proof.
  intros C. rewrite initialize_unfold. cbv zeta.
  set (o1 := DatabaseManager.set_config (Some c) o).
  assert (C1 : DatabaseManager.client o1 = None) by exact C.
  destruct (String.eqb_spec (dialect c) "sqlite") as [Ds | Ns].
  - destruct (absent (url (dbCredentials c))) eqn:A.
    + rewrite (initializeSQLite_missing_url w c o1 h A). intros E. inversion E; subst.
      right. auto.
    + destruct (absent_false _ A) as (u & U & NE). intros E.
      destruct (initializeSQLite_outcome w c o1 h u r o' ev U NE C1 E)
        as [[-> ->] | [-> [-> | ->]]].
      * left. split; [reflexivity |]. exists (SqliteDatabase u). split; [reflexivity |].
        left. split; [exact Ds |]. eauto.
      * right. auto 10.
      * right. auto 10.
  - destruct (String.eqb_spec (dialect c) "postgresql") as [Dp | Np].
    + destruct (absent (url (dbCredentials c))) eqn:A;
        [destruct (absent (host (dbCredentials c)) || absent (user (dbCredentials c))
                   || absent (database (dbCredentials c))) eqn:B |].
      * rewrite (initializePostgreSQL_missing_credentials w c o1 h A B).
        intros E. inversion E; subst. right. auto 10.
      * intros E.
        destruct (initializePostgreSQL_outcome w c o1 h r o' ev (or_intror B) C1 E)
          as [[-> (cl & Cl & ->)] | [[pgError ->] (Db & Cf & _)]].
        -- left. split; [reflexivity |]. exists cl. split; [reflexivity |]. right. auto.
        -- right. split; [| split; assumption]. do 4 right. eexists. reflexivity.
      * intros E.
        destruct (initializePostgreSQL_outcome w c o1 h r o' ev (or_introl A) C1 E)
          as [[-> (cl & Cl & ->)] | [[pgError ->] (Db & Cf & _)]].
        -- left. split; [reflexivity |]. exists cl. split; [reflexivity |]. right. auto.
        -- right. split; [| split; assumption]. do 4 right. eexists. reflexivity.
    + unfold throw. intros E. inversion E; subst. right. auto.
Qed.

(** [initialize] on a manager without a client, when it returns: the
    manager holds a client of the configured dialect (for sqlite the
    database at [url], for postgresql a postgres-js client or a pg pool on
    the connection string), the ORM wrapper of that very client, and the
    configuration. *)
Theorem initialize_returns_with_a_handle w c o h o' ev :
  DatabaseManager.client o = None ->
  DatabaseManager.initialize w c o h = (Return tt, o', ev) ->
  exists cl,
    DatabaseManager.client o' = Some cl
    /\ DatabaseManager.db o' = Some (Drizzle cl)
    /\ DatabaseManager.config o' = Some c
    /\ ((dialect c = "sqlite"
         /\ exists u, url (dbCredentials c) = Some u /\ u <> "" /\ cl = SqliteDatabase u)
        \/ (dialect c = "postgresql"
            /\ (cl = PostgresJs (connection_string (dbCredentials c))
                \/ cl = PgPool (connection_string (dbCredentials c))))).
Proof.
  intros C E.
  destruct (initialize_outcome w c o h _ _ _ C E) as [[_ (cl & -> & D)] | [Bad _]].
  - exists cl. repeat split. exact D.
  - destruct Bad as [X | [X | [X | [X | [? X]]]]]; discriminate.
Qed.

Lemma initialize_returns_with_a_handle_witness :
  DatabaseManager.client (DatabaseManager.new "/proj") = None
  /\ exists cl,
       DatabaseManager.client open_manager = Some cl
       /\ DatabaseManager.db open_manager = Some (Drizzle cl)
       /\ DatabaseManager.config open_manager = Some sqlite_memory_config
       /\ ((dialect sqlite_memory_config = "sqlite"
            /\ exists u, url (dbCredentials sqlite_memory_config) = Some u /\ u <> ""
                         /\ cl = SqliteDatabase u)
           \/ (dialect sqlite_memory_config = "postgresql"
               /\ (cl = PostgresJs (connection_string (dbCredentials sqlite_memory_config))
                   \/ cl = PgPool (connection_string (dbCredentials sqlite_memory_config))))).
Proof.
  split; [reflexivity |].
  apply (initialize_returns_with_a_handle sqlite_project sqlite_memory_config
           (DatabaseManager.new "/proj") [] open_manager
           [EvImportFromProject "/proj" "better-sqlite3";
            EvImportFromProject "/proj" "drizzle-orm/better-sqlite3";
            EvConstruct (SqliteDatabase ":memory:");
            EvDrizzle (SqliteDatabase ":memory:")]).
  - reflexivity.
  - reflexivity.
Defined.

(** The errors of [initialize]: an unsupported dialect, a missing
    credential, or an unavailable driver, and no other; whatever a driver
    module, a client constructor or the ORM adapter throws is reported as
    the driver being unavailable. *)
Theorem initialize_error_taxonomy w c o h e o' ev :
  DatabaseManager.initialize w c o h = (Throw e, o', ev) ->
  e = UnsupportedDialect (dialect c)
  \/ e = MissingCredential Sqlite
  \/ e = MissingCredential PostgreSQL
  \/ e = DriverUnavailableSqlite
  \/ exists pgError, e = DriverUnavailablePg (DatabaseManager.projectRoot o) pgError.
Proof.
  intros E. destruct (DatabaseManager.client o) as [cl |] eqn:C.
  - destruct (initialize_with_client w c o h cl C) as [r E'].
    rewrite E' in E. inversion E; subst r. clear E.
    revert E'. rewrite initialize_unfold.
    destruct (dialect c =? "sqlite").
    + unfold DatabaseManager.initializeSQLite.
      destruct (absent (url (dbCredentials c))).
      * unfold throw. intros X. inversion X. auto.
      * unfold bind, this. cbv beta iota. cbn [DatabaseManager.client DatabaseManager.set_config].
        rewrite C. unfold ret. intros X. inversion X.
    + destruct (dialect c =? "postgresql").
      * unfold DatabaseManager.initializePostgreSQL, bind, this.
        destruct (absent (url (dbCredentials c)));
          [destruct (absent (host (dbCredentials c)) || absent (user (dbCredentials c))
                     || absent (database (dbCredentials c))) |];
          unfold throw, ret; cbv beta iota;
          cbn [DatabaseManager.client DatabaseManager.set_config];
          rewrite ?C; intros X; inversion X; auto.
      * unfold throw. intros X. inversion X. auto.
  - destruct (initialize_outcome w c o h _ _ _ C E) as [[X _] | [Bad _]]; [discriminate |].
    destruct Bad as [X | [X | [X | [X | [pgError X]]]]]; inversion X; eauto 10.
Qed.

Lemma initialize_error_taxonomy_witness :
  DatabaseManager.initialize mysql_project mysql_config (DatabaseManager.new "/proj") []
  = (Throw (UnsupportedDialect "mysql"),
     DatabaseManager.set_config (Some mysql_config) (DatabaseManager.new "/proj"), [])
  /\ (UnsupportedDialect "mysql" = UnsupportedDialect (dialect mysql_config)
      \/ UnsupportedDialect "mysql" = MissingCredential Sqlite
      \/ UnsupportedDialect "mysql" = MissingCredential PostgreSQL
      \/ UnsupportedDialect "mysql" = DriverUnavailableSqlite
      \/ exists pgError,
           UnsupportedDialect "mysql"
           = DriverUnavailablePg (DatabaseManager.projectRoot (DatabaseManager.new "/proj"))
               pgError).
Proof.
  split; [reflexivity |].
  apply (initialize_error_taxonomy mysql_project mysql_config (DatabaseManager.new "/proj") []
           (UnsupportedDialect "mysql")
           (DatabaseManager.set_config (Some mysql_config) (DatabaseManager.new "/proj")) []).
  reflexivity.
Defined.

Lemma initialize_handle_ok w c o h r o' ev :
  handle_ok o -> DatabaseManager.initialize w c o h = (r, o', ev) -> handle_ok o'.
Proof.
  intros Ok E. destruct (DatabaseManager.client o) as [cl |] eqn:C.
  - destruct (initialize_with_client w c o h cl C) as [r' E'].
    rewrite E' in E. inversion E; subst. exact Ok.
  - assert (D : DatabaseManager.db o = None).
    { unfold handle_ok in Ok. destruct (DatabaseManager.db o) as [[x] |]; [| reflexivity].
      congruence. }
    destruct (initialize_outcome w c o h _ _ _ C E) as [[_ (cl & -> & _)] | [_ [Db _]]].
    + reflexivity.
    + unfold handle_ok. rewrite Db, D. exact I.
Qed.

(** [close], however it ends: without a client it does nothing; with one
    it either throws before touching the manager or clears the client and
    the wrapper, having closed the client at most once. *)
Lemma close_cases o h r o' ev :
  DatabaseManager.close o h = (r, o', ev) ->
  (DatabaseManager.client o = None /\ r = Return tt /\ o' = o /\ ev = [])
  \/ (exists e, r = Throw e /\ o' = o /\ ev = [])
  \/ (r = Return tt
      /\ o' = DatabaseManager.set_db None (DatabaseManager.set_client None o)
      /\ (ev = [] \/ ev = [EvClose] \/ ev = [EvEnd])).
Proof.
  unfold DatabaseManager.close, bind, this. cbv beta iota.
  destruct (DatabaseManager.client o) as [c |].
  - unfold DatabaseManager.client_close, DatabaseManager.client_end,
      assign, emit, ret, throw.
    destruct (DatabaseManager.dialect_is o "sqlite");
      [| destruct (DatabaseManager.dialect_is o "postgresql")];
      destruct c; cbv beta iota; intros E; inversion E; subst; eauto 10.
  - unfold ret. intros E. inversion E; subst. auto.
Qed.

Lemma close_handle_ok o h r o' ev :
  handle_ok o -> DatabaseManager.close o h = (r, o', ev) -> handle_ok o'.
Proof.
  intros Ok E.
  destruct (close_cases _ _ _ _ _ E) as [(_ & _ & -> & _) | [(e & _ & -> & _) | (_ & -> & _)]];
    [exact Ok | exact Ok | exact I].
Qed.

(** The handle invariant: from a new manager on, through every
    [initialize] and every [close], however they end, an ORM wrapper held
    by the manager is the wrapper of the client it holds. *)
Theorem handle_stays_consistent w :
  (forall root, handle_ok (DatabaseManager.new root))
  /\ (forall c o h r o' ev,
        handle_ok o -> DatabaseManager.initialize w c o h = (r, o', ev) -> handle_ok o')
  /\ (forall o h r o' ev,
        handle_ok o -> DatabaseManager.close o h = (r, o', ev) -> handle_ok o').
Proof.
  split; [intros root; exact I |]. split.
  - intros c o h r o' ev. apply initialize_handle_ok.
  - intros o h r o' ev. apply close_handle_ok.
Qed.

Lemma handle_stays_consistent_witness :
  handle_ok (DatabaseManager.new "/proj")
  /\ handle_ok open_manager
  /\ handle_ok (DatabaseManager.mk None None (Some sqlite_memory_config) "/proj").
Proof.
  destruct (handle_stays_consistent sqlite_project) as (New & Init & Close).
  split; [apply New |]. split.
  - apply (Init sqlite_memory_config (DatabaseManager.new "/proj") [] (Return tt) open_manager
             [EvImportFromProject "/proj" "better-sqlite3";
              EvImportFromProject "/proj" "drizzle-orm/better-sqlite3";
              EvConstruct (SqliteDatabase ":memory:");
              EvDrizzle (SqliteDatabase ":memory:")]).
    + exact I.
    + reflexivity.
  - apply (Close open_manager [] (Return tt)
             (DatabaseManager.mk None None (Some sqlite_memory_config) "/proj") [EvClose]).
    + reflexivity.
    + reflexivity.
Defined.

Lemma close_without_client o h :
  DatabaseManager.client o = None -> DatabaseManager.close o h = (Return tt, o, []).
Proof.
  intros C. unfold DatabaseManager.close, bind, this. cbv beta iota. rewrite C. reflexivity.
Qed.

Lemma executeQuery_without_wrapper w q ps o h :
  DatabaseManager.db o = None ->
  DatabaseManager.executeQuery w q ps o h = (Throw NotInitialized, o, []).
Proof.
  intros D. unfold DatabaseManager.executeQuery, DatabaseManager.getDb, bind, this.
  cbv beta iota. rewrite D. reflexivity.
Qed.

(** Teardown: a [close] that returns leaves neither client nor wrapper,
    keeps the configuration, has closed the client at most once, and a
    further [close] returns at once with no effect; a query after it fails
    with [NotInitialized] without reaching any driver. *)
Theorem close_clears_and_is_idempotent w o h o' ev :
  handle_ok o ->
  DatabaseManager.close o h = (Return tt, o', ev) ->
  DatabaseManager.client o' = None
  /\ DatabaseManager.db o' = None
  /\ DatabaseManager.config o' = DatabaseManager.config o
  /\ (ev = [] \/ ev = [EvClose] \/ ev = [EvEnd])
  /\ (forall h', DatabaseManager.close o' h' = (Return tt, o', []))
  /\ (forall q ps h',
        DatabaseManager.executeQuery w q ps o' h' = (Throw NotInitialized, o', [])).
Proof.
  intros Ok E.
  assert (S : DatabaseManager.client o' = None /\ DatabaseManager.db o' = None
              /\ DatabaseManager.config o' = DatabaseManager.config o
              /\ (ev = [] \/ ev = [EvClose] \/ ev = [EvEnd])).
  { destruct (close_cases _ _ _ _ _ E) as [(C & _ & -> & ->) | [(e & X & _) | (_ & -> & Ev)]].
    - split; [exact C |]. split; [| auto].
      unfold handle_ok in Ok. destruct (DatabaseManager.db o) as [[x] |]; [congruence | reflexivity].
    - discriminate.
    - repeat split. exact Ev. }
  destruct S as (C & D & Cf & Ev). repeat split; auto.
  - intros h'. apply close_without_client. exact C.
  - intros q ps h'. apply executeQuery_without_wrapper. exact D.
Qed.

Lemma close_clears_and_is_idempotent_witness :
  handle_ok open_manager
  /\ DatabaseManager.close open_manager []
     = (Return tt, DatabaseManager.mk None None (Some sqlite_memory_config) "/proj", [EvClose])
  /\ (forall h',
        DatabaseManager.close
          (DatabaseManager.mk None None (Some sqlite_memory_config) "/proj") h'
        = (Return tt, DatabaseManager.mk None None (Some sqlite_memory_config) "/proj", []))
  /\ (forall q ps h',
        DatabaseManager.executeQuery sqlite_project q ps
          (DatabaseManager.mk None None (Some sqlite_memory_config) "/proj") h'
        = (Throw NotInitialized,
           DatabaseManager.mk None None (Some sqlite_memory_config) "/proj", [])).
Proof.
  split; [reflexivity |]. split; [reflexivity |].
  destruct (close_clears_and_is_idempotent sqlite_project open_manager []
              (DatabaseManager.mk None None (Some sqlite_memory_config) "/proj") [EvClose]
              eq_refl eq_refl) as (_ & _ & _ & _ & Again & Query).
  split; [exact Again | exact Query].
Defined.

Lemma prepare_spread_all_preserves w (P : DatabaseManager.t -> Prop) c q arguments rows :
  preserves P (DatabaseManager.prepare_spread_all w c q arguments rows).
Proof. unfold DatabaseManager.prepare_spread_all. repeat preserves_step. Qed.

Lemma prepare_all_preserves w (P : DatabaseManager.t -> Prop) c q ps rows :
  preserves P (DatabaseManager.prepare_all w c q ps rows).
Proof. apply prepare_spread_all_preserves. Qed.

Lemma pg_catalog_preserves w (P : DatabaseManager.t -> Prop) c q rows :
  preserves P (DatabaseManager.pg_catalog w c q rows).
Proof. unfold DatabaseManager.pg_catalog. repeat preserves_step. Qed.

Lemma executeQuery_preserves w (P : DatabaseManager.t -> Prop) q ps :
  preserves P (DatabaseManager.executeQuery w q ps).
Proof.
  unfold DatabaseManager.executeQuery, DatabaseManager.getDb, DatabaseManager.getClient.
  repeat first [apply prepare_spread_all_preserves | preserves_step].
Qed.

Lemma getTables_preserves w (P : DatabaseManager.t -> Prop) :
  preserves P (DatabaseManager.getTables w).
Proof.
  unfold DatabaseManager.getTables, DatabaseManager.getClient.
  repeat first [apply prepare_all_preserves | apply pg_catalog_preserves | preserves_step].
Qed.

Lemma getSchema_preserves w (P : DatabaseManager.t -> Prop) :
  preserves P (DatabaseManager.getSchema w).
Proof.
  unfold DatabaseManager.getSchema, DatabaseManager.getClient.
  repeat first [apply prepare_all_preserves | apply pg_catalog_preserves | preserves_step].
Qed.

(** A query never updates the manager: [executeQuery], [getTables] and
    [getSchema] leave it exactly as it was, however they end. *)
Theorem queries_leave_the_manager_unchanged w o h :
  (forall q ps r o' ev, DatabaseManager.executeQuery w q ps o h = (r, o', ev) -> o' = o)
  /\ (forall r o' ev, DatabaseManager.getTables w o h = (r, o', ev) -> o' = o)
  /\ (forall r o' ev, DatabaseManager.getSchema w o h = (r, o', ev) -> o' = o).
Proof.
  split; [| split].
  - intros q ps r o' ev E.
    exact (executeQuery_preserves w (fun x => x = o) q ps _ _ _ _ _ E eq_refl).
  - intros r o' ev E. exact (getTables_preserves w (fun x => x = o) _ _ _ _ _ E eq_refl).
  - intros r o' ev E. exact (getSchema_preserves w (fun x => x = o) _ _ _ _ _ E eq_refl).
Qed.

Lemma queries_leave_the_manager_unchanged_witness :
  DatabaseManager.getTables sqlite_project open_manager []
  = (Return (JArr []), open_manager,
     [EvPrepare sqlite_tables_query; EvAll sqlite_tables_query []])
  /\ open_manager = open_manager.
Proof.
  split; [reflexivity |].
  exact (proj1 (proj2 (queries_leave_the_manager_unchanged sqlite_project open_manager []))
           (Return (JArr [])) open_manager
           [EvPrepare sqlite_tables_query; EvAll sqlite_tables_query []] eq_refl).
Defined.

(** A database that cannot be opened is reported as a missing driver: when
    both sqlite modules resolve but [new Database(url)] throws, whatever it
    throws, [initialize] fails with [DriverUnavailableSqlite] ("better-sqlite3
    is required ... npm install better-sqlite3"), and no client is held. *)
Theorem sqlite_open_failure_is_reported_as_missing_driver w c o h u cause :
  dialect c = "sqlite" ->
  url (dbCredentials c) = Some u -> u <> "" ->
  DatabaseManager.client o = None ->
  require_import w (DatabaseManager.projectRoot o) "better-sqlite3" = None ->
  require_import w (DatabaseManager.projectRoot o) "drizzle-orm/better-sqlite3" = None ->
  construct w (SqliteDatabase u) = Some cause ->
  DatabaseManager.initialize w c o h
  = (Throw DriverUnavailableSqlite, DatabaseManager.set_config (Some c) o,
     [EvImportFromProject (DatabaseManager.projectRoot o) "better-sqlite3";
      EvImportFromProject (DatabaseManager.projectRoot o) "drizzle-orm/better-sqlite3";
      EvConstruct (SqliteDatabase u)]).
Proof.
  intros D U NE C R1 R2 K. rewrite initialize_unfold, D.
  cbn [String.eqb Ascii.eqb Bool.eqb].
  rewrite (initializeSQLite_attempt w c (DatabaseManager.set_config (Some c) o) h u U NE C).
  unfold try_catch. rewrite attempt_cases. cbv zeta.
  cbn [DatabaseManager.projectRoot DatabaseManager.set_config].
  rewrite R1, R2, K. reflexivity.
Qed.

Lemma sqlite_open_failure_is_reported_as_missing_driver_witness :
  DatabaseManager.initialize (unopenable_database sqlite_project) sqlite_memory_config
    (DatabaseManager.new "/proj") []
  = (Throw DriverUnavailableSqlite,
     DatabaseManager.set_config (Some sqlite_memory_config) (DatabaseManager.new "/proj"),
     [EvImportFromProject "/proj" "better-sqlite3";
      EvImportFromProject "/proj" "drizzle-orm/better-sqlite3";
      EvConstruct (SqliteDatabase ":memory:")])
  /\ message DriverUnavailableSqlite
     = "better-sqlite3 is required for SQLite databases. Install it with: npm install better-sqlite3".
Proof.
  split; [| reflexivity].
  apply (sqlite_open_failure_is_reported_as_missing_driver
           (unopenable_database sqlite_project) sqlite_memory_config
           (DatabaseManager.new "/proj") [] ":memory:"
           (ExternalError "unable to open database file"));
    first [reflexivity | discriminate].
Defined.

(** Driver selection for postgresql, without a client held and with
    credentials present.  When postgres-js and its adapter resolve and its
    client builds, the manager holds a postgres-js client on the connection
    string and [pg] is never looked for.  When the [postgres] module does
    not resolve but [pg] and its adapter do, the manager holds a pg pool on
    the same connection string. *)
Theorem postgres_js_first_then_pg w c o h :
  dialect c = "postgresql" ->
  absent (url (dbCredentials c)) = false
  \/ absent (host (dbCredentials c)) || absent (user (dbCredentials c))
       || absent (database (dbCredentials c)) = false ->
  DatabaseManager.client o = None ->
  let root := DatabaseManager.projectRoot o in
  let cs := connection_string (dbCredentials c) in
  let o1 := DatabaseManager.set_config (Some c) o in
  (require_import w root "postgres" = None ->
   require_import w root "drizzle-orm/postgres-js" = None ->
   construct w (PostgresJs cs) = None -> drizzle w (PostgresJs cs) = None ->
   DatabaseManager.initialize w c o h
   = (Return tt,
      DatabaseManager.set_db (Some (Drizzle (PostgresJs cs)))
        (DatabaseManager.set_client (Some (PostgresJs cs)) o1),
      [EvImportFromProject root "postgres";
       EvImportFromProject root "drizzle-orm/postgres-js";
       EvConstruct (PostgresJs cs); EvDrizzle (PostgresJs cs)]))
  /\ (forall e,
        require_import w root "postgres" = Some e ->
        require_import w root "pg" = None ->
        require_import w root "drizzle-orm/node-postgres" = None ->
        construct w (PgPool cs) = None -> drizzle w (PgPool cs) = None ->
        DatabaseManager.initialize w c o h
        = (Return tt,
           DatabaseManager.set_db (Some (Drizzle (PgPool cs)))
             (DatabaseManager.set_client (Some (PgPool cs)) o1),
           [EvImportFromProject root "postgres";
            EvImportFromProject root "pg";
            EvImportFromProject root "drizzle-orm/node-postgres";
            EvConstruct (PgPool cs); EvDrizzle (PgPool cs)])).
Proof.
  intros D Creds C. cbv zeta. rewrite initialize_unfold, D.
  cbn [String.eqb Ascii.eqb Bool.eqb].
  rewrite (initializePostgreSQL_attempt w c (DatabaseManager.set_config (Some c) o) h Creds C).
  unfold try_catch. rewrite !attempt_cases. cbv zeta.
  cbn [DatabaseManager.projectRoot DatabaseManager.set_config].
  split.
  - intros R1 R2 K1 K2. rewrite R1, R2, K1, K2. reflexivity.
  - intros e R1 R2 R3 K1 K2. rewrite R1. rewrite attempt_cases. cbv zeta.
    cbn [DatabaseManager.projectRoot DatabaseManager.set_config].
    rewrite R2, R3, K1, K2. reflexivity.
Qed.

(** Neither driver installed: [initialize] fails with
    [DriverUnavailablePg], whose message names both packages, the project
    root and the error of the [pg] import (the error of the [postgres]
    import is dropped); both modules have been looked for, in this order,
    and no client is held. *)
Theorem no_postgresql_driver_names_both w c o h e1 e2 :
  dialect c = "postgresql" ->
  absent (url (dbCredentials c)) = false
  \/ absent (host (dbCredentials c)) || absent (user (dbCredentials c))
       || absent (database (dbCredentials c)) = false ->
  DatabaseManager.client o = None ->
  require_import w (DatabaseManager.projectRoot o) "postgres" = Some e1 ->
  require_import w (DatabaseManager.projectRoot o) "pg" = Some e2 ->
  let root := DatabaseManager.projectRoot o in
  let error := DriverUnavailablePg root (ImportFailed "pg" root e2) in
  DatabaseManager.initialize w c o h
  = (Throw error, DatabaseManager.set_config (Some c) o,
     [EvImportFromProject root "postgres"; EvImportFromProject root "pg"])
  /\ message error
     = "Either 'postgres' or 'pg' is required for PostgreSQL databases. Install one with: npm install postgres OR npm install pg. Project root: "
         ++ root ++ ". PG Error: Failed to import pg from project root " ++ root ++ ": "
         ++ message e2.
Proof.
  intros D Creds C R1 R2. cbv zeta. split; [| reflexivity].
  rewrite initialize_unfold, D. cbn [String.eqb Ascii.eqb Bool.eqb].
  rewrite (initializePostgreSQL_attempt w c (DatabaseManager.set_config (Some c) o) h Creds C).
  unfold try_catch. rewrite !attempt_cases. cbv zeta.
  cbn [DatabaseManager.projectRoot DatabaseManager.set_config].
  rewrite R1. rewrite attempt_cases. cbv zeta.
  cbn [DatabaseManager.projectRoot DatabaseManager.set_config]. rewrite R2. reflexivity.
Qed.

Lemma postgres_js_first_then_pg_witness :
  DatabaseManager.initialize pg_project pg_url_config (DatabaseManager.new "/proj") []
  = (Return tt, DrizzleMCPServer.databaseManager pg_server,
     [EvImportFromProject "/proj" "postgres";
      EvImportFromProject "/proj" "drizzle-orm/postgres-js";
      EvConstruct (PostgresJs "postgresql://app@localhost/app");
      EvDrizzle (PostgresJs "postgresql://app@localhost/app")])
  /\ DatabaseManager.initialize (without_modules ["postgres"] pg_project) pg_url_config
       (DatabaseManager.new "/proj") []
     = (Return tt, pg_pool_manager,
        [EvImportFromProject "/proj" "postgres";
         EvImportFromProject "/proj" "pg";
         EvImportFromProject "/proj" "drizzle-orm/node-postgres";
         EvConstruct (PgPool "postgresql://app@localhost/app");
         EvDrizzle (PgPool "postgresql://app@localhost/app")]).
Proof.
  split.
  - apply (proj1 (postgres_js_first_then_pg pg_project pg_url_config
                    (DatabaseManager.new "/proj") [] eq_refl (or_introl eq_refl) eq_refl));
      reflexivity.
  - apply (proj2 (postgres_js_first_then_pg (without_modules ["postgres"] pg_project)
                    pg_url_config (DatabaseManager.new "/proj") []
                    eq_refl (or_introl eq_refl) eq_refl)
             (ExternalError "Cannot find module 'postgres'"));
      reflexivity.
Defined.

Lemma no_postgresql_driver_names_both_witness :
  DatabaseManager.initialize (without_modules ["postgres"; "pg"] pg_project) pg_url_config
    (DatabaseManager.new "/proj") []
  = (Throw (DriverUnavailablePg "/proj"
              (ImportFailed "pg" "/proj" (ExternalError "Cannot find module 'pg'"))),
     DatabaseManager.set_config (Some pg_url_config) (DatabaseManager.new "/proj"),
     [EvImportFromProject "/proj" "postgres"; EvImportFromProject "/proj" "pg"])
  /\ message (DriverUnavailablePg "/proj"
                (ImportFailed "pg" "/proj" (ExternalError "Cannot find module 'pg'")))
     = "Either 'postgres' or 'pg' is required for PostgreSQL databases. Install one with: npm install postgres OR npm install pg. Project root: /proj. PG Error: Failed to import pg from project root /proj: Cannot find module 'pg'".
Proof.
  apply (no_postgresql_driver_names_both (without_modules ["postgres"; "pg"] pg_project)
           pg_url_config (DatabaseManager.new "/proj") []
           (ExternalError "Cannot find module 'postgres'")
           (ExternalError "Cannot find module 'pg'"));
    first [reflexivity | left; reflexivity].
Defined.

(** Without a client no operation reaches a driver: [executeQuery] fails
    with [NotInitialized] when no wrapper is held, [getTables] and
    [getSchema] fail with [NotInitialized] under a supported dialect and
    with "not implemented for dialect" otherwise (under no configuration at
    all the dialect reads [undefined]); the manager is unchanged and no
    effect is performed. *)
Theorem without_a_client_nothing_is_queried w o h :
  DatabaseManager.client o = None ->
  let supported :=
    DatabaseManager.dialect_is o "sqlite" || DatabaseManager.dialect_is o "postgresql" in
  (DatabaseManager.db o = None ->
   forall q ps, DatabaseManager.executeQuery w q ps o h = (Throw NotInitialized, o, []))
  /\ DatabaseManager.getTables w o h
     = (Throw (if supported then NotInitialized
               else NotImplementedForDialect "getTables" (DatabaseManager.config_dialect o)),
        o, [])
  /\ DatabaseManager.getSchema w o h
     = (Throw (if supported then NotInitialized
               else NotImplementedForDialect "getSchema" (DatabaseManager.config_dialect o)),
        o, []).
Proof.
  intros C. cbv zeta. split; [| split].
  - intros D q ps. apply executeQuery_without_wrapper. exact D.
  - unfold DatabaseManager.getTables, DatabaseManager.getClient, bind, this.
    cbv beta iota.
    destruct (DatabaseManager.dialect_is o "sqlite");
      [| destruct (DatabaseManager.dialect_is o "postgresql")];
      cbn [orb]; rewrite ?C; reflexivity.
  - unfold DatabaseManager.getSchema, DatabaseManager.getClient, bind, this.
    cbv beta iota.
    destruct (DatabaseManager.dialect_is o "sqlite");
      [| destruct (DatabaseManager.dialect_is o "postgresql")];
      cbn [orb]; rewrite ?C; reflexivity.
Qed.

Lemma without_a_client_nothing_is_queried_witness :
  DatabaseManager.client (DatabaseManager.new "/proj") = None
  /\ (forall q ps,
        DatabaseManager.executeQuery sqlite_project q ps (DatabaseManager.new "/proj") []
        = (Throw NotInitialized, DatabaseManager.new "/proj", []))
  /\ DatabaseManager.getTables sqlite_project (DatabaseManager.new "/proj") []
     = (Throw (NotImplementedForDialect "getTables" JUndefined),
        DatabaseManager.new "/proj", [])
  /\ message (NotImplementedForDialect "getTables" JUndefined)
     = "getTables not implemented for dialect: undefined".
Proof.
  split; [reflexivity |].
  destruct (without_a_client_nothing_is_queried sqlite_project (DatabaseManager.new "/proj") []
              eq_refl) as (Q & T & _).
  split; [exact (Q eq_refl) |]. split; [exact T | reflexivity].
Defined.

(** Switching dialect over a live handle: on a manager holding a sqlite
    client, [initialize] with a postgresql configuration returns normally,
    keeps the sqlite client and stores the new configuration; from then on
    [executeQuery], [getTables] and [getSchema] fail with "Unknown
    PostgreSQL client type", and [close] throws before clearing the handle,
    so the sqlite client is never closed. *)
Theorem dialect_switch_strands_the_handle w c o h u :
  DatabaseManager.client o = Some (SqliteDatabase u) ->
  DatabaseManager.db o = Some (Drizzle (SqliteDatabase u)) ->
  dialect c = "postgresql" ->
  absent (url (dbCredentials c)) = false
  \/ absent (host (dbCredentials c)) || absent (user (dbCredentials c))
       || absent (database (dbCredentials c)) = false ->
  let o1 := DatabaseManager.set_config (Some c) o in
  DatabaseManager.initialize w c o h = (Return tt, o1, [])
  /\ (forall q ps h',
        DatabaseManager.executeQuery w q ps o1 h' = (Throw UnknownClientType, o1, []))
  /\ (forall h', DatabaseManager.getTables w o1 h' = (Throw UnknownClientType, o1, []))
  /\ (forall h', DatabaseManager.getSchema w o1 h' = (Throw UnknownClientType, o1, []))
  /\ (forall h',
        DatabaseManager.close o1 h'
        = (Throw (TypeError "this.client.end is not a function"), o1, [])).
Proof.
  intros C D Dp Creds. cbv zeta.
  assert (Sq : forall o', DatabaseManager.config o' = Some c ->
                          DatabaseManager.dialect_is o' "sqlite" = false).
  { intros o' E. unfold DatabaseManager.dialect_is. rewrite E, Dp. reflexivity. }
  assert (Pg : forall o', DatabaseManager.config o' = Some c ->
                          DatabaseManager.dialect_is o' "postgresql" = true).
  { intros o' E. unfold DatabaseManager.dialect_is. rewrite E, Dp. reflexivity. }
  set (o1 := DatabaseManager.set_config (Some c) o).
  assert (C1 : DatabaseManager.client o1 = Some (SqliteDatabase u)) by exact C.
  assert (D1 : DatabaseManager.db o1 = Some (Drizzle (SqliteDatabase u))) by exact D.
  assert (F1 : DatabaseManager.config o1 = Some c) by reflexivity.
  split; [| split; [| split; [| split]]].
  - rewrite initialize_unfold, Dp. cbn [String.eqb Ascii.eqb Bool.eqb]. fold o1.
    unfold DatabaseManager.initializePostgreSQL, bind, this.
    destruct (absent (url (dbCredentials c))) eqn:A;
      [destruct Creds as [X | X]; [discriminate | rewrite X] |];
      unfold ret; cbv beta iota; rewrite C1; reflexivity.
  - intros q ps h'.
    unfold DatabaseManager.executeQuery, DatabaseManager.getDb, DatabaseManager.getClient,
      bind, this.
    cbv beta iota. rewrite D1. unfold ret. cbv beta iota.
    rewrite (Sq o1 F1), (Pg o1 F1), C1. reflexivity.
  - intros h'. unfold DatabaseManager.getTables, DatabaseManager.getClient, bind, this.
    cbv beta iota. rewrite (Sq o1 F1), (Pg o1 F1), C1. reflexivity.
  - intros h'. unfold DatabaseManager.getSchema, DatabaseManager.getClient, bind, this.
    cbv beta iota. rewrite (Sq o1 F1), (Pg o1 F1), C1. reflexivity.
  - intros h'. unfold DatabaseManager.close, bind, this.
    cbv beta iota. rewrite C1, (Sq o1 F1), (Pg o1 F1). reflexivity.
Qed.

Lemma dialect_switch_strands_the_handle_witness :
  DatabaseManager.initialize pg_project pg_url_config open_manager []
  = (Return tt, DatabaseManager.set_config (Some pg_url_config) open_manager, [])
  /\ (forall h',
        DatabaseManager.close (DatabaseManager.set_config (Some pg_url_config) open_manager) h'
        = (Throw (TypeError "this.client.end is not a function"),
           DatabaseManager.set_config (Some pg_url_config) open_manager, [])).
Proof.
  destruct (dialect_switch_strands_the_handle pg_project pg_url_config open_manager []
              ":memory:" eq_refl eq_refl eq_refl (or_introl eq_refl))
    as (Init & _ & _ & _ & Close).
  split; [exact Init | exact Close].
Defined.

(* ================================================================== *)
(** ** The effects of each component *)
(* ================================================================== *)

Lemma ConfigLoader_loadConfig_emits w p : emits is_setup (ConfigLoader.loadConfig w p).
Proof.
  unfold ConfigLoader.loadConfig, ConfigLoader.load, ConfigLoader.resolveConfigPath,
    ConfigLoader.resolve_arg.
  repeat emits_step.
Qed.

Lemma importFromProject_emits w name : emits is_setup (DatabaseManager.importFromProject w name).
Proof. unfold DatabaseManager.importFromProject. repeat emits_step. Qed.

Lemma connect_emits w c : emits is_setup (DatabaseManager.connect w c).
Proof. unfold DatabaseManager.connect. repeat emits_step. Qed.

Lemma initialize_emits w c : emits is_setup (DatabaseManager.initialize w c).
Proof.
  unfold DatabaseManager.initialize, DatabaseManager.initializeSQLite,
    DatabaseManager.initializePostgreSQL.
  repeat first [apply importFromProject_emits | apply connect_emits | emits_step].
Qed.

Lemma Server_loadConfig_emits w p : emits is_setup (DrizzleMCPServer.loadConfig w p).
Proof.
  unfold DrizzleMCPServer.loadConfig, DrizzleMCPServer.on_configLoader,
    DrizzleMCPServer.on_databaseManager.
  repeat first [apply ConfigLoader_loadConfig_emits | apply initialize_emits | emits_step].
Qed.

Lemma prepare_spread_all_emits w c q arguments rows :
  emits is_query (DatabaseManager.prepare_spread_all w c q arguments rows).
Proof. unfold DatabaseManager.prepare_spread_all. repeat emits_step. Qed.

Lemma prepare_all_emits w c q ps rows :
  emits is_query (DatabaseManager.prepare_all w c q ps rows).
Proof. apply prepare_spread_all_emits. Qed.

Lemma pg_catalog_emits w c q rows : emits is_query (DatabaseManager.pg_catalog w c q rows).
Proof. unfold DatabaseManager.pg_catalog. repeat emits_step. Qed.

Lemma executeQuery_emits w q ps : emits is_query (DatabaseManager.executeQuery w q ps).
Proof.
  unfold DatabaseManager.executeQuery, DatabaseManager.getDb, DatabaseManager.getClient.
  repeat first [apply prepare_spread_all_emits | emits_step].
Qed.

Lemma getTables_emits w : emits is_query (DatabaseManager.getTables w).
Proof.
  unfold DatabaseManager.getTables, DatabaseManager.getClient.
  repeat first [apply prepare_all_emits | apply pg_catalog_emits | emits_step].
Qed.

Lemma getSchema_emits w : emits is_query (DatabaseManager.getSchema w).
Proof.
  unfold DatabaseManager.getSchema, DatabaseManager.getClient.
  repeat first [apply prepare_all_emits | apply pg_catalog_emits | emits_step].
Qed.

Lemma setup_is_not_exec e : is_setup e -> ~ is_exec e.
Proof. destruct e; simpl; tauto. Qed.

Lemma query_is_not_exec e : is_query e -> ~ is_exec e.
Proof. destruct e; simpl; tauto. Qed.

Lemma handleExecuteQuery_emits w args :
  emits (fun e => ~ is_exec e) (DrizzleMCPServer.handleExecuteQuery w args).
Proof.
  unfold DrizzleMCPServer.handleExecuteQuery, DrizzleMCPServer.destructure,
    DrizzleMCPServer.on_databaseManager.
  repeat first
    [ eapply emits_weaken; [apply setup_is_not_exec | apply Server_loadConfig_emits]
    | eapply emits_weaken; [apply query_is_not_exec | apply executeQuery_emits]
    | emits_step ].
Qed.

Lemma handleInitializeDatabase_emits w args :
  emits (fun e => ~ is_exec e) (DrizzleMCPServer.handleInitializeDatabase w args).
Proof.
  unfold DrizzleMCPServer.handleInitializeDatabase, DrizzleMCPServer.destructure.
  repeat first
    [ eapply emits_weaken; [apply setup_is_not_exec | apply Server_loadConfig_emits]
    | emits_step ].
Qed.

Lemma fetch_emits w uri : emits is_query (DrizzleMCPServer.fetch w uri).
Proof.
  unfold DrizzleMCPServer.fetch, DrizzleMCPServer.on_databaseManager.
  repeat first [apply getTables_emits | apply getSchema_emits | emits_step].
Qed.

Lemma readResource_emits w uri :
  emits (fun e => ~ is_exec e) (DrizzleMCPServer.readResource w uri).
Proof.
  unfold DrizzleMCPServer.readResource.
  repeat first
    [ eapply emits_weaken; [apply setup_is_not_exec | apply Server_loadConfig_emits]
    | eapply emits_weaken; [apply query_is_not_exec | apply fetch_emits]
    | emits_step ].
Qed.

(* ================================================================== *)
(** ** The dispatcher: validation, results, subprocesses *)
(* ================================================================== *)

Lemma test_class_plus_true n :
  well_formed_name n -> test_class_plus migration_name_class n = true.
Proof.
  intros [NE All]. unfold test_class_plus. destruct n as [| c t]; [contradiction |].
  apply forallb_forall. intros x I. apply class_mem_alphabet, All, I.
Qed.

Lemma test_class_plus_well_formed n :
  test_class_plus migration_name_class n = true -> well_formed_name n.
Proof.
  unfold test_class_plus. destruct n as [| c t]; [discriminate |].
  intros F. split; [discriminate |].
  intros x I. apply class_mem_alphabet. rewrite forallb_forall in F. apply F, I.
Qed.

(** The validator lets through exactly the non-empty strings over
    [a-zA-Z0-9_-]: such a name is accepted with no effect, and whatever is
    accepted is such a name. *)
Theorem validateMigrationName_accepts_exactly_the_alphabet v s h :
  (exists s' ev, DrizzleMCPServer.validateMigrationName v s h = (Return tt, s', ev))
  <-> (exists n, v = JStr n /\ well_formed_name n).
Proof.
  unfold DrizzleMCPServer.validateMigrationName. split.
  - intros (s' & ev & E).
    destruct v; try discriminate. rename s0 into n.
    destruct (n =? "") eqn:Em; [discriminate |].
    destruct (test_class_plus migration_name_class n) eqn:T; [| discriminate].
    exists n. split; [reflexivity |]. apply test_class_plus_well_formed, T.
  - intros (n & -> & W). exists s, [].
    rewrite (test_class_plus_true n W).
    destruct W as [NE _]. destruct (String.eqb_spec n ""); [contradiction | reflexivity].
Qed.

Lemma validateMigrationName_accepts_exactly_the_alphabet_witness :
  (exists n, JStr "add_users-2" = JStr n /\ well_formed_name n)
  /\ exists s' ev,
       DrizzleMCPServer.validateMigrationName (JStr "add_users-2") new_server []
       = (Return tt, s', ev).
Proof.
  assert (W : exists n, JStr "add_users-2" = JStr n /\ well_formed_name n).
  { exists "add_users-2". split; [reflexivity |]. split; [discriminate |].
    intros c I. simpl in I.
    repeat (destruct I as [<- | I]; [vm_compute; lia |]). contradiction. }
  split; [exact W |].
  exact (proj2 (validateMigrationName_accepts_exactly_the_alphabet
                  (JStr "add_users-2") new_server []) W).
Defined.

(** [execute_query] checks its query first: when the [query] argument is
    missing, empty or not a string, the handler throws the validation
    error with no effect, leaving the server unchanged; in particular no
    configuration is loaded for it. *)
Theorem execute_query_requires_a_query w s h props :
  (forall q, prop "query" (JObj props) = JStr q -> q = "") ->
  DrizzleMCPServer.handleExecuteQuery w (JObj props) s h
  = (Throw (ValidationError "Query is required and must be a string"), s, [])
  /\ DrizzleMCPServer.callTool w "execute_query" (JObj props) s h
     = (Return (mkCallToolResult
                  [mkTextContent "text" "Error: Query is required and must be a string"]
                  (Some true)), s, []).
Proof.
  intros Bad.
  assert (H : DrizzleMCPServer.handleExecuteQuery w (JObj props) s h
              = (Throw (ValidationError "Query is required and must be a string"), s, [])).
  { unfold DrizzleMCPServer.handleExecuteQuery, DrizzleMCPServer.destructure.
    unfold bind at 1. unfold ret at 1. cbv beta iota.
    destruct (prop "query" (JObj props)) as [| | | | q | |] eqn:Q; try reflexivity.
    rewrite (Bad q eq_refl). reflexivity. }
  split; [exact H |].
  rewrite callTool_of_dispatch. unfold DrizzleMCPServer.dispatch.
  cbn [String.eqb Ascii.eqb Bool.eqb]. rewrite H. reflexivity.
Qed.

Lemma execute_query_requires_a_query_witness :
  (forall q, prop "query" (JObj [("params", JArr [])]) = JStr q -> q = "")
  /\ DrizzleMCPServer.callTool empty_project "execute_query" (JObj [("params", JArr [])])
       new_server []
     = (Return (mkCallToolResult
                  [mkTextContent "text" "Error: Query is required and must be a string"]
                  (Some true)), new_server, []).
Proof.
  assert (B : forall q, prop "query" (JObj [("params", JArr [])]) = JStr q -> q = "").
  { intros q E. discriminate E. }
  split; [exact B |].
  exact (proj2 (execute_query_requires_a_query empty_project new_server []
                  [("params", JArr [])] B)).
Defined.

(** Splits a goal [returns Q m] along the structure of [m]. *)
Ltac returns_step :=
  match goal with
  | |- returns _ (bind _ _) => apply returns_bind; intros ?
  | |- returns _ (try_catch _ _) => apply returns_try_catch; [| intros ?]
  | |- returns _ (throw _) => apply returns_throw
  | |- returns _ (ret (text_result _)) =>
      apply returns_ret; split; [reflexivity | eexists; reflexivity]
  | |- returns _ (match ?x with _ => _ end) => destruct x
  end.

Lemma dispatch_returns_plain_text w name args :
  returns plain_text (DrizzleMCPServer.dispatch w name args).
Proof.
  unfold DrizzleMCPServer.dispatch, DrizzleMCPServer.handleGenerateMigration,
    DrizzleMCPServer.handleRunMigrations, DrizzleMCPServer.handleIntrospectSchema,
    DrizzleMCPServer.handleExecuteQuery, DrizzleMCPServer.handleInitializeDatabase.
  repeat returns_step.
Qed.

(** The error flag tells the truth: the result of a tool call is always
    one text item; it carries no [isError] when it is what the handler
    returned, and [isError: true] with the text ["Error: " + message]
    exactly when the handler threw. *)
Theorem isError_exactly_when_the_handler_threw w name args s h res s' ev :
  DrizzleMCPServer.callTool w name args s h = (Return res, s', ev) ->
  exists t,
    content res = [mkTextContent "text" t]
    /\ ((isError res = None
         /\ DrizzleMCPServer.dispatch w name args s h = (Return res, s', ev))
        \/ (isError res = Some true
            /\ exists e, DrizzleMCPServer.dispatch w name args s h = (Throw e, s', ev)
                         /\ t = "Error: " ++ message e)).
Proof.
  rewrite callTool_of_dispatch.
  destruct (DrizzleMCPServer.dispatch w name args s h) as [[[r | e] s1] ev1] eqn:D;
    intros E; inversion E; subst.
  - destruct (dispatch_returns_plain_text w name args _ _ _ _ _ D) as [N [t T]].
    exists t. split; [exact T |]. left. split; [exact N | reflexivity].
  - eexists. split; [reflexivity |]. right. split; [reflexivity |].
    exists e. split; reflexivity.
Qed.

Lemma isError_exactly_when_the_handler_threw_witness :
  DrizzleMCPServer.callTool sqlite_project "initialize_database" (JObj []) new_server []
  = (Return (text_result "Database initialized successfully with config: auto-detected"),
     ready_server,
     [EvImportConfig "file:///proj/drizzle.config.ts";
      EvImportFromProject "/proj" "better-sqlite3";
      EvImportFromProject "/proj" "drizzle-orm/better-sqlite3";
      EvConstruct (SqliteDatabase ":memory:");
      EvDrizzle (SqliteDatabase ":memory:")])
  /\ exists t,
       content (text_result "Database initialized successfully with config: auto-detected")
       = [mkTextContent "text" t].
Proof.
  split; [reflexivity |].
  destruct (isError_exactly_when_the_handler_threw sqlite_project "initialize_database"
              (JObj []) new_server []
              (text_result "Database initialized successfully with config: auto-detected")
              ready_server
              [EvImportConfig "file:///proj/drizzle.config.ts";
               EvImportFromProject "/proj" "better-sqlite3";
               EvImportFromProject "/proj" "drizzle-orm/better-sqlite3";
               EvConstruct (SqliteDatabase ":memory:");
               EvDrizzle (SqliteDatabase ":memory:")] eq_refl) as (t & T & _).
  exists t. exact T.
Defined.

(** Only the migration tools run a subprocess: a call of any other tool
    name, and any resource read, performs no [exec], however it ends. *)
Theorem only_migration_tools_spawn w s h :
  (forall name args r s' ev,
     ~ In name migration_tools ->
     DrizzleMCPServer.callTool w name args s h = (r, s', ev) ->
     Forall (fun e => ~ is_exec e) ev)
  /\ (forall uri r s' ev,
        DrizzleMCPServer.readResource w uri s h = (r, s', ev) ->
        Forall (fun e => ~ is_exec e) ev).
Proof.
  split.
  - intros name args r s' ev N E.
    assert (Em : emits (fun e => ~ is_exec e) (DrizzleMCPServer.callTool w name args)).
    { unfold DrizzleMCPServer.callTool, DrizzleMCPServer.dispatch.
      apply emits_try_catch; [| intros e; apply emits_ret].
      repeat match goal with
             | |- context [name =? ?k] =>
                 destruct (String.eqb_spec name k);
                 [try (exfalso; apply N; subst; simpl; tauto) |]
             end.
      - apply handleExecuteQuery_emits.
      - apply handleInitializeDatabase_emits.
      - apply emits_throw. }
    eapply Em; eassumption.
  - intros uri r s' ev E. eapply readResource_emits; eassumption.
Qed.

Lemma only_migration_tools_spawn_witness :
  ~ In "execute_query" migration_tools
  /\ Forall (fun e => ~ is_exec e) [EvPrepare "SELECT 1"; EvAll "SELECT 1" []].
Proof.
  assert (N : ~ In "execute_query" migration_tools).
  { simpl. intros [H | [H | [H | []]]]; discriminate. }
  split; [exact N |].
  apply (proj1 (only_migration_tools_spawn sqlite_project ready_server [])
           "execute_query" (JObj [("query", JStr "SELECT 1")])
           (Return (text_result
                      ("Query executed successfully:" ++ nl ++ nl ++ "Result:" ++ nl
                         ++ JSON_stringify (JArr []))))
           ready_server [EvPrepare "SELECT 1"; EvAll "SELECT 1" []] N).
  reflexivity.
Defined.

(** A migration operation runs drizzle-kit at most once, as its last
    effect and only once the configuration is loaded and the database
    initialised: either it throws having performed set-up effects only, or
    its effects are set-up effects followed by exactly one [exec] of
    [npx drizzle-kit <command> --config=...], run in the directory of the
    path the loader holds. *)
Theorem migration_runs_drizzle_kit_once_and_last w command config s h r s' ev :
  DrizzleMCPServer.executeDrizzleKitCommand w command config s h = (r, s', ev) ->
  ((exists e, r = Throw e) /\ Forall is_setup ev)
  \/ exists setup path rest,
       ev = (setup ++ [EvExec ("npx drizzle-kit " ++ command ++ " --config=" ++ rest)
                         (dirname path)])%list
       /\ Forall is_setup setup
       /\ ConfigLoader.configPath (DrizzleMCPServer.configLoader s') = Some path.
Proof.
  intros E.
  destruct (DrizzleMCPServer.loadConfig w config s h) as [[[u | e] s1] ev1] eqn:L.
  - pose proof (Server_loadConfig_emits w config _ _ _ _ _ L) as Setup.
    destruct (ConfigLoader.configPath (DrizzleMCPServer.configLoader s1)) as [path |] eqn:P.
    + destruct (String.eqb_spec path "") as [-> | NE].
      * left. revert E. unfold DrizzleMCPServer.executeDrizzleKitCommand.
        rewrite (bind_Return _ _ _ _ _ _ _ L).
        unfold DrizzleMCPServer.on_configLoader, on, ConfigLoader.getConfigDirectory,
          bind, this, throw.
        cbv beta iota. rewrite P. cbn [String.eqb]. cbv beta iota.
        intros E. inversion E; subst. rewrite app_nil_r.
        split; [eexists; reflexivity | exact Setup].
      * right. destruct u.
        destruct (executeDrizzleKitCommand_spawns w command config s h s1 ev1 path L P NE)
          as [r' E'].
        rewrite E' in E. inversion E; subst.
        exists ev1, path. eexists. split; [reflexivity |]. split; assumption.
    + left. revert E. unfold DrizzleMCPServer.executeDrizzleKitCommand.
      rewrite (bind_Return _ _ _ _ _ _ _ L).
      unfold DrizzleMCPServer.on_configLoader, on, ConfigLoader.getConfigDirectory,
        bind, this, throw.
      cbv beta iota. rewrite P. cbv beta iota.
      intros E. inversion E; subst. rewrite app_nil_r.
      split; [eexists; reflexivity | exact Setup].
  - rewrite (executeDrizzleKitCommand_load_failure w command config s h e s1 ev1 L) in E.
    inversion E; subst. left. split; [eexists; reflexivity |].
    eapply Server_loadConfig_emits; eassumption.
Qed.

Lemma migration_runs_drizzle_kit_once_and_last_witness :
  DrizzleMCPServer.executeDrizzleKitCommand empty_project "migrate" JUndefined new_server []
  = (Throw NoConfigFile, new_server, [])
  /\ (((exists e, @Throw (string * string) NoConfigFile = Throw e) /\ Forall is_setup [])
      \/ exists setup path rest,
           [] = (setup ++ [EvExec ("npx drizzle-kit " ++ "migrate" ++ " --config=" ++ rest)
                             (dirname path)])%list
           /\ Forall is_setup setup
           /\ ConfigLoader.configPath (DrizzleMCPServer.configLoader new_server) = Some path).
Proof.
  split; [reflexivity |].
  apply (migration_runs_drizzle_kit_once_and_last empty_project "migrate" JUndefined
           new_server [] (Throw NoConfigFile) new_server []).
  reflexivity.
Defined.

Lemma set_databaseManager_same s :
  DrizzleMCPServer.set_databaseManager (DrizzleMCPServer.databaseManager s) s = s.
Proof. destruct s. reflexivity. Qed.

(** With a configuration held, the handler of [execute_query] either
    ends before any effect, the server unchanged, or is the query itself. *)
Lemma handleExecuteQuery_configured w s h cfg args r s' ev :
  DrizzleMCPServer.config s = Some cfg ->
  DrizzleMCPServer.handleExecuteQuery w args s h = (r, s', ev) ->
  (s' = s /\ ev = [])
  \/ exists q ps r1,
       DrizzleMCPServer.on_databaseManager (DatabaseManager.executeQuery w q ps) s h
       = (r1, s', ev).
Proof.
  intros C.
  unfold DrizzleMCPServer.handleExecuteQuery, DrizzleMCPServer.destructure,
    bind, this, ret, throw.
  destruct args; cbv beta iota; try (intros E; inversion E; subst; left; auto; fail).
  all: match goal with
       | |- context [prop "query" ?a] => destruct (prop "query" a) as [| | | | q | |]
       end; try (intros E; inversion E; subst; left; auto; fail).
  all: destruct (q =? ""); try (intros E; inversion E; subst; left; auto; fail).
  all: rewrite C; cbv beta iota; rewrite !app_nil_r.
  all: match goal with
       | |- context [DrizzleMCPServer.on_databaseManager ?m ?x ?y] =>
           destruct (DrizzleMCPServer.on_databaseManager m x y) as [[[a | e] s1] ev1] eqn:Q
       end; cbn [app]; rewrite ?app_nil_r; intros E; inversion E; subst; right; eauto.
Qed.

(** Once the server holds a configuration, [execute_query] and a resource
    read go straight to the database: the server is left exactly as it
    was, however the call ends, and every effect is a statement or query
    handed to the driver; the config file is not consulted again. *)
Theorem configured_server_only_queries w s h cfg :
  DrizzleMCPServer.config s = Some cfg ->
  (forall args r s' ev,
     DrizzleMCPServer.callTool w "execute_query" args s h = (r, s', ev) ->
     s' = s /\ Forall is_query ev)
  /\ (forall uri r s' ev,
        DrizzleMCPServer.readResource w uri s h = (r, s', ev) ->
        s' = s /\ Forall is_query ev).
Proof.
  intros C.
  assert (OnQ : forall A (m : M DatabaseManager.t A),
             preserves (fun x => x = DrizzleMCPServer.databaseManager s) m ->
             emits is_query m ->
             forall h1 r s' ev,
               DrizzleMCPServer.on_databaseManager m s h1 = (r, s', ev) ->
               s' = s /\ Forall is_query ev).
  { intros A m P Q h1 r s' ev. unfold DrizzleMCPServer.on_databaseManager, on.
    destruct (m (DrizzleMCPServer.databaseManager s) h1) as [[r1 dm] ev1] eqn:Em.
    intros E. inversion E; subst. split.
    - rewrite (P _ _ _ _ _ Em eq_refl). apply set_databaseManager_same.
    - eapply Q; eassumption. }
  split.
  - intros args r s' ev. rewrite callTool_of_dispatch. unfold DrizzleMCPServer.dispatch.
    cbn [String.eqb Ascii.eqb Bool.eqb].
    destruct (DrizzleMCPServer.handleExecuteQuery w args s h) as [[r0 s0] ev0] eqn:H.
    assert (K : s0 = s /\ Forall is_query ev0).
    { destruct (handleExecuteQuery_configured w s h cfg args _ _ _ C H)
        as [[-> ->] | (q & ps & r1 & Q)].
      - split; [reflexivity | constructor].
      - eapply (OnQ _ _ (executeQuery_preserves w _ q ps) (executeQuery_emits w q ps));
          eassumption. }
    destruct r0; intros E; inversion E; subst; exact K.
  - intros uri r s' ev. rewrite (readResource_loaded w uri s h cfg C).
    unfold DrizzleMCPServer.fetch.
    destruct (uri =? RESOURCE_URIS.TABLES);
      [| destruct (uri =? RESOURCE_URIS.SCHEMA)].
    + unfold bind.
      destruct (DrizzleMCPServer.on_databaseManager (DatabaseManager.getTables w) s h)
        as [[[res | e] s1] ev1] eqn:Q;
        destruct (OnQ _ _ (getTables_preserves w _) (getTables_emits w) _ _ _ _ Q) as [-> F];
        unfold ret; cbv beta iota; intros E; inversion E; subst;
        rewrite ?app_nil_r; split; [reflexivity | exact F | reflexivity | exact F].
    + unfold bind.
      destruct (DrizzleMCPServer.on_databaseManager (DatabaseManager.getSchema w) s h)
        as [[[res | e] s1] ev1] eqn:Q;
        destruct (OnQ _ _ (getSchema_preserves w _) (getSchema_emits w) _ _ _ _ Q) as [-> F];
        unfold ret; cbv beta iota; intros E; inversion E; subst;
        rewrite ?app_nil_r; split; [reflexivity | exact F | reflexivity | exact F].
    + unfold throw. intros E. inversion E; subst. split; [reflexivity | constructor].
Qed.

Lemma configured_server_only_queries_witness :
  DrizzleMCPServer.config ready_server = Some sqlite_memory_config
  /\ DrizzleMCPServer.callTool sqlite_project "execute_query"
       (JObj [("query", JStr "SELECT 1")]) ready_server []
     = (Return (text_result
                  ("Query executed successfully:" ++ nl ++ nl ++ "Result:" ++ nl
                     ++ JSON_stringify (JArr []))),
        ready_server, [EvPrepare "SELECT 1"; EvAll "SELECT 1" []])
  /\ ready_server = ready_server
  /\ Forall is_query [EvPrepare "SELECT 1"; EvAll "SELECT 1" []].
Proof.
  split; [reflexivity |]. split; [reflexivity |].
  apply (proj1 (configured_server_only_queries sqlite_project ready_server []
                  sqlite_memory_config eq_refl)
           (JObj [("query", JStr "SELECT 1")])
           (Return (text_result
                      ("Query executed successfully:" ++ nl ++ nl ++ "Result:" ++ nl
                         ++ JSON_stringify (JArr []))))
           ready_server [EvPrepare "SELECT 1"; EvAll "SELECT 1" []]).
  reflexivity.
Defined.

(** A failed initialisation is not retried: when the configuration loads
    but [initialize] throws, the server has recorded the configuration all
    the same, so a following [initialize_database] without a [config]
    argument does nothing at all and answers "Database initialized
    successfully with config: auto-detected". *)
Theorem failed_initialisation_is_reported_done_on_retry w p s h c cl ev1 e dm ev2 :
  DrizzleMCPServer.config s = None \/ truthy p = true ->
  ConfigLoader.loadConfig w p (DrizzleMCPServer.configLoader s) h = (Return c, cl, ev1) ->
  DatabaseManager.initialize w c (DrizzleMCPServer.databaseManager s) (h ++ ev1)%list
  = (Throw e, dm, ev2) ->
  let s1 := DrizzleMCPServer.mk cl dm (Some c) in
  DrizzleMCPServer.loadConfig w p s h = (Throw e, s1, (ev1 ++ ev2)%list)
  /\ forall h',
       DrizzleMCPServer.callTool w "initialize_database" (JObj []) s1 h'
       = (Return (text_result "Database initialized successfully with config: auto-detected"),
          s1, []).
Proof.
  intros Need L Init. cbv zeta. split.
  - unfold DrizzleMCPServer.loadConfig. unfold bind at 1. unfold this at 1.
    cbv beta iota. rewrite app_nil_r.
    assert (Body :
      (loaded <- DrizzleMCPServer.on_configLoader (ConfigLoader.loadConfig w p) ;;
       assign (DrizzleMCPServer.set_config (Some loaded)) ;;
       DrizzleMCPServer.on_databaseManager (DatabaseManager.initialize w loaded)) s h
      = (Throw e, DrizzleMCPServer.mk cl dm (Some c), (ev1 ++ ev2)%list)).
    { unfold bind, DrizzleMCPServer.on_configLoader, DrizzleMCPServer.on_databaseManager,
        on, assign.
      rewrite L. cbv beta iota.
      cbn [DrizzleMCPServer.databaseManager DrizzleMCPServer.set_config
             DrizzleMCPServer.set_configLoader DrizzleMCPServer.configLoader
             DrizzleMCPServer.config].
      rewrite app_nil_r, Init. reflexivity. }
    destruct Need as [N | T].
    + rewrite N. rewrite Body. reflexivity.
    + rewrite T. destruct (DrizzleMCPServer.config s); rewrite Body; reflexivity.
  - intros h'. reflexivity.
Qed.

(** A project whose config file names a dialect the manager does not
    support. *)
Lemma failed_initialisation_is_reported_done_on_retry_witness :
  let s1 := DrizzleMCPServer.mk
              (ConfigLoader.mk "/proj" (Some mysql_config) (Some "/proj/drizzle.config.ts"))
              (DatabaseManager.set_config (Some mysql_config) (DatabaseManager.new "/proj"))
              (Some mysql_config) in
  DrizzleMCPServer.callTool mysql_project "initialize_database" (JObj []) new_server []
  = (Return (mkCallToolResult
               [mkTextContent "text"
                  "Error: Failed to initialize database: Database dialect 'mysql' is not supported. Supported dialects: sqlite, postgresql"]
               (Some true)),
     s1, [EvImportConfig "file:///proj/drizzle.config.ts"])
  /\ DrizzleMCPServer.loadConfig mysql_project JUndefined new_server []
     = (Throw (UnsupportedDialect "mysql"), s1,
        [EvImportConfig "file:///proj/drizzle.config.ts"])
  /\ forall h',
       DrizzleMCPServer.callTool mysql_project "initialize_database" (JObj []) s1 h'
       = (Return (text_result "Database initialized successfully with config: auto-detected"),
          s1, []).
Proof.
  intros s1. split; [reflexivity |].
  exact (failed_initialisation_is_reported_done_on_retry mysql_project JUndefined new_server []
           mysql_config
           (ConfigLoader.mk "/proj" (Some mysql_config) (Some "/proj/drizzle.config.ts"))
           [EvImportConfig "file:///proj/drizzle.config.ts"]
           (UnsupportedDialect "mysql")
           (DatabaseManager.set_config (Some mysql_config) (DatabaseManager.new "/proj"))
           [] (or_introl eq_refl) eq_refl eq_refl).
Defined.

(* ================================================================== *)
(** ** The command line *)
(* ================================================================== *)

Lemma log_has_no_Started verbose line : ~ In Cli.Started (Cli.log verbose line).
Proof.
  unfold Cli.log. destruct verbose; simpl; intros H;
    [destruct H as [H | H]; [discriminate | exact H] | exact H].
Qed.

Lemma log_has_no_Exit verbose line code : ~ In (Cli.Exit code) (Cli.log verbose line).
Proof.
  unfold Cli.log. destruct verbose; simpl; intros H;
    [destruct H as [H | H]; [discriminate | exact H] | exact H].
Qed.

Lemma effects_have_no_Exit ev code : ~ In (Cli.Exit code) (map Cli.Effect ev).
Proof. intros I. apply in_map_iff in I. destruct I as (e & E & _). discriminate. Qed.

Lemma effects_have_no_Started ev : ~ In Cli.Started (map Cli.Effect ev).
Proof. intros I. apply in_map_iff in I. destruct I as (e & E & _). discriminate. Qed.

(** Early validation: when a config path is given, by the option or by the
    argument, and loading it fails, the process writes
    ["Error starting server: " + message] to standard error and exits with
    status 1; the server is never started. *)
Theorem cli_bad_config_exits_before_start w start configArg options e s1 ev :
  let configPath :=
    if truthy (Cli.config options) then Cli.config options else configArg in
  truthy configPath = true ->
  DrizzleMCPServer.loadConfig w configPath
    (DrizzleMCPServer.new w (JStr (resolve (process_cwd w) [Cli.cwd options]))) []
  = (Throw e, s1, ev) ->
  exists before,
    Cli.action w start configArg options
    = (Cli.Exited 1,
       (before ++ [Cli.Stderr ("Error starting server: " ++ message e); Cli.Exit 1])%list)
    /\ ~ In Cli.Started before.
Proof.
  cbv zeta. intros T L. unfold Cli.action. rewrite T, L. unfold Cli.fail.
  eexists. split.
  - rewrite !app_assoc. reflexivity.
  - intros I. repeat (apply in_app_or in I; destruct I as [I | I]);
      first [ apply log_has_no_Started in I; exact I
            | apply effects_have_no_Started in I; exact I ].
Qed.

Lemma cli_bad_config_exits_before_start_witness :
  truthy (JStr "missing.config.ts") = true
  /\ exists before,
       Cli.action sqlite_project (Return tt) (JStr "missing.config.ts")
         (Cli.mkOptions JUndefined "/proj" false)
       = (Cli.Exited 1,
          (before ++ [Cli.Stderr
                        ("Error starting server: "
                           ++ message (ConfigNotFound "/proj/missing.config.ts"));
                      Cli.Exit 1])%list)
       /\ ~ In Cli.Started before.
Proof.
  split; [reflexivity |].
  apply (cli_bad_config_exits_before_start sqlite_project (Return tt)
           (JStr "missing.config.ts") (Cli.mkOptions JUndefined "/proj" false)
           (ConfigNotFound "/proj/missing.config.ts") new_server []).
  - reflexivity.
  - reflexivity.
Defined.

(** The [--config] option wins over the positional argument, and without
    either nothing is loaded before the server starts: the server then
    runs with no configuration, to be loaded on first use. *)
Theorem cli_option_wins_and_loading_is_lazy w start options :
  (truthy (Cli.config options) = true ->
   forall configArg configArg',
     Cli.action w start configArg options = Cli.action w start configArg' options)
  /\ (truthy (Cli.config options) = false ->
      forall configArg,
        truthy configArg = false -> start = Return tt ->
        exists out,
          Cli.action w start configArg options
          = (Cli.Running
               (DrizzleMCPServer.new w (JStr (resolve (process_cwd w) [Cli.cwd options]))),
             out)
          /\ forall e, ~ In (Cli.Effect e) out).
Proof.
  split.
  - intros T a a'. unfold Cli.action. rewrite T. reflexivity.
  - intros F a Fa ->. unfold Cli.action. rewrite F, Fa. cbn [map app].
    eexists. split; [reflexivity |].
    intros e I. unfold Cli.log in I.
    destruct (Cli.verbose options); simpl in I;
      repeat (destruct I as [I | I]; [discriminate I |]); exact I.
Qed.

Lemma cli_option_wins_and_loading_is_lazy_witness :
  Cli.action sqlite_project (Return tt) (JStr "ignored.config.ts")
    (Cli.mkOptions (JStr "drizzle.config.ts") "/proj" false)
  = Cli.action sqlite_project (Return tt) JUndefined
      (Cli.mkOptions (JStr "drizzle.config.ts") "/proj" false)
  /\ exists out,
       Cli.action empty_project (Return tt) JUndefined (Cli.mkOptions JUndefined "/proj" true)
       = (Cli.Running
            (DrizzleMCPServer.new empty_project (JStr (resolve "/proj" ["/proj"]))), out)
       /\ forall e, ~ In (Cli.Effect e) out.
Proof.
  split.
  - apply (proj1 (cli_option_wins_and_loading_is_lazy sqlite_project (Return tt)
                    (Cli.mkOptions (JStr "drizzle.config.ts") "/proj" false))).
    reflexivity.
  - apply (proj2 (cli_option_wins_and_loading_is_lazy empty_project (Return tt)
                    (Cli.mkOptions JUndefined "/proj" true)));
      reflexivity.
Defined.

Ltac absurd_output I :=
  first [ exact I
        | discriminate I
        | apply log_has_no_Exit in I; exact I
        | apply effects_have_no_Exit in I; exact I
        | apply log_has_no_Started in I; exact I
        | apply effects_have_no_Started in I; exact I
        | apply in_app_or in I; destruct I as [I | I]; absurd_output I
        | destruct I as [I | I]; absurd_output I
        | match type of I with
          | context [if ?b then _ else _] => destruct b; absurd_output I
          end ].

(** [cli.ts], the command's action: it either leaves a started server running,
    in which case [start] returned, the start is in the output and no exit is, or it
    exits with code 1, and then the last two outputs are the line
    [Error starting server: ...] on stderr and the exit, with no start before them. *)
Theorem cli_action_runs_or_exits_1 w start configArg options outcome out :
  Cli.action w start configArg options = (outcome, out) ->
  (exists server, outcome = Cli.Running server /\ start = Return tt
                  /\ In Cli.Started out /\ forall code, ~ In (Cli.Exit code) out)
  \/ (outcome = Cli.Exited 1
      /\ exists before line, out = (before ++ [Cli.Stderr line; Cli.Exit 1])%list
                             /\ ~ In Cli.Started before).
Proof.
  unfold Cli.action.
  set (configPath := if truthy (Cli.config options) then Cli.config options else configArg).
  set (server := DrizzleMCPServer.new w _).
  destruct (if truthy configPath
            then DrizzleMCPServer.loadConfig w configPath server []
            else (Return tt, server, [])) as [[[u | e] s1] ev].
  - destruct start as [[] | e].
    + intros E. injection E as <- <-. left. exists s1.
      split; [reflexivity |]. split; [reflexivity |]. split.
      * apply in_or_app. right. apply in_or_app. right. apply in_or_app. right.
        left. reflexivity.
      * intros code I. absurd_output I.
    + intros E. injection E as <- <-. right. split; [reflexivity |]. unfold Cli.fail.
      eexists. eexists. split; [rewrite !app_assoc; reflexivity |].
      intros I. absurd_output I.
  - intros E. injection E as <- <-. right. split; [reflexivity |]. unfold Cli.fail.
    eexists. eexists. split; [rewrite !app_assoc; reflexivity |].
    intros I. absurd_output I.
Qed.

Lemma cli_action_runs_or_exits_1_witness :
  Cli.action sqlite_project (Throw (ExternalError "stdin closed")) JUndefined
    (Cli.mkOptions JUndefined "/proj" false)
  = (Cli.Exited 1, [Cli.Stderr "Error starting server: stdin closed"; Cli.Exit 1])
  /\ ((exists server, Cli.Exited 1 = Cli.Running server
                      /\ Throw (ExternalError "stdin closed") = Return tt
                      /\ In Cli.Started
                           [Cli.Stderr "Error starting server: stdin closed"; Cli.Exit 1]
                      /\ forall code,
                           ~ In (Cli.Exit code)
                               [Cli.Stderr "Error starting server: stdin closed"; Cli.Exit 1])
      \/ (Cli.Exited 1 = Cli.Exited 1
          /\ exists before line,
               [Cli.Stderr "Error starting server: stdin closed"; Cli.Exit 1]
               = (before ++ [Cli.Stderr line; Cli.Exit 1])%list
               /\ ~ In Cli.Started before)).
Proof.
  split; [reflexivity |].
  apply (cli_action_runs_or_exits_1 sqlite_project (Throw (ExternalError "stdin closed"))
           JUndefined (Cli.mkOptions JUndefined "/proj" false)).
  reflexivity.
Defined.

(** Shutdown on a signal.  The handler logs when verbose, has the manager
    close the connection, and exits with status 0 as the last thing it
    does: without a client nothing is closed; on a client that has the
    method of the stored dialect, [close()] is called under sqlite and
    [end()] under postgresql, once.  When the client lacks that method (a
    better-sqlite3 database under postgresql, a pg pool under sqlite),
    [close] throws, the handler ends in a rejection nobody catches, and
    [process.exit(0)] is not reached.  A client held under a dialect that
    is not supported is dropped unclosed before the exit. *)
Theorem cli_shutdown_closes_then_exits_0 verbose server h :
  let manager := DrizzleMCPServer.databaseManager server in
  let said := Cli.log verbose "Shutting down server..." in
  (DatabaseManager.client manager = None ->
   Cli.shutdown verbose server h = (Cli.Exited 0, said ++ [Cli.Exit 0])%list)
  /\ (forall cl,
        DatabaseManager.client manager = Some cl ->
        DatabaseManager.dialect_is manager "sqlite" = true ->
        (forall s, cl <> PgPool s) ->
        Cli.shutdown verbose server h
        = (Cli.Exited 0, said ++ [Cli.Effect EvClose; Cli.Exit 0])%list)
  /\ (forall cl,
        DatabaseManager.client manager = Some cl ->
        DatabaseManager.dialect_is manager "postgresql" = true ->
        (forall u, cl <> SqliteDatabase u) ->
        Cli.shutdown verbose server h
        = (Cli.Exited 0, said ++ [Cli.Effect EvEnd; Cli.Exit 0])%list)
  /\ (forall u,
        DatabaseManager.client manager = Some (SqliteDatabase u) ->
        DatabaseManager.dialect_is manager "postgresql" = true ->
        Cli.shutdown verbose server h
        = (Cli.Unhandled (TypeError "this.client.end is not a function"), said))
  /\ (forall s,
        DatabaseManager.client manager = Some (PgPool s) ->
        DatabaseManager.dialect_is manager "sqlite" = true ->
        Cli.shutdown verbose server h
        = (Cli.Unhandled (TypeError "this.client.close is not a function"), said))
  /\ (forall cl,
        DatabaseManager.client manager = Some cl ->
        DatabaseManager.dialect_is manager "sqlite" = false ->
        DatabaseManager.dialect_is manager "postgresql" = false ->
        Cli.shutdown verbose server h = (Cli.Exited 0, said ++ [Cli.Exit 0])%list).
Proof.
  intros manager said.
  unfold Cli.shutdown, DrizzleMCPServer.stop, DrizzleMCPServer.on_databaseManager, on.
  fold manager. fold said.
  split.
  - intros C. unfold DatabaseManager.close, bind, this. cbv beta iota. rewrite C.
    reflexivity.
  - repeat split.
    + intros cl C D N. rewrite (close_with_client manager h cl C), D. cbv zeta.
      destruct cl as [u | s | s]; try reflexivity. destruct (N s eq_refl).
    + intros cl C D N. rewrite (close_with_client manager h cl C), D. cbv zeta.
      destruct (DatabaseManager.dialect_is manager "sqlite") eqn:S.
      * rewrite (dialect_is_exclusive manager S) in D. discriminate D.
      * destruct cl as [u | s | s]; try reflexivity. destruct (N u eq_refl).
    + intros u C D. rewrite (close_with_client manager h _ C), D. cbv zeta.
      destruct (DatabaseManager.dialect_is manager "sqlite") eqn:S.
      * rewrite (dialect_is_exclusive manager S) in D. discriminate D.
      * cbn [map]. rewrite app_nil_r. reflexivity.
    + intros s C D. rewrite (close_with_client manager h _ C), D. cbv zeta.
      cbn [map]. rewrite app_nil_r. reflexivity.
    + intros cl C S P. rewrite (close_with_client manager h cl C), S, P. reflexivity.
Qed.

Lemma cli_shutdown_closes_then_exits_0_witness :
  DatabaseManager.client (DrizzleMCPServer.databaseManager ready_server)
  = Some (SqliteDatabase ":memory:")
  /\ DatabaseManager.dialect_is (DrizzleMCPServer.databaseManager ready_server) "sqlite" = true
  /\ Cli.shutdown true ready_server []
     = (Cli.Exited 0,
        [Cli.Stderr "Shutting down server..."; Cli.Effect EvClose; Cli.Exit 0])
  /\ DatabaseManager.client (DrizzleMCPServer.databaseManager closed_server) = None
  /\ Cli.shutdown false closed_server [] = (Cli.Exited 0, [Cli.Exit 0]).
Proof.
  pose proof (cli_shutdown_closes_then_exits_0 true ready_server []) as Open.
  pose proof (cli_shutdown_closes_then_exits_0 false closed_server []) as Closed.
  cbv zeta in Open, Closed.
  destruct Open as (_ & Sqlite & _). destruct Closed as (NoClient & _).
  split; [reflexivity |]. split; [reflexivity |]. split; [| split; [reflexivity |]].
  - apply (Sqlite (SqliteDatabase ":memory:") eq_refl eq_refl). intros s. discriminate.
  - apply (NoClient eq_refl).
Defined.
